(** * LearnNest server: a shallow embedding of the request pipeline

    The server (src/index.js and its earlier snapshots) is an Express
    application: every route is a chain of middleware functions ending in a
    handler, every handler issues a few commands to a MongoDB database, and
    two vendor SDKs are called on the way (Firebase for identity tokens,
    Stripe for payment intents).

    The embedding keeps that shape.  Documents are finite maps from field
    names to values, a collection is the list of its documents in insertion
    order, the database maps collection names to collections.  Everything a
    request can do to the outside is a computation in a state-and-exception
    monad over a [world]; the vendor SDKs, the clock and the failure of store
    commands are functions gathered in an [env]. *)

From Stdlib Require Import Floats ZArith QArith Qround Ascii String.
From stdpp Require Import gmap strings list pretty.

Set Warnings "-inexact-float".

Open Scope string_scope.

(** ** Values and documents *)

(** The scalar values a JSON body or a stored document carries.  JavaScript
    numbers are IEEE-754 doubles, hence [float]; [VOid] is a BSON ObjectId,
    written by its hexadecimal text.  A field that is absent reads as
    [undefined], which is [None] of [option value] throughout. *)
Inductive value :=
| VNull
| VBool (b : bool)
| VNum (n : float)
| VStr (s : string)
| VOid (o : string).

Abbreviation doc := (gmap string value).

(** [x === 'literal'] for a field read [x]. *)
Definition strictEqStr (x : option value) (lit : string) : bool :=
  match x with
  | Some (VStr s) => String.eqb s lit
  | _ => false
  end.

(** Truthiness of a value that is a string or [undefined]. *)
Definition truthy (x : option string) : bool :=
  match x with
  | Some s => negb (String.eqb s "")
  | None => false
  end.

(** [s.startsWith(p)]. *)
Definition startsWith (s p : string) : bool := String.prefix p s.

(** [s.split(sep)] for a one-character separator. *)
Fixpoint split (sep : ascii) (s : string) : list string :=
  match s with
  | EmptyString => [EmptyString]
  | String c s' =>
      if Ascii.eqb c sep then EmptyString :: split sep s'
      else match split sep s' with
           | h :: t => String c h :: t
           | [] => [String c EmptyString]
           end
  end.

(** ** Numbers read from query strings *)

(** The doubles that [parseInt] and the arithmetic on its results produce:
    NaN, the two infinities, and the doubles whose value is an integer,
    written by that integer.  [Int z] always holds a [z] that a double
    represents: every integer below 2^53 in magnitude, and above it only
    the rounded ones.  The sign of a zero is not kept: [-0] answers as 0
    in JSON, is falsy like 0, and nothing here divides by it. *)
Inductive jsint :=
| NaN
| Int (z : Z)
| Infinity (negative : bool).

(** [Number.MAX_SAFE_INTEGER]: up to here every integer is a double. *)
Definition MAX_SAFE_INTEGER : Z := (2 ^ 53 - 1)%Z.

(** The integer nearest to num / den, a tie going to the even one. *)
Definition roundHalfEven (num den : Z) : Z :=
  let q := (num / den)%Z in
  let r := (num mod den)%Z in
  if (2 * r <? den)%Z then q
  else if (den <? 2 * r)%Z then (q + 1)%Z
  else if Z.even q then q else (q + 1)%Z.

(** The double nearest to an integer: the integer itself up to 2^53, above
    it the nearest multiple of the power of two that leaves 53 bits, and
    an infinity from 2^1024 on. *)
Definition roundDouble (z : Z) : jsint :=
  let a := Z.abs z in
  if (a <? 2 ^ 53)%Z then Int z
  else
    let s := (Z.log2 a - 52)%Z in
    let v := (roundHalfEven a (2 ^ s) * 2 ^ s)%Z in
    if (2 ^ 1024 <=? v)%Z then Infinity (z <? 0)%Z
    else Int (if (z <? 0)%Z then - v else v)%Z.

Definition isWhite (c : ascii) : bool :=
  let n := nat_of_ascii c in
  Nat.eqb n 32 || (Nat.leb 9 n && Nat.leb n 13).

Fixpoint trimStart (s : string) : string :=
  match s with
  | String c s' => if isWhite c then trimStart s' else s
  | EmptyString => s
  end.

Definition digitVal (radix : Z) (c : ascii) : option Z :=
  let n := Z.of_nat (nat_of_ascii c) in
  let d := if (48 <=? n)%Z && (n <=? 57)%Z then (n - 48)%Z
           else if (97 <=? n)%Z && (n <=? 122)%Z then (n - 87)%Z
           else if (65 <=? n)%Z && (n <=? 90)%Z then (n - 55)%Z
           else radix in
  if (d <? radix)%Z then Some d else None.

Fixpoint digits (radix : Z) (s : string) (acc : option Z) : option Z :=
  match s with
  | String c s' =>
      match digitVal radix c with
      | Some d => digits radix s' (Some (radix * default 0%Z acc + d)%Z)
      | None => acc
      end
  | EmptyString => acc
  end.

(** [parseInt(x)] with no radix: leading white space, a sign, an optional
    [0x] prefix, then the longest run of digits; [NaN] when there is none.
    The value of the digits becomes the nearest double.
    [parseInt(undefined)] reads the text "undefined" and is [NaN]. *)
Definition parseInt (x : option string) : jsint :=
  match x with
  | None => NaN
  | Some s =>
      let s := trimStart s in
      let '(neg, s) :=
        match s with
        | String "-" s' => (true, s')
        | String "+" s' => (false, s')
        | _ => (false, s)
        end in
      let '(radix, s) :=
        match s with
        | String "0" (String "x" s') => (16%Z, s')
        | String "0" (String "X" s') => (16%Z, s')
        | _ => (10%Z, s)
        end in
      match digits radix s None with
      | Some n => roundDouble (if neg : bool then (- n)%Z else n)
      | None => NaN
      end
  end.

(** [a || d] on such a number: [NaN] and [0] are falsy. *)
Definition orDefault (a : jsint) (d : Z) : jsint :=
  match a with
  | Int z => if (z =? 0)%Z then Int d else Int z
  | NaN => Int d
  | Infinity n => Infinity n
  end.

(** [a * b] on doubles: the product of two integers is rounded to the
    nearest double, an infinity times zero is NaN. *)
Definition jsMul (a b : jsint) : jsint :=
  match a, b with
  | NaN, _ | _, NaN => NaN
  | Int x, Int y => roundDouble (x * y)
  | Int x, Infinity n | Infinity n, Int x =>
      if (x =? 0)%Z then NaN else Infinity (xorb n (x <? 0)%Z)
  | Infinity n, Infinity m => Infinity (xorb n m)
  end.

(** [floor (log2 (n / d))] for positive [n] and [d]. *)
Definition log2Q (n d : Z) : Z :=
  let e := (Z.log2 n - Z.log2 d)%Z in
  if (n * 2 ^ Z.max 0 (- e) <? d * 2 ^ Z.max 0 e)%Z then (e - 1)%Z else e.

(** The double nearest to n / d for positive [n] and [d], as the rational
    m / 2^s: 53 bits are kept, fewer in the subnormal range. *)
Definition nearestDouble (n d : Z) : Q :=
  let s := Z.min (52 - log2Q n d) 1074 in
  let m := roundHalfEven (n * 2 ^ Z.max 0 s) (d * 2 ^ Z.max 0 (- s)) in
  inject_Z (m * 2 ^ Z.max 0 (- s)) / inject_Z (2 ^ Z.max 0 s).

(** [Math.ceil(a / b)] on doubles: the quotient is rounded to the nearest
    double before the ceiling is taken. *)
Definition ceilDiv (a b : jsint) : jsint :=
  match a, b with
  | NaN, _ | _, NaN => NaN
  | Infinity _, Infinity _ => NaN
  | Infinity n, Int y => Infinity (xorb n (y <? 0)%Z)
  | Int _, Infinity _ => Int 0
  | Int x, Int y =>
      if (y =? 0)%Z then (if (x =? 0)%Z then NaN else Infinity (x <? 0)%Z)
      else if (x =? 0)%Z then Int 0
      else
        let q := nearestDouble (Z.abs x) (Z.abs y) in
        Int (Qceiling (if xorb (x <? 0)%Z (y <? 0)%Z then - q else q))
  end.

(** [Number.isInteger(x)] on a double, read off its mantissa and exponent. *)
Definition isInteger (x : float) : bool :=
  match Prim2SF x with
  | S754_zero _ => true
  | S754_finite _ m e => (0 <=? e)%Z || (Z.pos m mod 2 ^ (- e) =? 0)%Z
  | _ => false
  end.

(** ** Errors, responses, requests *)

Record exn := Exn { name : string; message : string }.

Inductive payload :=
| PObject (fields : list (string * option value))
| PDocs (ds : list doc)
| PInsertResult (insertedId : value)
| PPage (total : nat) (pageNo : jsint) (totalPages : jsint) (data : list doc)
| PFailure (msg : string) (error : exn).

Record response := Response { status : nat; payload_of : payload }.

(** [res.send(x)] without [res.status]: Express answers 200. *)
Definition send (p : payload) : response := Response 200 p.

(** The parts of [req] that the handlers read.  A body is a JSON object
    whose fields are scalars, the only kind the handlers modelled here
    look into; a request without a body is not covered. *)
Record request := Request {
  authorization : option string;   (* req.headers.authorization *)
  query : gmap string string;      (* req.query *)
  params : gmap string string;     (* req.params *)
  body : doc;                      (* req.body, parsed by express.json() *)
  decoded : option doc;            (* req.decoded, set by verifyFirebaseToken *)
}.

Definition setDecoded (req : request) (d : doc) : request :=
  {| authorization := authorization req; query := query req;
     params := params req; body := body req; decoded := Some d |}.

(** ** Regular expressions *)

(** A regular expression object, [new RegExp(source, flags)]. *)
Record regexp := RegExp { source : string; flags : string }.

(** The store matches a [$regex] filter with its own engine.  On one kind
    of pattern every engine agrees, and that kind is written out here: the
    pattern is printable ASCII text in which no character is an operator
    except the dot, the flags are none or [i], and the text it is tried on
    is printable ASCII.  Such a pattern matches where its characters occur
    one after the other, a dot standing for any character, and with the
    flag [i] letters differing only in case count as equal. *)
Definition printable (c : ascii) : bool :=
  let n := nat_of_ascii c in Nat.leb 32 n && Nat.leb n 126.

Definition isOperator (c : ascii) : bool :=
  existsb (Ascii.eqb c) (list_ascii_of_string "\^$|?*+()[]{}").

Definition plainPattern (p : string) : bool :=
  forallb (fun c => printable c && negb (isOperator c)) (list_ascii_of_string p).

Definition plainText (s : string) : bool :=
  forallb printable (list_ascii_of_string s).

Definition lowerAscii (c : ascii) : ascii :=
  let n := nat_of_ascii c in
  if Nat.leb 65 n && Nat.leb n 90 then ascii_of_nat (n + 32) else c.

Definition charMatch (ignoreCase : bool) (pc sc : ascii) : bool :=
  Ascii.eqb pc "."
  || (if ignoreCase then Ascii.eqb (lowerAscii pc) (lowerAscii sc)
      else Ascii.eqb pc sc).

(** The pattern matches at the start of the text. *)
Fixpoint matchHere (ignoreCase : bool) (p s : string) : bool :=
  match p with
  | EmptyString => true
  | String pc p' =>
      match s with
      | EmptyString => false
      | String sc s' => charMatch ignoreCase pc sc && matchHere ignoreCase p' s'
      end
  end.

(** The pattern matches somewhere in the text. *)
Fixpoint matchAnywhere (ignoreCase : bool) (p s : string) : bool :=
  matchHere ignoreCase p s
  || match s with
     | EmptyString => false
     | String _ s' => matchAnywhere ignoreCase p s'
     end.

(** A text equals a pattern character by character: a dot of the pattern
    stands for any character, any other character for itself up to the case
    of letters. *)
Inductive sameIgnoringCase : string -> string -> Prop :=
| same_empty : sameIgnoringCase "" ""
| same_char pc sc p s :
    pc = "."%char \/ lowerAscii pc = lowerAscii sc ->
    sameIgnoringCase p s ->
    sameIgnoringCase (String pc p) (String sc s).

(** ** The store *)

Inductive filter :=
| FAll                                  (* find() *)
| FEq (k : string) (v : option value)   (* { k: v } *)
| FNe (k : string) (v : option value)   (* { k: { $ne: v } } *)
| FRegex (k : string) (re : regexp)     (* { k: { $regex: re } } *)
| FGt (k : string) (n : float).         (* { k: { $gt: n } } *)

Inductive op := FindOne | Find | CountDocuments | InsertOne | UpdateOne.

Inductive event :=
| EvVerify (token : string)                  (* admin.auth().verifyIdToken(token) *)
| EvStore (coll : string) (o : op)           (* a command sent to a collection *)
| EvPay (amount : float) (currency : string). (* stripe.paymentIntents.create *)

Record world := World {
  db : gmap string (list doc);
  trace : list event;      (* calls to the outside so far, oldest first *)
  storeCalls : nat;        (* number of store commands sent so far *)
  dateCalls : nat;         (* number of [new Date()] evaluated so far *)
}.

(** What the server does not decide itself. *)
Record env := Env {
  verifyIdToken : string -> exn + doc;          (* the identity oracle *)
  storeFails : nat -> option exn;               (* does the n-th store command throw? *)
  now : nat -> string;                          (* n-th [new Date().toISOString()] *)
  freshId : nat -> string;                      (* _id the driver gives an inserted document *)
  newObjectId : option value -> exn + string;   (* [new ObjectId(x)] *)
  newRegExp : string -> string -> option exn;   (* does [new RegExp(p, flags)] throw? *)
  regExpTest : regexp -> string -> bool;        (* the store's engine, for the patterns
                                                   and texts not written out above *)
  stringToNumber : string -> float;             (* ToNumber on a string *)
  paymentIntentsCreate : float -> string -> exn + doc;
  cursorInvalid : option jsint -> option jsint -> exn + (nat * option nat);
                                                (* what the store makes of a skip and a
                                                   limit when one of them is NaN, an
                                                   infinity, above 2^53 - 1 in magnitude,
                                                   or a negative skip: an error, or the
                                                   number of documents it skips and at
                                                   most returns *)
}.

Inductive result (A : Type) :=
| Ok (a : A)
| Throw (e : exn).
Arguments Ok {A} a.
Arguments Throw {A} e.

(** A computation: it may change the world and ends in a value or in a
    thrown error (a rejected promise); what it did before throwing stays. *)
Definition M (A : Type) : Type := world -> result A * world.

Definition ret {A} (a : A) : M A := fun w => (Ok a, w).

Definition bind {A B} (m : M A) (k : A -> M B) : M B :=
  fun w => match m w with
           | (Ok a, w') => k a w'
           | (Throw e, w') => (Throw e, w')
           end.

Definition throw {A} (e : exn) : M A := fun w => (Throw e, w).

(** [try { m } catch (error) { h error }]. *)
Definition tryCatch {A} (m : M A) (h : exn -> M A) : M A :=
  fun w => match m w with
           | (Ok a, w') => (Ok a, w')
           | (Throw e, w') => h e w'
           end.

Notation "x <- m ;; k" := (bind m (fun x => k))
  (at level 20, m at level 99, k at level 200, only parsing).
Notation "' pat <- m ;; k" := (bind m (fun x => match x with pat => k end))
  (at level 20, pat pattern, m at level 99, k at level 200, only parsing).

Definition logEvent (e : event) (w : world) : world :=
  {| db := db w; trace := trace w ++ [e];
     storeCalls := storeCalls w; dateCalls := dateCalls w |}.

Definition collection (d : gmap string (list doc)) (coll : string) : list doc :=
  default [] (d !! coll).

(** BSON equality of two values; unlike [===] it equates NaN with itself. *)
Definition bsonEq (a b : value) : bool :=
  match a, b with
  | VNull, VNull => true
  | VBool x, VBool y => Bool.eqb x y
  | VNum x, VNum y => PrimFloat.eqb x y || (PrimFloat.is_nan x && PrimFloat.is_nan y)
  | VStr x, VStr y => String.eqb x y
  | VOid x, VOid y => String.eqb x y
  | _, _ => false
  end.

(** [{ k: v }] on a document.  The driver sends [undefined] as [null], and
    [null] also matches a document without the field. *)
Definition matchEq (d : doc) (k : string) (v : option value) : bool :=
  match d !! k with
  | Some x => bsonEq x (default VNull v)
  | None => bsonEq VNull (default VNull v)
  end.

Definition matchGt (d : doc) (k : string) (n : float) : bool :=
  match d !! k with
  | Some (VNum x) => PrimFloat.ltb n x
  | _ => false
  end.

(** The [_id] of a document to insert: its own, or a fresh one when it is
    absent or [null]. *)
Definition idOr (fresh : value) (x : option value) : value :=
  match x with
  | None | Some VNull => fresh
  | Some v => v
  end.

(** [{ $set: { k1: v1, ... } }] applied to a document. *)
Definition setFields (fs : list (string * option value)) (d : doc) : doc :=
  foldl (fun d' kv => <[fst kv := default VNull (snd kv)]> d') d fs.

(** Only the first document that matches is updated. *)
Fixpoint updateFirst (p : doc -> bool) (u : doc -> doc) (c : list doc) : list doc :=
  match c with
  | [] => []
  | d :: c' => if p d then u d :: c' else d :: updateFirst p u c'
  end.

(** [cursor.skip(n)] for a number the store takes as it is: a non-negative
    integer up to 2^53 - 1. *)
Definition validSkip (skip : option jsint) : option nat :=
  match skip with
  | None => Some 0
  | Some (Int z) =>
      if (0 <=? z)%Z && (z <=? MAX_SAFE_INTEGER)%Z then Some (Z.to_nat z) else None
  | Some _ => None
  end.

(** [cursor.limit(n)] for an integer up to 2^53 - 1 in magnitude: the driver
    sends a negative limit as its absolute value, and 0 means no limit. *)
Definition validLimit (limit : option jsint) : option (option nat) :=
  match limit with
  | None => Some None
  | Some (Int z) =>
      if (Z.abs z <=? MAX_SAFE_INTEGER)%Z
      then Some (if (z =? 0)%Z then None else Some (Z.abs_nat z))
      else None
  | Some _ => None
  end.

(** The documents of a result that a cursor returns after skipping and
    limiting. *)
Definition window (sl : nat * option nat) (l : list doc) : list doc :=
  match snd sl with
  | Some n => firstn n (skipn (fst sl) l)
  | None => skipn (fst sl) l
  end.

(** Sorting on a numeric field, largest first; records with equal values
    keep the order of the collection (insertion sort). *)
Definition numField (k : string) (d : doc) : float :=
  match d !! k with
  | Some (VNum x) => x
  | _ => neg_infinity
  end.

Fixpoint insertDesc (k : string) (d : doc) (l : list doc) : list doc :=
  match l with
  | [] => [d]
  | x :: l' =>
      if PrimFloat.leb (numField k x) (numField k d) then d :: l
      else x :: insertDesc k d l'
  end.

Definition sortDescBy (k : string) (l : list doc) : list doc :=
  foldr (insertDesc k) [] l.

(** ** The server *)

Inductive step :=
| Next (req : request)    (* the middleware called next() *)
| Send (r : response).    (* the middleware answered *)

Definition middleware := request -> M step.
Definition handler := request -> M response.

Inductive method := GET | POST | PATCH | PUT | DELETE.

(** The three middleware functions a route can register before its handler. *)
Inductive gate := VerifyFirebaseToken | VerifyAdmin | VerifyTeacher.

Record route := Route { rmethod : method; rpath : string; gates : list gate }.

Definition usersCollection := "users".
Definition teacherRequestCollection := "teachOnLearnNest".
Definition classCollection := "all-class".

Definition message_ (m : string) : payload := PObject [("message", Some (VStr m))].

Section Server.
Context (E : env).

Definition sent (coll : string) (o : op) (w : world) : world :=
  {| db := db w; trace := trace w ++ [EvStore coll o];
     storeCalls := S (storeCalls w); dateCalls := dateCalls w |}.

Definition setColl (coll : string) (c : list doc) (w : world) : world :=
  {| db := <[coll := c]> (db w); trace := trace w;
     storeCalls := storeCalls w; dateCalls := dateCalls w |}.

(** A command that only reads.  It is logged and counted, then it throws
    when the schedule of [E] says so, and runs otherwise. *)
Definition storeRead {A} (coll : string) (o : op) (f : list doc -> A) : M A :=
  fun w =>
    match storeFails E (storeCalls w) with
    | Some e => (Throw e, sent coll o w)
    | None => (Ok (f (collection (db w) coll)), sent coll o w)
    end.

(** A command that writes. *)
Definition storeWrite {A} (coll : string) (o : op)
    (f : list doc -> A * list doc) : M A :=
  fun w =>
    match storeFails E (storeCalls w) with
    | Some e => (Throw e, sent coll o w)
    | None => (Ok (fst (f (collection (db w) coll))),
               setColl coll (snd (f (collection (db w) coll))) (sent coll o w))
    end.

(** Whether a regular expression matches a text, as the store decides it. *)
Definition regexTest (re : regexp) (s : string) : bool :=
  if plainPattern (source re) && plainText s
     && (String.eqb (flags re) "" || String.eqb (flags re) "i")
  then matchAnywhere (String.eqb (flags re) "i") (source re) s
  else regExpTest E re s.

Definition matches (f : filter) (d : doc) : bool :=
  match f with
  | FAll => true
  | FEq k v => matchEq d k v
  | FNe k v => negb (matchEq d k v)
  | FRegex k re =>
      match d !! k with
      | Some (VStr s) => regexTest re s
      | _ => false
      end
  | FGt k n => matchGt d k n
  end.

Definition findOne (coll : string) (f : filter) : M (option doc) :=
  storeRead coll FindOne (fun c => List.find (matches f) c).

Definition countDocuments (coll : string) (f : filter) : M nat :=
  storeRead coll CountDocuments (fun c => length (List.filter (matches f) c)).

(** The skip and the limit of a cursor, as the store applies them. *)
Definition cursorWindow (skip limit : option jsint) : exn + (nat * option nat) :=
  match validSkip skip, validLimit limit with
  | Some s, Some l => inr (s, l)
  | _, _ => cursorInvalid E skip limit
  end.

(** [collection.find(f).sort({k: -1}).skip(s).limit(n).toArray()], each of
    the three cursor calls optional. *)
Definition find (coll : string) (f : filter) (sortKey : option string)
    (skip limit : option jsint) : M (list doc) :=
  r <- storeRead coll Find (fun c =>
         let l := List.filter (matches f) c in
         let l := match sortKey with Some k => sortDescBy k l | None => l end in
         match cursorWindow skip limit with
         | inl e => inl e
         | inr sl => inr (window sl l)
         end);;
  match r with
  | inl e => throw e
  | inr l => ret l
  end.

(** [insertOne]: the driver adds an [_id] when the document has none, or
    has [null] there. *)
Definition insertOne (coll : string) (d : doc) : M value :=
  fun w =>
    let id := idOr (VOid (freshId E (storeCalls w))) (d !! "_id") in
    storeWrite coll InsertOne (fun c => (id, (c ++ [<["_id" := id]> d])%list)) w.

(** [updateOne(f, { $set: fs })]; the answer is the matched count. *)
Definition updateOne (coll : string) (f : filter)
    (fs : list (string * option value)) : M nat :=
  storeWrite coll UpdateOne (fun c =>
    (if existsb (matches f) c then 1 else 0,
     updateFirst (matches f) (setFields fs) c)).

(** [new Date().toISOString()]. *)
Definition newDateISO : M string :=
  fun w => (Ok (now E (dateCalls w)),
            {| db := db w; trace := trace w;
               storeCalls := storeCalls w; dateCalls := S (dateCalls w) |}).

Definition liftSum {A} (x : exn + A) : M A :=
  match x with
  | inl e => throw e
  | inr a => ret a
  end.

(** [await admin.auth().verifyIdToken(token)]. *)
Definition authVerifyIdToken (token : string) : M doc :=
  fun w => liftSum (verifyIdToken E token) (logEvent (EvVerify token) w).

(** [await stripe.paymentIntents.create({ amount, currency, ... })]. *)
Definition stripePaymentIntentsCreate (amount : float) (currency : string) : M doc :=
  fun w => liftSum (paymentIntentsCreate E amount currency)
             (logEvent (EvPay amount currency) w).

(** JavaScript's ToNumber on a field read. *)
Definition toNumber (x : option value) : float :=
  match x with
  | None => nan
  | Some VNull => 0%float
  | Some (VBool b) => if b then 1%float else 0%float
  | Some (VNum n) => n
  | Some (VStr s) => stringToNumber E s
  | Some (VOid o) => stringToNumber E o
  end.

(** *** The gates (index.js, lines 54-98) *)

Definition unauthorized : response := Response 401 (message_ "Unauthorized access").
Definition forbidden : response := Response 403 (message_ "Forbidden Access").

Definition verifyFirebaseToken : middleware := fun req =>
  let authHeader := authorization req in
  if negb (truthy authHeader)
     || negb (startsWith (default "" authHeader) "Bearer ") then
    ret (Send unauthorized)
  else
    let token := split " " (default "" authHeader) !! 1 in
    if negb (truthy token) then ret (Send unauthorized)
    else
      tryCatch
        (decoded <- authVerifyIdToken (default "" token);;
         ret (Next (setDecoded req decoded)))
        (fun error => ret (Send unauthorized)).

(** [verifyAdmin] and [verifyTeacher] are the same function up to the role
    they compare with.  Reading [req.decoded.email] when [req.decoded] is
    undefined throws a TypeError. *)
Definition verifyRole (role : string) : middleware := fun req =>
  match decoded req with
  | None =>
      throw (Exn "TypeError" "Cannot read properties of undefined (reading 'email')")
  | Some dec =>
      let email := dec !! "email" in
      let query := FEq "email" email in
      user <- findOne usersCollection query;;
      match user with
      | None => ret (Send forbidden)
      | Some u =>
          if negb (strictEqStr (u !! "role") role) then ret (Send forbidden)
          else ret (Next req)
      end
  end.

Definition verifyAdmin : middleware := verifyRole "admin".
Definition verifyTeacher : middleware := verifyRole "teacher".

Definition gateMw (g : gate) : middleware :=
  match g with
  | VerifyFirebaseToken => verifyFirebaseToken
  | VerifyAdmin => verifyAdmin
  | VerifyTeacher => verifyTeacher
  end.

(** Express runs the functions of a route in registration order; each one
    either answers or calls next().  A function that throws (an async
    function whose promise is rejected) ends the run of the server's own
    functions with [Throw]: none of them sends an answer after that.  What
    becomes of the request then is the framework's business and not
    modelled: Express 4 leaves it unanswered, Express 5 hands the error to
    its error handler, and the sources do not say which one runs them. *)
Fixpoint run_chain (ms : list middleware) (req : request) : M step :=
  match ms with
  | [] => ret (Next req)
  | m :: ms' =>
      s <- m req;;
      match s with
      | Next req' => run_chain ms' req'
      | Send r => ret (Send r)
      end
  end.

Definition handle (h : handler) : middleware :=
  fun req => r <- h req;; ret (Send r).

(** A route: its gates, then its handler. *)
Definition run_route (gs : list gate) (h : handler) : middleware :=
  run_chain (map gateMw gs ++ [handle h]).

(** *** The handlers *)

(** GET /users/search (index.js, lines 102-132). *)
(** [new RegExp(pattern, flags)]; an undefined pattern gives the empty
    regular expression, whose source reads [(?:)]. *)
Definition newRegExp_ (pattern : option string) (flags : string) : M regexp :=
  match pattern with
  | None => ret (RegExp "(?:)" flags)
  | Some p => match newRegExp E p flags with
              | Some e => throw e
              | None => ret (RegExp p flags)
              end
  end.

Definition getUsersSearch : handler := fun req =>
  let emailQuery := query req !! "email" in
  let filter := FNe "email" (decoded req ≫= fun d => d !! "email") in
  regex <- newRegExp_ emailQuery "i";;
  tryCatch
    (users <- (if truthy emailQuery then
                 find usersCollection (FRegex "email" regex)
                   None None (Some (Int 10))
               else find usersCollection filter None None None);;
     ret (send (PDocs users)))
    (fun error => ret (Response 500 (message_ "Error searching users"))).

(** POST /user (index.js, lines 135-162). *)
Definition postUser : handler := fun req =>
  tryCatch
    (let userData := body req in
     let userData := <["role" := VStr "student"]> userData in
     let userData := <["status" := VStr "not-verified"]> userData in
     t1 <- newDateISO;;
     let userData := <["create_at" := VStr t1]> userData in
     t2 <- newDateISO;;
     let userData := <["last_loggedIn" := VStr t2]> userData in
     let email := userData !! "email" in
     alreadyExists <- findOne usersCollection (FEq "email" email);;
     match alreadyExists with
     | Some _ =>
         t3 <- newDateISO;;
         _ <- updateOne usersCollection (FEq "email" email)
                [("last_loggedIn", Some (VStr t3))];;
         ret (Response 200 (PObject [("message", Some (VStr "User already exists"));
                                     ("inserted", Some (VBool false))]))
     | None =>
         result <- insertOne usersCollection userData;;
         ret (send (PInsertResult result))
     end)
    (fun error => ret (Response 500 (PObject [("error", Some (VStr (message error)))]))).

(** POST /user as the first snapshot has it (src/unnamed/part_000, lines
    34-57): no status field, and the branch for an existing record does not
    return. *)
Definition postUser_part_000 : handler := fun req =>
  tryCatch
    (let userData := body req in
     let userData := <["role" := VStr "student"]> userData in
     t1 <- newDateISO;;
     let userData := <["create_at" := VStr t1]> userData in
     t2 <- newDateISO;;
     let userData := <["last_loggedIn" := VStr t2]> userData in
     let email := userData !! "email" in
     alreadyExists <- findOne usersCollection (FEq "email" email);;
     _ <- match alreadyExists with
          | Some _ =>
              t3 <- newDateISO;;
              _ <- updateOne usersCollection (FEq "email" email)
                     [("last_loggedIn", Some (VStr t3))];;
              ret tt
          | None => ret tt
          end;;
     result <- insertOne usersCollection userData;;
     ret (send (PInsertResult result)))
    (fun error => ret (Response 500 (PObject [("error", Some (VStr (message error)))]))).

(** PATCH /teacher-request-status/:id (index.js, lines 204-233). *)
Definition patchTeacherRequestStatus : handler := fun req =>
  let id := params req !! "id" in
  let status := body req !! "status" in
  let role := body req !! "role" in
  let email := body req !! "email" in
  tryCatch
    (oid <- liftSum (newObjectId E (VStr <$> id));;
     _ <- updateOne teacherRequestCollection (FEq "_id" (Some (VOid oid)))
            [("status", status)];;
     _ <- updateOne usersCollection (FEq "email" email) [("role", role)];;
     ret (send (message_ "updated")))
    (fun error => ret (Response 500 (message_ "Failed to update"))).

(** GET /admin-add-class (index.js, lines 236-244). *)
Definition getAdminAddClass : handler := fun req =>
  result <- find classCollection FAll None None None;;
  ret (send (PDocs result)).

(** PATCH /class-request-status/:id (index.js, lines 247-268). *)
Definition patchClassRequestStatus : handler := fun req =>
  let id := params req !! "id" in
  let status := body req !! "status" in
  tryCatch
    (oid <- liftSum (newObjectId E (VStr <$> id));;
     _ <- updateOne classCollection (FEq "_id" (Some (VOid oid)))
            [("status", status)];;
     ret (send (message_ "updates class request")))
    (fun error => ret (Response 500 (message_ "Failed to update"))).

(** GET /top-enrolled-classes (index.js, lines 271-284). *)
Definition getTopEnrolledClasses : handler := fun req =>
  tryCatch
    (topClasses <- find classCollection (FGt "enrolled" 0%float)
                     (Some "enrolled") None (Some (Int 6));;
     ret (Response 200 (PDocs topClasses)))
    (fun error => ret (Response 500 (PObject [("message", Some (VStr "Server error"));
                                              ("error", Some (VStr (message error)))]))).

(** POST /teacher-request (index.js, lines 288-315). *)
Definition postTeacherRequest : handler := fun req =>
  let teachOnData := body req in
  let teachOnData := <["status" := VStr "pending"]> teachOnData in
  t1 <- newDateISO;;
  let teachOnData := <["create_at" := VStr t1]> teachOnData in
  t2 <- newDateISO;;
  let teachOnData := <["last_request_at" := VStr t2]> teachOnData in
  let email := teachOnData !! "email" in
  alreadyRequest <- findOne teacherRequestCollection (FEq "email" email);;
  match alreadyRequest with
  | Some _ =>
      t3 <- newDateISO;;
      _ <- updateOne teacherRequestCollection (FEq "email" email)
             [("status", Some (VStr "pending"));
              ("last_request_at", Some (VStr t3))];;
      ret (Response 200 (PObject [("message", Some (VStr "Already exists"));
                                  ("inserted", Some (VBool false))]))
  | None =>
      result <- insertOne teacherRequestCollection teachOnData;;
      ret (send (PInsertResult result))
  end.

(** GET /approved-classes-pagination (index.js, lines 511-533).  The three
    constants computed before the try block are definitions of their own. *)
Definition pageNo (req : request) : jsint := parseInt (query req !! "page").
Definition limit (req : request) : jsint := orDefault (parseInt (query req !! "limit")) 6.
Definition skip (req : request) : jsint := jsMul (pageNo req) (limit req).

Definition getApprovedClassesPagination : handler := fun req =>
  tryCatch
    (let query := FEq "status" (Some (VStr "approved")) in
     total <- countDocuments classCollection query;;
     result <- find classCollection query None (Some (skip req)) (Some (limit req));;
     ret (send (PPage total (pageNo req)
                  (ceilDiv (roundDouble (Z.of_nat total)) (limit req)) result)))
    (fun error => ret (Response 500 (PFailure "Server Error" error))).

(** POST /create-payment-intent (index.js, lines 536-570). *)
Definition postCreatePaymentIntent : handler := fun req =>
  let courseId := body req !! "courseId" in
  oid <- liftSum (newObjectId E courseId);;
  classData <- findOne classCollection (FEq "_id" (Some (VOid oid)));;
  match classData with
  | None =>
      ret (Response 404 (message_ "Not found any classData by this class ID"))
  | Some classData =>
      let coursePriceCents := (toNumber (classData !! "price") * 100)%float in
      tryCatch
        (paymentIntent <- stripePaymentIntentsCreate coursePriceCents "usd";;
         ret (send (PObject [("clientSecret", paymentIntent !! "client_secret")])))
        (fun error => ret (Response 500 (PObject [("error", Some (VStr (message error)))])))
  end.

End Server.

(** The token [verifyFirebaseToken] hands to the identity oracle, when it
    gets that far: the text between the first and the second space of a
    header that starts with "Bearer ". *)
Definition bearerToken (authHeader : option string) : option string :=
  match authHeader with
  | Some h =>
      if startsWith h "Bearer " then
        match split " " h !! 1 with
        | Some t => if String.eqb t "" then None else Some t
        | None => None
        end
      else None
  | None => None
  end.

(** ** Route registrations

    Every [app.get/post/patch/put/delete] call of every snapshot of the
    server, in registration order, with the gates it registers before its
    handler. *)

(** src/index.js, lines 1-730. *)
Definition routes_index : list route :=
  [ Route GET "/users/search" [VerifyFirebaseToken; VerifyAdmin];
    Route POST "/user" [];
    Route PATCH "/make-admin/:id" [VerifyFirebaseToken; VerifyAdmin];
    Route GET "/all-request" [VerifyFirebaseToken; VerifyAdmin];
    Route PATCH "/teacher-request-status/:id" [VerifyFirebaseToken; VerifyAdmin];
    Route GET "/admin-add-class" [VerifyFirebaseToken; VerifyAdmin];
    Route PATCH "/class-request-status/:id" [VerifyFirebaseToken; VerifyAdmin];
    Route GET "/top-enrolled-classes" [];
    Route POST "/teacher-request" [VerifyFirebaseToken];
    Route GET "/get-all-classes/:email" [VerifyFirebaseToken; VerifyTeacher];
    Route GET "/all-enrolled/:id" [VerifyFirebaseToken; VerifyTeacher];
    Route GET "/all-assignment-count/:id" [VerifyFirebaseToken; VerifyTeacher];
    Route POST "/add-class" [VerifyFirebaseToken; VerifyTeacher];
    Route GET "/update-data-find/:id" [];
    Route PUT "/update-class/:id" [];
    Route POST "/add-assignment" [VerifyFirebaseToken; VerifyTeacher];
    Route DELETE "/my-class-delete/:id" [VerifyFirebaseToken; VerifyTeacher];
    Route GET "/approved-class-details/:id" [];
    Route GET "/user/role/:email" [VerifyFirebaseToken];
    Route GET "/approved-classes-pagination" [];
    Route POST "/create-payment-intent" [VerifyFirebaseToken];
    Route POST "/enroll-info" [VerifyFirebaseToken];
    Route PATCH "/enrolled-update/:id" [VerifyFirebaseToken];
    Route GET "/my-all-classes/:email" [VerifyFirebaseToken];
    Route GET "/assignment-get/:id" [VerifyFirebaseToken];
    Route GET "/get-class-for-assignment/:id" [VerifyFirebaseToken];
    Route POST "/ter-review" [];
    Route GET "/get-ter-report/:email" [];
    Route GET "/" [] ].

(** src/index.js, lines 731-1121. *)
Definition routes_index_2 : list route :=
  [ Route GET "/users/search" [VerifyFirebaseToken; VerifyAdmin];
    Route POST "/user" [];
    Route PATCH "/make-admin/:id" [VerifyFirebaseToken; VerifyAdmin];
    Route GET "/all-request" [VerifyFirebaseToken; VerifyAdmin];
    Route PATCH "/teacher-request-status/:id" [VerifyFirebaseToken; VerifyAdmin];
    Route GET "/admin-add-class" [VerifyFirebaseToken; VerifyAdmin];
    Route PATCH "/class-request-status/:id" [VerifyFirebaseToken; VerifyAdmin];
    Route POST "/teacher-request" [VerifyFirebaseToken; VerifyTeacher];
    Route GET "/get-all-classes/:email" [VerifyFirebaseToken];
    Route POST "/add-class" [VerifyFirebaseToken; VerifyTeacher];
    Route GET "/approved-classes" [];
    Route GET "/user/role/:email" [VerifyFirebaseToken];
    Route GET "/" [] ].

(** src/unnamed/part_002. *)
Definition routes_part_002 : list route :=
  [ Route GET "/users/search" [VerifyFirebaseToken; VerifyAdmin];
    Route POST "/user" [];
    Route PATCH "/make-admin/:id" [VerifyFirebaseToken; VerifyAdmin];
    Route GET "/all-request" [VerifyFirebaseToken; VerifyAdmin];
    Route PATCH "/teacher-request-status/:id" [VerifyFirebaseToken; VerifyAdmin];
    Route GET "/admin-add-class" [VerifyFirebaseToken; VerifyAdmin];
    Route PATCH "/class-request-status/:id" [VerifyFirebaseToken; VerifyAdmin];
    Route POST "/teacher-request" [VerifyFirebaseToken];
    Route GET "/get-all-classes/:email" [VerifyFirebaseToken];
    Route POST "/add-class" [VerifyFirebaseToken; VerifyTeacher];
    Route POST "/add-assignment" [VerifyFirebaseToken; VerifyTeacher];
    Route DELETE "/my-class-delete/:id" [VerifyFirebaseToken; VerifyTeacher];
    Route GET "/approved-class-details/:id" [];
    Route GET "/user/role/:email" [VerifyFirebaseToken];
    Route GET "/approved-classes-pagination" [];
    Route GET "/" [] ].

(** src/unnamed/part_001, lines 1-190 and lines 191-419. *)
Definition routes_part_001 : list route :=
  [ Route GET "/users/search" [];
    Route POST "/user" [];
    Route PATCH "/make-admin/:id" [];
    Route POST "/teacher-request" [];
    Route GET "/all-request" [];
    Route PATCH "/teacher-request-status/:id" [];
    Route GET "/" [] ].

Definition routes_part_001_2 : list route :=
  [ Route GET "/users/search" [VerifyFirebaseToken];
    Route POST "/user" [];
    Route PATCH "/make-admin/:id" [];
    Route POST "/teacher-request" [];
    Route GET "/all-request" [VerifyFirebaseToken];
    Route PATCH "/teacher-request-status/:id" [];
    Route GET "/" [] ].

(** src/unnamed/part_000. *)
Definition routes_part_000 : list route :=
  [ Route POST "/user" [];
    Route GET "/" [] ].

Definition all_routes : list route :=
  (routes_index ++ routes_index_2 ++ routes_part_002
   ++ routes_part_001 ++ routes_part_001_2 ++ routes_part_000)%list.

Definition isRoleGate (g : gate) : bool :=
  match g with
  | VerifyFirebaseToken => false
  | VerifyAdmin | VerifyTeacher => true
  end.

(** In a list of gates, every role gate has the authentication gate
    somewhere before it ([seen] tells whether one was already passed). *)
Fixpoint authFirst (seen : bool) (gs : list gate) : bool :=
  match gs with
  | [] => true
  | g :: gs' =>
      if isRoleGate g then seen && authFirst seen gs'
      else authFirst true gs'
  end.

(** [enters E gs req w g req' w']: running the gates [gs] from request
    [req] in world [w], Express gets to call gate [g], and calls it with
    request [req'] in world [w']. *)
Inductive enters (E : env) :
    list gate -> request -> world -> gate -> request -> world -> Prop :=
| enters_head g gs req w :
    enters E (g :: gs) req w g req w
| enters_tail g0 gs req w req1 w1 g req' w' :
    gateMw E g0 req w = (Ok (Next req1), w1) ->
    enters E gs req1 w1 g req' w' ->
    enters E (g0 :: gs) req w g req' w'.

(** The request carries an identity that the oracle gave for a token, and
    the trace shows the call. *)
Definition identified (E : env) (req : request) (w : world) : Prop :=
  exists token claims,
    decoded req = Some claims /\
    verifyIdToken E token = inr claims /\
    In (EvVerify token) (trace w).

(** ** A concrete environment and concrete data, for examples *)

Definition claimsOf (email : string) : doc := {[ "email" := VStr email ]}.

(** Ids as the driver writes them: 24 hexadecimal digits. *)
Definition isHexDigit (c : ascii) : bool :=
  let n := nat_of_ascii c in
  (Nat.leb 48 n && Nat.leb n 57) || (Nat.leb 97 n && Nat.leb n 102)
  || (Nat.leb 65 n && Nat.leb n 70).

Definition isHex24 (s : string) : bool :=
  Nat.eqb (String.length s) 24 && forallb isHexDigit (list_ascii_of_string s).

Definition lowerString (s : string) : string :=
  string_of_list_ascii (List.map lowerAscii (list_ascii_of_string s)).

Definition invalidId : exn :=
  Exn "BSONError"
    "input must be a 24 character hex string, 12 byte Uint8Array, or an integer".

Definition demoId (n : nat) : string :=
  "64b7f4d5f6a7b8c904d5" +:+ String.concat "" (repeat "0" (4 - String.length (pretty n)))
  +:+ pretty n.

Definition demoEnv : env := {|
  verifyIdToken t :=
    if String.eqb t "admin-token" then inr (claimsOf "admin@x.com")
    else if String.eqb t "student-token" then inr (claimsOf "a@x.com")
    else inl (Exn "FirebaseAuthError" "Decoding Firebase ID token failed");
  storeFails n := None;
  now n := "2025-07-15T10:00:0" +:+ pretty n +:+ ".000Z";
  freshId n := demoId n;
  (* a string of 24 hexadecimal digits is an id, any other string is
     refused; without an argument, or with a number, a new id is made *)
  newObjectId x :=
    match x with
    | Some (VStr s) =>
        if isHex24 s then inr (lowerString s)
        else inl invalidId
    | Some (VOid o) => inr o
    | Some (VBool _) =>
        inl (Exn "BSONError" "Argument passed in does not match the accepted types")
    | Some (VNum _) | Some VNull | None => inr "64b7f4d5f6a7b8c904d5ffff"
    end;
  (* the examples use plain patterns only *)
  newRegExp p fl := None;
  regExpTest re s := false;
  stringToNumber s := nan;
  paymentIntentsCreate amount currency :=
    if isInteger amount then
      inr {[ "id" := VStr "pi_1"; "client_secret" := VStr "pi_1_secret" ]}
    else inl (Exn "StripeInvalidRequestError" "Invalid integer");
  cursorInvalid sk lim := inl (Exn "MongoServerError" "invalid skip");
|}.

(** The same, with the third store command failing. *)
Definition demoEnvFail2 : env := {|
  verifyIdToken := verifyIdToken demoEnv;
  storeFails n := if Nat.eqb n 2 then Some (Exn "MongoNetworkError" "connection closed") else None;
  now := now demoEnv;
  freshId := freshId demoEnv;
  newObjectId := newObjectId demoEnv;
  newRegExp := newRegExp demoEnv;
  regExpTest := regExpTest demoEnv;
  stringToNumber := stringToNumber demoEnv;
  paymentIntentsCreate := paymentIntentsCreate demoEnv;
  cursorInvalid := cursorInvalid demoEnv;
|}.

(** The same as [demoEnv], with a store that reads a skip it cannot take
    as 0. *)
Definition demoEnvSkip0 : env := {|
  verifyIdToken := verifyIdToken demoEnv;
  storeFails := storeFails demoEnv;
  now := now demoEnv;
  freshId := freshId demoEnv;
  newObjectId := newObjectId demoEnv;
  newRegExp := newRegExp demoEnv;
  regExpTest := regExpTest demoEnv;
  stringToNumber := stringToNumber demoEnv;
  paymentIntentsCreate := paymentIntentsCreate demoEnv;
  cursorInvalid sk lim := inr (0, default None (validLimit lim));
|}.

Definition emptyRequest : request :=
  {| authorization := None; query := ∅; params := ∅; body := ∅; decoded := None |}.

Definition withAuth (h : string) (req : request) : request :=
  {| authorization := Some h; query := query req; params := params req;
     body := body req; decoded := decoded req |}.

Definition withBody (b : doc) (req : request) : request :=
  {| authorization := authorization req; query := query req; params := params req;
     body := b; decoded := decoded req |}.

Definition withQuery (q : gmap string string) (req : request) : request :=
  {| authorization := authorization req; query := q; params := params req;
     body := body req; decoded := decoded req |}.

Definition withParams (p : gmap string string) (req : request) : request :=
  {| authorization := authorization req; query := query req; params := p;
     body := body req; decoded := decoded req |}.

Definition worldOf (d : gmap string (list doc)) : world :=
  {| db := d; trace := []; storeCalls := 0; dateCalls := 0 |}.

(** The ids of the records of the examples, and two ids that no record
    has. *)
Definition adminId : string := "64b7f1a2c3d4e5f601a2b3c1".
Definition studentId : string := "64b7f1a2c3d4e5f601a2b3c2".
Definition requestId : string := "64b7f2b3d4e5f6a702b3c4d1".
Definition pendingClassId : string := "64b7f3c4e5f6a7b803c4d5e0".
Definition enrolledClassId : string := "64b7f3c4e5f6a7b803c4d5e1".
Definition pricedClassId : string := "64b7f3c4e5f6a7b803c4d5e2".
Definition unknownUserId : string := "64b7f1a2c3d4e5f601a2b3ff".
Definition unknownClassId : string := "64b7f3c4e5f6a7b803c4d5ff".

Definition adminUser : doc :=
  {[ "_id" := VOid adminId; "email" := VStr "admin@x.com"; "role" := VStr "admin" ]}.
Definition studentUser : doc :=
  {[ "_id" := VOid studentId; "email" := VStr "a@x.com"; "role" := VStr "student" ]}.

Definition demoUsers : world :=
  worldOf {[ usersCollection := [adminUser; studentUser] ]}.

Definition rejectedRequest : doc :=
  {[ "_id" := VOid requestId; "email" := VStr "a@x.com";
     "status" := VStr "rejected"; "experience" := VStr "mid-level" ]}.

Definition demoRequests : world :=
  worldOf {[ usersCollection := [adminUser; studentUser];
             teacherRequestCollection := [rejectedRequest] ]}.

Definition teacherRequestAgain : request :=
  withAuth "Bearer student-token"
    (withBody {[ "email" := VStr "a@x.com"; "experience" := VStr "experienced" ]}
       emptyRequest).

(** [POST /user] with body [{ email: "a@x.com" }]. *)
Definition signIn : request :=
  withBody {[ "email" := VStr "a@x.com" ]} emptyRequest.

(** The number of user records with a given email. *)
Definition usersWithEmail (E : env) (email : option value) (w : world) : nat :=
  length (List.filter (matches E (FEq "email" email)) (collection (db w) usersCollection)).

(** An admin approves the teacher request of a@x.com. *)
Definition approveRequest : request :=
  withAuth "Bearer admin-token"
    (withParams {[ "id" := requestId ]}
       (withBody {[ "status" := VStr "approved"; "role" := VStr "teacher";
                    "email" := VStr "a@x.com" ]}
          emptyRequest)).

Definition searchAll : request := withAuth "Bearer admin-token" emptyRequest.

Definition searchFor (p : string) : request :=
  withQuery {[ "email" := p ]} searchAll.

Definition approvedClass (i : nat) : doc :=
  {[ "_id" := VOid (demoId (100 + i)); "status" := VStr "approved" ]}.

Definition pendingClass : doc :=
  {[ "_id" := VOid pendingClassId; "status" := VStr "pending" ]}.

(** Thirteen approved classes and a pending one. *)
Definition thirteenApproved : world :=
  worldOf {[ classCollection := pendingClass :: List.map approvedClass (seq 0 13) ]}.

(** [GET /approved-classes-pagination?page=p&limit=l]. *)
Definition page (p l : string) : request :=
  withQuery {[ "page" := p; "limit" := l ]} emptyRequest.

(** A class that was approved and has three students. *)
Definition enrolledClass : doc :=
  {[ "_id" := VOid enrolledClassId; "status" := VStr "approved"; "enrolled" := VNum 3%float ]}.

Definition demoClasses : world :=
  worldOf {[ usersCollection := [adminUser; studentUser];
             classCollection := [enrolledClass] ]}.

(** An admin rejects the class [enrolledClass]. *)
Definition rejectClass : request :=
  withAuth "Bearer admin-token"
    (withParams {[ "id" := enrolledClassId ]}
       (withBody {[ "status" := VStr "rejected" ]} emptyRequest)).

(** A class sold at 19.99, and a student who wants to pay for it. *)
Definition pricedClass : doc :=
  {[ "_id" := VOid pricedClassId; "status" := VStr "approved"; "price" := VNum 19.99%float ]}.

Definition demoShop : world :=
  worldOf {[ usersCollection := [adminUser; studentUser];
             classCollection := [pricedClass] ]}.

Definition buy : request :=
  withAuth "Bearer student-token"
    (withBody {[ "courseId" := VStr pricedClassId ]} emptyRequest).


(** ** The other handlers *)

From Stdlib Require Import Sorted.

Definition assignmentCollection := "assignment-question".
Definition enrollCollection := "enrolled-classes".
Definition reportCollection := "ter-report".

(** Whether two stored values are the same value, bit for bit. *)
Definition sameFloat (x y : float) : bool :=
  match Prim2SF x, Prim2SF y with
  | S754_zero a, S754_zero b => Bool.eqb a b
  | S754_infinity a, S754_infinity b => Bool.eqb a b
  | S754_nan, S754_nan => true
  | S754_finite a m e, S754_finite b n f =>
      Bool.eqb a b && Pos.eqb m n && (e =? f)%Z
  | _, _ => false
  end.

Definition sameValue (a b : value) : bool :=
  match a, b with
  | VNull, VNull => true
  | VBool x, VBool y => Bool.eqb x y
  | VNum x, VNum y => sameFloat x y
  | VStr x, VStr y => String.eqb x y
  | VOid x, VOid y => String.eqb x y
  | _, _ => false
  end.

(** Whether [{ $set: fs }] changes a document at all. *)
Definition changes (fs : list (string * option value)) (d : doc) : bool :=
  existsb (fun kv => match d !! fst kv with
                     | Some x => negb (sameValue x (default VNull (snd kv)))
                     | None => true
                     end) fs.

(** The object [updateOne] resolves to. *)
Definition updateResult (matched modified : bool) : payload :=
  PObject [("acknowledged", Some (VBool true));
           ("modifiedCount", Some (VNum (if modified then 1%float else 0%float)));
           ("upsertedId", Some VNull);
           ("upsertedCount", Some (VNum 0%float));
           ("matchedCount", Some (VNum (if matched then 1%float else 0%float)))].

(** The order in which the store sorts values of different types: null
    (or no field), numbers, strings, ObjectIds, booleans. *)
Definition typeRank (x : option value) : nat :=
  match x with
  | None | Some VNull => 0
  | Some (VNum _) => 1
  | Some (VStr _) => 2
  | Some (VOid _) => 3
  | Some (VBool _) => 4
  end.

(** Numbers by value, NaN below all of them. *)
Definition numLeb (x y : float) : bool :=
  PrimFloat.is_nan x || (negb (PrimFloat.is_nan y) && PrimFloat.leb x y).

(** [a] sorts at or before [b] in ascending order; strings compare byte by
    byte. *)
Definition bsonLeb (a b : option value) : bool :=
  match a, b with
  | Some (VNum x), Some (VNum y) => numLeb x y
  | Some (VStr x), Some (VStr y) => String.leb x y
  | Some (VOid x), Some (VOid y) => String.leb x y
  | Some (VBool x), Some (VBool y) => implb x y
  | _, _ => Nat.leb (typeRank a) (typeRank b)
  end.

(** [sort({ k: -1 })]: largest first, records with equal keys in the order
    of the collection. *)
Fixpoint insertDescBy (k : string) (d : doc) (l : list doc) : list doc :=
  match l with
  | [] => [d]
  | x :: l' =>
      if bsonLeb (x !! k) (d !! k) then d :: l
      else x :: insertDescBy k d l'
  end.

Definition sortDescByKey (k : string) (l : list doc) : list doc :=
  foldr (insertDescBy k) [] l.

Section MoreHandlers.
Context (E : env).

(** [updateOne(f, { $set: fs })], resolving to the driver's result object. *)
Definition updateOneResult (coll : string) (f : filter)
    (fs : list (string * option value)) : M payload :=
  storeWrite E coll UpdateOne (fun c =>
    (match List.find (matches E f) c with
     | Some d => updateResult true (changes fs d)
     | None => updateResult false false
     end,
     updateFirst (matches E f) (setFields fs) c)).

(** [collection.find(f).sort({ k: -1 }).toArray()] on any field. *)
Definition findSorted (coll : string) (f : filter) (k : string) : M (list doc) :=
  storeRead E coll Find (fun c => sortDescByKey k (List.filter (matches E f) c)).

(** PATCH /make-admin/:id (index.js, lines 165-190). *)
Definition patchMakeAdmin : handler := fun req =>
  let id := params req !! "id" in
  let role := body req !! "role" in
  tryCatch
    (oid <- liftSum (newObjectId E (VStr <$> id));;
     result <- updateOneResult usersCollection (FEq "_id" (Some (VOid oid)))
                 [("role", role); ("status", Some (VStr "verified"))];;
     ret (send result))
    (fun error => ret (Response 500 (message_ "Failed to update"))).

(** GET /get-all-classes/:email (index.js, lines 318-345). *)
Definition getAllClasses : handler := fun req =>
  let email := params req !! "email" in
  tryCatch
    (if negb (truthy email) then
       ret (Response 400 (message_ "Email is required"))
     else
       result <- find E classCollection (FEq "email" (VStr <$> email))
                   None None None;;
       if Nat.eqb (length result) 0 then
         ret (Response 404 (message_ "No classes found for this email"))
       else ret (Response 200 (PDocs result)))
    (fun error =>
       ret (Response 500 (PObject [("message", Some (VStr "Internal Server Error"));
                                   ("error", Some (VStr (message error)))]))).

(** POST /add-class (index.js, lines 392-409). *)
Definition postAddClass : handler := fun req =>
  let addClassData := body req in
  tryCatch
    (_ <- insertOne E classCollection addClassData;;
     ret (Response 200 (PObject [("message", Some (VStr "Add class saved in db"));
                                 ("inserted", Some (VBool false))])))
    (fun error => ret (Response 500 (PObject [("error", Some (VStr (message error)))]))).

(** POST /add-assignment (index.js, lines 446-463). *)
Definition postAddAssignment : handler := fun req =>
  let assignmentData := body req in
  t <- newDateISO E;;
  let assignmentData := <["create_at" := VStr t]> assignmentData in
  tryCatch
    (_ <- insertOne E assignmentCollection assignmentData;;
     ret (Response 200 (PObject [("message", Some (VStr "Assignment saved in db"));
                                 ("inserted", Some (VBool false))])))
    (fun error => ret (Response 500 (PObject [("error", Some (VStr (message error)))]))).

(** POST /enroll-info (index.js, lines 573-584). *)
Definition postEnrollInfo : handler := fun req =>
  tryCatch
    (let courseData := body req in
     t <- newDateISO E;;
     let courseData := <["create_at" := VStr t]> courseData in
     result <- insertOne E enrollCollection courseData;;
     ret (Response 201 (PInsertResult result)))
    (fun error => ret (Response 500 (message_ "Not inserted data in database"))).

(** GET /my-all-classes/:email (index.js, lines 606-631). *)
Definition getMyAllClasses : handler := fun req =>
  let email := params req !! "email" in
  tryCatch
    (if negb (truthy email) then
       ret (Response 400 (message_ "Email is required"))
     else
       enrollments <- findSorted enrollCollection
                        (FEq "studentEmail" (VStr <$> email)) "create_at";;
       if Nat.eqb (length enrollments) 0 then
         ret (Response 404 (message_ "No classes found for this email"))
       else ret (Response 200 (PDocs enrollments)))
    (fun error =>
       ret (Response 500 (PObject [("message", Some (VStr "Internal Server Error"));
                                   ("error", Some (VStr (message error)))]))).

(** POST /ter-review (index.js, lines 679-689). *)
Definition postTerReview : handler := fun req =>
  let postData := body req in
  tryCatch
    (t <- newDateISO E;;
     let postData := <["create_at" := VStr t]> postData in
     result <- insertOne E reportCollection postData;;
     ret (Response 201 (PInsertResult result)))
    (fun error => ret (Response 500 (message_ "Not inserted data in database"))).

End MoreHandlers.

(** The handler answers in the examples below. *)
Definition pageData (r : result response) : list doc :=
  match r with
  | Ok (Response _ (PPage _ _ _ data)) => data
  | _ => []
  end.

(** The integer a machine double holds, and the ceiling of a machine
    double, read off its mantissa and exponent. *)
Definition floatInteger (x : float) : option Z :=
  match Prim2SF x with
  | S754_zero _ => Some 0%Z
  | S754_finite s m e =>
      if (0 <=? e)%Z then Some ((if s then -1 else 1) * Z.pos m * 2 ^ e)%Z
      else if (Z.pos m mod 2 ^ (- e) =? 0)%Z
           then Some ((if s then -1 else 1) * (Z.pos m / 2 ^ (- e)))%Z
           else None
  | _ => None
  end.

Definition floatCeiling (x : float) : option Z :=
  match Prim2SF x with
  | S754_zero _ => Some 0%Z
  | S754_finite s m e =>
      let q := if (0 <=? e)%Z then inject_Z (Z.pos m * 2 ^ e)
               else (inject_Z (Z.pos m) / inject_Z (2 ^ (- e)))%Q in
      Some (Qceiling (if s then - q else q))
  | _ => None
  end.

Definition integerOf (x : jsint) : option Z :=
  match x with
  | Int z => Some z
  | _ => None
  end.

Definition floatOf (z : Z) : float := PrimFloat.of_uint63 (Uint63.of_Z z).

(** The number of pages that a [totalPages] field announces. *)
Definition pagesOf (totalPages : jsint) : nat :=
  match totalPages with
  | Int k => Z.to_nat k
  | _ => 0
  end.

(** An admin gives a@x.com the role admin. *)
Definition promoteStudent : request :=
  withAuth "Bearer admin-token"
    (withParams {[ "id" := studentId ]}
       (withBody {[ "role" := VStr "admin" ]} emptyRequest)).

(** A sign-in whose body claims the role admin. *)
Definition signInAsAdmin : request :=
  withBody {[ "email" := VStr "new@x.com"; "role" := VStr "admin";
              "status" := VStr "verified"; "name" := VStr "N" ]} emptyRequest.

(** [demoEnv] with the first store command failing. *)
Definition demoEnvFail0 : env := {|
  verifyIdToken := verifyIdToken demoEnv;
  storeFails n := if Nat.eqb n 0 then Some (Exn "MongoNetworkError" "connection closed") else None;
  now := now demoEnv;
  freshId := freshId demoEnv;
  newObjectId := newObjectId demoEnv;
  newRegExp := newRegExp demoEnv;
  regExpTest := regExpTest demoEnv;
  stringToNumber := stringToNumber demoEnv;
  paymentIntentsCreate := paymentIntentsCreate demoEnv;
  cursorInvalid := cursorInvalid demoEnv;
|}.

(** [demoEnv] with the second store command failing. *)
Definition demoEnvFail1 : env := {|
  verifyIdToken := verifyIdToken demoEnv;
  storeFails n := if Nat.eqb n 1 then Some (Exn "MongoNetworkError" "connection closed") else None;
  now := now demoEnv;
  freshId := freshId demoEnv;
  newObjectId := newObjectId demoEnv;
  newRegExp := newRegExp demoEnv;
  regExpTest := regExpTest demoEnv;
  stringToNumber := stringToNumber demoEnv;
  paymentIntentsCreate := paymentIntentsCreate demoEnv;
  cursorInvalid := cursorInvalid demoEnv;
|}.

(** [demoEnv] with a regular-expression engine that refuses the pattern "(". *)
Definition demoEnvBadPattern : env := {|
  verifyIdToken := verifyIdToken demoEnv;
  storeFails := storeFails demoEnv;
  now := now demoEnv;
  freshId := freshId demoEnv;
  newObjectId := newObjectId demoEnv;
  newRegExp p fl :=
    if String.eqb p "(" then
      Some (Exn "SyntaxError" "Invalid regular expression: /(/: Unterminated group")
    else None;
  regExpTest := regExpTest demoEnv;
  stringToNumber := stringToNumber demoEnv;
  paymentIntentsCreate := paymentIntentsCreate demoEnv;
  cursorInvalid := cursorInvalid demoEnv;
|}.

(** Largest first on a numeric field, and newest first on a field. *)
Definition numDesc (k : string) (a b : doc) : Prop :=
  PrimFloat.leb (numField k b) (numField k a) = true.

Definition keyDesc (k : string) (a b : doc) : Prop :=
  bsonLeb (b !! k) (a !! k) = true.

Definition isString (x : option value) : Prop := exists s : string, x = Some (VStr s).

(** Two enrollments of a@x.com and one of somebody else. *)
Definition enrollment (student : string) (course : string) (at_ : string) : doc :=
  {[ "studentEmail" := VStr student; "courseId" := VStr course;
     "create_at" := VStr at_ ]}.

Definition demoEnrollments : world :=
  worldOf {[ enrollCollection :=
               [enrollment "a@x.com" enrolledClassId "2025-07-01T08:00:00.000Z";
                enrollment "b@x.com" enrolledClassId "2025-07-02T08:00:00.000Z";
                enrollment "a@x.com" pricedClassId "2025-07-03T08:00:00.000Z"] ]}.

Definition withEmailParam (e : string) : request :=
  withAuth "Bearer student-token" (withParams {[ "email" := e ]} emptyRequest).

(** * Properties of the gates *)

Section Gates.
Context (E : env).

Lemma split_Bearer (t : string) :
  split " " ("Bearer " ++ t) !! 1 = head (split " " t).
Proof.
  change ("Bearer " ++ t)
    with (String "B" (String "e" (String "a" (String "r"
           (String "e" (String "r" (String " " t))))))).
  simpl split. destruct (split " " t); reflexivity.
Qed.

Lemma startsWith_Bearer (h : string) :
  startsWith h "Bearer " = true <-> exists t, h = "Bearer " ++ t.
Proof.
  unfold startsWith. rewrite prefix_correct. split.
  - intros H.
    do 7 (destruct h as [|? h]; [discriminate|]).
    simpl in H. injection H as -> -> -> -> -> -> -> _.
    exists h. reflexivity.
  - intros [t ->]. simpl. destruct t; reflexivity.
Qed.

(** What [verifyFirebaseToken] does, by the token it extracts. *)
Lemma verifyFirebaseToken_no_token (req : request) (w : world) :
  bearerToken (authorization req) = None ->
  verifyFirebaseToken E req w = (Ok (Send unauthorized), w).
Proof.
  unfold bearerToken, verifyFirebaseToken.
  destruct (authorization req) as [h|]; [|reflexivity].
  change (default "" (Some h)) with h.
  destruct (startsWith h "Bearer ") eqn:Hp.
  - unfold truthy at 1. destruct (String.eqb h ""); [reflexivity|].
    cbn [negb orb].
    destruct (split " " h !! 1) as [t|]; [|reflexivity]. cbn [truthy].
    destruct (String.eqb t ""); [reflexivity|discriminate].
  - intros _. rewrite orb_true_r. reflexivity.
Qed.

Lemma verifyFirebaseToken_token (req : request) (w : world) (token : string) :
  bearerToken (authorization req) = Some token ->
  verifyFirebaseToken E req w =
    match verifyIdToken E token with
    | inr claims => (Ok (Next (setDecoded req claims)), logEvent (EvVerify token) w)
    | inl _ => (Ok (Send unauthorized), logEvent (EvVerify token) w)
    end.
Proof.
  unfold bearerToken, verifyFirebaseToken.
  destruct (authorization req) as [h|]; [|discriminate].
  change (default "" (Some h)) with h.
  destruct (startsWith h "Bearer ") eqn:Hp; [|discriminate].
  unfold truthy at 1. destruct (String.eqb h "") eqn:Hh.
  { apply String.eqb_eq in Hh. subst h. discriminate. }
  cbn [negb orb].
  destruct (split " " h !! 1) as [t|]; [|discriminate]. cbn [truthy].
  destruct (String.eqb t "") eqn:Ht; [discriminate|].
  intros [= ->]. cbn [negb].
  change (default "" (Some token)) with token.
  unfold tryCatch, bind, authVerifyIdToken, liftSum.
  destruct (verifyIdToken E token); reflexivity.
Qed.

(** A header made of the prefix and a non-empty token without a space
    yields that token. *)
Lemma bearerToken_well_formed (t : string) :
  t <> "" -> split " " t = [t] ->
  bearerToken (Some ("Bearer " ++ t)) = Some t.
Proof.
  intros Hne Hsp. unfold bearerToken.
  replace (startsWith ("Bearer " ++ t) "Bearer ") with true
    by (symmetry; apply startsWith_Bearer; eauto).
  rewrite split_Bearer, Hsp. cbn.
  destruct (String.eqb t "") eqn:Ht; [|reflexivity].
  apply String.eqb_eq in Ht. contradiction.
Qed.

Lemma run_chain_cons (m : middleware) (ms : list middleware) (req : request) (w : world) :
  run_chain (m :: ms) req w =
    match m req w with
    | (Ok (Next req'), w') => run_chain ms req' w'
    | (Ok (Send r), w') => (Ok (Send r), w')
    | (Throw e, w') => (Throw e, w')
    end.
Proof.
  cbn. unfold bind. destruct (m req w) as [[[?|?]|?] ?]; reflexivity.
Qed.

Lemma run_chain_handle (h : handler) (req : request) (w : world) :
  run_chain [handle h] req w = handle h req w.
Proof.
  rewrite run_chain_cons. unfold handle, bind.
  destruct (h req w) as [[?|?] ?]; reflexivity.
Qed.

(** What a role gate does once the identity is on the request. *)
Lemma verifyRole_spec (role : string) (req : request) (w : world) (claims : doc) :
  decoded req = Some claims ->
  storeFails E (storeCalls w) = None ->
  verifyRole E role req w =
    (match List.find (matches E (FEq "email" (claims !! "email")))
             (collection (db w) usersCollection) with
     | Some u => if strictEqStr (u !! "role") role then Ok (Next req)
                 else Ok (Send forbidden)
     | None => Ok (Send forbidden)
     end, sent usersCollection FindOne w).
Proof.
  intros Hd Hs. unfold verifyRole. rewrite Hd.
  unfold bind, findOne, storeRead. rewrite Hs.
  destruct (List.find _ _) as [u|]; [|reflexivity].
  destruct (strictEqStr (u !! "role") role); reflexivity.
Qed.

Lemma handle_run (h : handler) (req : request) (w : world) :
  handle h req w =
    match h req w with
    | (Ok r, w') => (Ok (Send r), w')
    | (Throw e, w') => (Throw e, w')
    end.
Proof. unfold handle, bind. destruct (h req w) as [[?|?] ?]; reflexivity. Qed.

Lemma run_route_nil (h : handler) (req : request) (w : world) :
  run_route E [] h req w = handle h req w.
Proof. unfold run_route. cbn [map app]. apply run_chain_handle. Qed.

(** A request with a token the oracle accepts passes the authentication
    gate: the rest of the route runs with the identity attached. *)
Lemma run_route_auth (gs : list gate) (h : handler) (req : request) (w : world)
    (token : string) (claims : doc) :
  bearerToken (authorization req) = Some token ->
  verifyIdToken E token = inr claims ->
  run_route E (VerifyFirebaseToken :: gs) h req w
  = run_route E gs h (setDecoded req claims) (logEvent (EvVerify token) w).
Proof.
  intros Hb Hv. unfold run_route. cbn [map app gateMw].
  rewrite run_chain_cons, (verifyFirebaseToken_token _ _ _ Hb), Hv. reflexivity.
Qed.

(** A request whose identity has a user record with the role passes the
    role gate. *)
Lemma run_route_role (g : gate) (role : string) (gs : list gate) (h : handler)
    (req : request) (w : world) (claims u : doc) :
  (g = VerifyAdmin /\ role = "admin") \/ (g = VerifyTeacher /\ role = "teacher") ->
  decoded req = Some claims ->
  storeFails E (storeCalls w) = None ->
  List.find (matches E (FEq "email" (claims !! "email")))
    (collection (db w) usersCollection) = Some u ->
  u !! "role" = Some (VStr role) ->
  run_route E (g :: gs) h req w
  = run_route E gs h req (sent usersCollection FindOne w).
Proof.
  intros Hg Hd Hs Hf Hr. unfold run_route. cbn [map app].
  rewrite run_chain_cons.
  replace (gateMw E g) with (verifyRole E role)
    by (destruct Hg as [[-> ->] | [-> ->]]; reflexivity).
  rewrite (verifyRole_spec role req w claims Hd Hs), Hf.
  unfold strictEqStr. rewrite Hr, String.eqb_refl. reflexivity.
Qed.

Lemma verifyFirebaseToken_next (req req1 : request) (w w1 : world) :
  verifyFirebaseToken E req w = (Ok (Next req1), w1) ->
  identified E req1 w1.
Proof.
  destruct (bearerToken (authorization req)) as [token|] eqn:Hb.
  - rewrite (verifyFirebaseToken_token _ _ _ Hb).
    destruct (verifyIdToken E token) as [e|claims] eqn:Hv; [discriminate|].
    intros [= <- <-]. exists token, claims. repeat split; [assumption|].
    cbn. apply in_or_app. right. left. reflexivity.
  - rewrite (verifyFirebaseToken_no_token _ _ Hb). discriminate.
Qed.

Lemma verifyRole_next (role : string) (req req1 : request) (w w1 : world) :
  verifyRole E role req w = (Ok (Next req1), w1) ->
  req1 = req /\ trace w1 = (trace w ++ [EvStore usersCollection FindOne])%list.
Proof.
  unfold verifyRole. destruct (decoded req) as [dec|]; [|discriminate].
  unfold bind, findOne, storeRead.
  destruct (storeFails E (storeCalls w)); [discriminate|].
  destruct (List.find _ _) as [u|]; [|discriminate].
  destruct (negb _); [discriminate|].
  intros [= <- <-]. split; reflexivity.
Qed.

(** Passing a gate keeps, or establishes, the identity on the request. *)
Lemma gate_next_identified (g : gate) (req req1 : request) (w w1 : world) :
  gateMw E g req w = (Ok (Next req1), w1) ->
  (isRoleGate g = true -> identified E req w) ->
  identified E req1 w1.
Proof.
  destruct g; cbn [gateMw isRoleGate]; intros Hrun Hid.
  - eapply verifyFirebaseToken_next; eassumption.
  - apply verifyRole_next in Hrun as [-> Ht].
    destruct (Hid eq_refl) as (token & claims & Hd & Hv & Hin).
    exists token, claims. rewrite Ht. repeat split; try assumption.
    apply in_or_app. left. assumption.
  - apply verifyRole_next in Hrun as [-> Ht].
    destruct (Hid eq_refl) as (token & claims & Hd & Hv & Hin).
    exists token, claims. rewrite Ht. repeat split; try assumption.
    apply in_or_app. left. assumption.
Qed.

Lemma enters_identified (gs : list gate) (seen : bool) (req : request) (w : world)
    (g : gate) (req' : request) (w' : world) :
  authFirst seen gs = true ->
  (seen = true -> identified E req w) ->
  enters E gs req w g req' w' ->
  isRoleGate g = true ->
  identified E req' w'.
Proof.
  intros Hord Hseen Hent Hrole. revert seen Hord Hseen.
  induction Hent as [g gs req w | g0 gs req w req1 w1 g req' w' Hrun Hent IH];
    intros seen Hord Hseen.
  - cbn in Hord. rewrite Hrole in Hord.
    apply andb_prop in Hord as [-> _]. auto.
  - cbn in Hord. destruct (isRoleGate g0) eqn:Hg0.
    + apply andb_prop in Hord as [-> Hord].
      apply (IH Hrole true Hord). intros _.
      eapply gate_next_identified; eauto.
    + apply (IH Hrole true Hord). intros _.
      eapply gate_next_identified; eauto. congruence.
Qed.

End Gates.

(** C1. A request to a route that starts with the authentication gate, whose
    Authorization header is absent, or does not start with "Bearer ", or is
    the bare prefix with an empty token, is answered 401; the world is left
    as it was (no call to the identity oracle, no store command), whatever
    gates and handler [rest] follow, so none of them ran. *)
Theorem c1_malformed_header_rejected (E : env) (rest : list middleware)
    (req : request) (w : world) :
  authorization req = None
  \/ (exists h, authorization req = Some h /\ startsWith h "Bearer " = false)
  \/ authorization req = Some "Bearer " ->
  run_chain (verifyFirebaseToken E :: rest) req w
  = (Ok (Send (Response 401 (message_ "Unauthorized access"))), w).
Proof.
  intros H. rewrite run_chain_cons, verifyFirebaseToken_no_token; [reflexivity|].
  destruct H as [-> | [(h & -> & Hp) | ->]]; cbn; [reflexivity| |reflexivity].
  rewrite Hp. reflexivity.
Qed.

Lemma c1_malformed_header_rejected_witness :
  run_chain (verifyFirebaseToken demoEnv :: [verifyAdmin demoEnv]) emptyRequest demoUsers
  = (Ok (Send (Response 401 (message_ "Unauthorized access"))), demoUsers).
Proof.
  apply c1_malformed_header_rejected. left. reflexivity.
Defined.

(** C2. On a route guarded by the authentication gate and a role gate, for a
    request whose token the oracle verified: when no user record matches the
    verified email, or the first matching record has another role than the
    required one, the answer is 403 and the world only gained the two calls
    of the gates, whatever the handler is; when the record has the required
    role, the route runs the handler on the request with the identity
    attached. *)
Theorem c2_role_gate (E : env) (g : gate) (role : string) (h : handler)
    (req : request) (w : world) (token : string) (claims : doc) :
  (g = VerifyAdmin /\ role = "admin") \/ (g = VerifyTeacher /\ role = "teacher") ->
  bearerToken (authorization req) = Some token ->
  verifyIdToken E token = inr claims ->
  storeFails E (storeCalls w) = None ->
  let user := List.find (matches E (FEq "email" (claims !! "email")))
                (collection (db w) usersCollection) in
  let w' := sent usersCollection FindOne (logEvent (EvVerify token) w) in
  (user = None \/ (exists u, user = Some u /\ u !! "role" <> Some (VStr role)) ->
   run_route E [VerifyFirebaseToken; g] h req w
   = (Ok (Send (Response 403 (message_ "Forbidden Access"))), w'))
  /\ ((exists u, user = Some u /\ u !! "role" = Some (VStr role)) ->
      run_route E [VerifyFirebaseToken; g] h req w
      = handle h (setDecoded req claims) w').
Proof.
  intros Hg Hb Hv Hs user w'.
  assert (Hrun : run_route E [VerifyFirebaseToken; g] h req w
                 = match verifyRole E role (setDecoded req claims)
                           (logEvent (EvVerify token) w) with
                   | (Ok (Next req'), w1) => handle h req' w1
                   | (Ok (Send r), w1) => (Ok (Send r), w1)
                   | (Throw e, w1) => (Throw e, w1)
                   end).
  { unfold run_route. cbn [map app gateMw].
    rewrite run_chain_cons, (verifyFirebaseToken_token _ _ _ _ Hb), Hv.
    rewrite run_chain_cons.
    replace (gateMw E g) with (verifyRole E role)
      by (destruct Hg as [[-> ->] | [-> ->]]; reflexivity).
    destruct (verifyRole E role _ _) as [[[?|?]|?] ?]; try reflexivity.
    apply run_chain_handle. }
  rewrite Hrun.
  rewrite (verifyRole_spec E role (setDecoded req claims)
             (logEvent (EvVerify token) w) claims eq_refl Hs).
  cbn [db logEvent]. fold user. fold w'. split.
  - intros [-> | (u & -> & Hr)]; [reflexivity|].
    replace (strictEqStr (u !! "role") role) with false; [reflexivity|].
    unfold strictEqStr. destruct (u !! "role") as [[| | |s|]|]; try reflexivity.
    symmetry. apply String.eqb_neq. congruence.
  - intros (u & -> & Hr). rewrite Hr. cbn. rewrite String.eqb_refl. reflexivity.
Qed.


Lemma c2_role_gate_witness :
  run_route demoEnv [VerifyFirebaseToken; VerifyAdmin] (getAdminAddClass demoEnv)
    (withAuth "Bearer student-token" emptyRequest) demoUsers
  = (Ok (Send (Response 403 (message_ "Forbidden Access"))),
     sent usersCollection FindOne (logEvent (EvVerify "student-token") demoUsers))
  /\ run_route demoEnv [VerifyFirebaseToken; VerifyAdmin] (getAdminAddClass demoEnv)
       (withAuth "Bearer admin-token" emptyRequest) demoUsers
     = handle (getAdminAddClass demoEnv)
         (setDecoded (withAuth "Bearer admin-token" emptyRequest) (claimsOf "admin@x.com"))
         (sent usersCollection FindOne (logEvent (EvVerify "admin-token") demoUsers)).
Proof.
  split.
  - apply (c2_role_gate demoEnv VerifyAdmin "admin" (getAdminAddClass demoEnv)
             (withAuth "Bearer student-token" emptyRequest) demoUsers
             "student-token" (claimsOf "a@x.com"));
      [left; split; reflexivity | reflexivity | reflexivity | reflexivity |].
    right. exists studentUser. split; [vm_compute; reflexivity|].
    vm_compute. discriminate.
  - apply (c2_role_gate demoEnv VerifyAdmin "admin" (getAdminAddClass demoEnv)
             (withAuth "Bearer admin-token" emptyRequest) demoUsers
             "admin-token" (claimsOf "admin@x.com"));
      [left; split; reflexivity | reflexivity | reflexivity | reflexivity |].
    exists adminUser. split; vm_compute; reflexivity.
Defined.

(** C3. In every snapshot of the server, every route that registers a role
    gate registers the authentication gate before it; and when Express gets
    to call a role gate of such a route, the request it passes carries an
    identity that the oracle returned for a token, the call being in the
    trace: a role gate, and the user lookup it makes, never runs on a
    request without a verified identity. *)
Theorem c3_auth_before_role (r : route) :
  In r all_routes ->
  authFirst false (gates r) = true
  /\ forall (E : env) (req : request) (w : world) (g : gate)
            (req' : request) (w' : world),
       enters E (gates r) req w g req' w' ->
       isRoleGate g = true ->
       identified E req' w'.
Proof.
  intros Hin.
  assert (Hord : authFirst false (gates r) = true).
  { revert r Hin.
    apply (proj1 (List.Forall_forall
                    (fun r => authFirst false (gates r) = true) all_routes)).
    unfold all_routes, routes_index, routes_index_2, routes_part_002,
      routes_part_001, routes_part_001_2, routes_part_000. cbn [app].
    repeat (apply List.Forall_cons; [reflexivity|]). apply List.Forall_nil. }
  split; [exact Hord|].
  intros E req w g req' w' Hent Hrole.
  eapply enters_identified; eauto. discriminate.
Qed.

Lemma c3_auth_before_role_witness :
  authFirst false [VerifyFirebaseToken; VerifyAdmin] = true
  /\ identified demoEnv
       (setDecoded (withAuth "Bearer admin-token" emptyRequest) (claimsOf "admin@x.com"))
       (logEvent (EvVerify "admin-token") demoUsers).
Proof.
  destruct (c3_auth_before_role (Route GET "/users/search" [VerifyFirebaseToken; VerifyAdmin])
              (or_introl eq_refl)) as [Hord Hsem].
  split; [exact Hord|].
  apply (Hsem demoEnv (withAuth "Bearer admin-token" emptyRequest) demoUsers VerifyAdmin).
  - apply (enters_tail demoEnv VerifyFirebaseToken [VerifyAdmin]
             (withAuth "Bearer admin-token" emptyRequest) demoUsers
             (setDecoded (withAuth "Bearer admin-token" emptyRequest)
                (claimsOf "admin@x.com"))
             (logEvent (EvVerify "admin-token") demoUsers));
      [vm_compute; reflexivity | apply enters_head].
  - reflexivity.
Defined.

(** * Properties of the store commands *)

Section Store.
Context (E : env).

Lemma findOne_ok (coll : string) (f : filter) (w : world) :
  storeFails E (storeCalls w) = None ->
  findOne E coll f w
  = (Ok (List.find (matches E f) (collection (db w) coll)), sent coll FindOne w).
Proof. intros H. unfold findOne, storeRead. rewrite H. reflexivity. Qed.

Lemma countDocuments_ok (coll : string) (f : filter) (w : world) :
  storeFails E (storeCalls w) = None ->
  countDocuments E coll f w
  = (Ok (length (List.filter (matches E f) (collection (db w) coll))),
     sent coll CountDocuments w).
Proof. intros H. unfold countDocuments, storeRead. rewrite H. reflexivity. Qed.

Lemma find_ok (coll : string) (f : filter) (sortKey : option string)
    (sk lim : option jsint) (w : world) (sl : nat * option nat) :
  storeFails E (storeCalls w) = None ->
  cursorWindow E sk lim = inr sl ->
  find E coll f sortKey sk lim w
  = (Ok (window sl
           (let m := List.filter (matches E f) (collection (db w) coll) in
            match sortKey with Some k => sortDescBy k m | None => m end)),
     sent coll Find w).
Proof.
  intros H Hl. unfold find, bind, storeRead. rewrite H, Hl. reflexivity.
Qed.

Lemma find_fail (coll : string) (f : filter) (sortKey : option string)
    (sk lim : option jsint) (w : world) (e : exn) :
  storeFails E (storeCalls w) = Some e ->
  find E coll f sortKey sk lim w = (Throw e, sent coll Find w).
Proof. intros H. unfold find, bind, storeRead. rewrite H. reflexivity. Qed.

Lemma updateOne_ok (coll : string) (f : filter)
    (fs : list (string * option value)) (w : world) :
  storeFails E (storeCalls w) = None ->
  updateOne E coll f fs w
  = (Ok (if existsb (matches E f) (collection (db w) coll) then 1 else 0),
     setColl coll (updateFirst (matches E f) (setFields fs) (collection (db w) coll))
       (sent coll UpdateOne w)).
Proof. intros H. unfold updateOne, storeWrite. rewrite H. reflexivity. Qed.

Lemma updateOne_fail (coll : string) (f : filter)
    (fs : list (string * option value)) (w : world) (e : exn) :
  storeFails E (storeCalls w) = Some e ->
  updateOne E coll f fs w = (Throw e, sent coll UpdateOne w).
Proof. intros H. unfold updateOne, storeWrite. rewrite H. reflexivity. Qed.

Lemma insertOne_ok (coll : string) (d : doc) (w : world) :
  storeFails E (storeCalls w) = None ->
  insertOne E coll d w
  = (let id := idOr (VOid (freshId E (storeCalls w))) (d !! "_id") in
     (Ok id, setColl coll (collection (db w) coll ++ [<["_id" := id]> d])%list
               (sent coll InsertOne w))).
Proof. intros H. unfold insertOne, storeWrite. rewrite H. reflexivity. Qed.

Lemma collection_setColl (coll : string) (c : list doc) (w : world) :
  collection (db (setColl coll c w)) coll = c.
Proof. unfold collection, setColl. cbn. rewrite lookup_insert_eq. reflexivity. Qed.

Lemma collection_setColl_ne (coll coll' : string) (c : list doc) (w : world) :
  coll <> coll' ->
  collection (db (setColl coll c w)) coll' = collection (db w) coll'.
Proof.
  intros H. unfold collection, setColl. cbn.
  rewrite lookup_insert_ne by assumption. reflexivity.
Qed.

(** [updateFirst] rewrites the first match and nothing else. *)
Lemma updateFirst_find (p : doc -> bool) (u : doc -> doc) (c : list doc) (d : doc) :
  List.find p c = Some d ->
  exists c1 c2,
    c = (c1 ++ d :: c2)%list
    /\ List.Forall (fun x => p x = false) c1
    /\ p d = true
    /\ updateFirst p u c = (c1 ++ u d :: c2)%list.
Proof.
  induction c as [|x c IH]; cbn; [discriminate|].
  destruct (p x) eqn:Hx.
  - intros [= ->]. exists [], c. repeat split; [constructor | assumption].
  - intros Hf. destruct (IH Hf) as (c1 & c2 & -> & Hall & Hd & Hu).
    exists (x :: c1), c2. rewrite Hu. repeat split; [|assumption].
    constructor; assumption.
Qed.

Lemma updateFirst_none (p : doc -> bool) (u : doc -> doc) (c : list doc) :
  List.find p c = None -> updateFirst p u c = c.
Proof.
  induction c as [|x c IH]; cbn; [reflexivity|].
  destruct (p x); [discriminate|]. intros H. rewrite IH by assumption. reflexivity.
Qed.

Lemma updateFirst_length (p : doc -> bool) (u : doc -> doc) (c : list doc) :
  length (updateFirst p u c) = length c.
Proof.
  induction c as [|x c IH]; cbn; [reflexivity|].
  destruct (p x); cbn; congruence.
Qed.

End Store.

(** Running a handler: unfold the monad and replace each store command by
    what it returns. *)
Ltac run_store :=
  cbv beta iota zeta delta [bind tryCatch ret newDateISO liftSum throw];
  cbn [db trace storeCalls dateCalls];
  repeat first
    [ rewrite findOne_ok by (cbn; assumption)
    | rewrite countDocuments_ok by (cbn; assumption)
    | rewrite updateOne_ok by (cbn; assumption)
    | erewrite updateOne_fail by (cbn; eassumption)
    | rewrite insertOne_ok by (cbn; assumption)
    | progress cbv beta iota zeta delta [bind tryCatch ret newDateISO liftSum throw]
    | progress unfold sent, setColl
    | progress cbn [db trace storeCalls dateCalls] ].

(** * The two upserts by email *)

Section Upsert.
Context (E : env).

(** POST /teacher-request for an email that already has a request. *)
Lemma postTeacherRequest_existing (req : request) (w : world) (d : doc) :
  storeFails E (storeCalls w) = None ->
  storeFails E (S (storeCalls w)) = None ->
  List.find (matches E (FEq "email" (body req !! "email")))
    (collection (db w) teacherRequestCollection) = Some d ->
  postTeacherRequest E req w
  = (Ok (Response 200 (PObject [("message", Some (VStr "Already exists"));
                                ("inserted", Some (VBool false))])),
     {| db := <[teacherRequestCollection :=
                 updateFirst (matches E (FEq "email" (body req !! "email")))
                   (setFields [("status", Some (VStr "pending"));
                               ("last_request_at",
                                Some (VStr (now E (S (S (dateCalls w))))))])
                   (collection (db w) teacherRequestCollection)]> (db w);
        trace := (trace w ++ [EvStore teacherRequestCollection FindOne;
                              EvStore teacherRequestCollection UpdateOne])%list;
        storeCalls := S (S (storeCalls w));
        dateCalls := S (S (S (dateCalls w))) |}).
Proof.
  intros H0 H1 Hfind. unfold postTeacherRequest.
  run_store. rewrite !lookup_insert_ne by done.
  rewrite Hfind. run_store. rewrite <- List.app_assoc. reflexivity.
Qed.

(** POST /user (index.js) when the email is new. *)
Lemma postUser_new (req : request) (w : world) :
  storeFails E (storeCalls w) = None ->
  storeFails E (S (storeCalls w)) = None ->
  List.find (matches E (FEq "email" (body req !! "email")))
    (collection (db w) usersCollection) = None ->
  let userData :=
    <["last_loggedIn" := VStr (now E (S (dateCalls w)))]>
      (<["create_at" := VStr (now E (dateCalls w))]>
         (<["status" := VStr "not-verified"]>
            (<["role" := VStr "student"]> (body req)))) in
  let id := idOr (VOid (freshId E (S (storeCalls w)))) (body req !! "_id") in
  postUser E req w
  = (Ok (send (PInsertResult id)),
     {| db := <[usersCollection :=
                 (collection (db w) usersCollection ++ [<["_id" := id]> userData])%list]>
                (db w);
        trace := (trace w ++ [EvStore usersCollection FindOne;
                              EvStore usersCollection InsertOne])%list;
        storeCalls := S (S (storeCalls w));
        dateCalls := S (S (dateCalls w)) |}).
Proof.
  intros H0 H1 Hfind userData id. unfold postUser.
  run_store. rewrite !lookup_insert_ne by done.
  rewrite Hfind. run_store. rewrite !lookup_insert_ne by done.
  rewrite <- List.app_assoc. reflexivity.
Qed.

(** POST /user (index.js) when a record with the email exists. *)
Lemma postUser_existing (req : request) (w : world) (d : doc) :
  storeFails E (storeCalls w) = None ->
  storeFails E (S (storeCalls w)) = None ->
  List.find (matches E (FEq "email" (body req !! "email")))
    (collection (db w) usersCollection) = Some d ->
  postUser E req w
  = (Ok (Response 200 (PObject [("message", Some (VStr "User already exists"));
                                ("inserted", Some (VBool false))])),
     {| db := <[usersCollection :=
                 updateFirst (matches E (FEq "email" (body req !! "email")))
                   (setFields [("last_loggedIn",
                                Some (VStr (now E (S (S (dateCalls w))))))])
                   (collection (db w) usersCollection)]> (db w);
        trace := (trace w ++ [EvStore usersCollection FindOne;
                              EvStore usersCollection UpdateOne])%list;
        storeCalls := S (S (storeCalls w));
        dateCalls := S (S (S (dateCalls w))) |}).
Proof.
  intros H0 H1 Hfind. unfold postUser.
  run_store. rewrite !lookup_insert_ne by done.
  rewrite Hfind. run_store. rewrite <- List.app_assoc. reflexivity.
Qed.

Lemma matchEq_insert_ne (d : doc) (k k' : string) (x : value) (v : option value) :
  k <> k' -> matchEq (<[k := x]> d) k' v = matchEq d k' v.
Proof. intros H. unfold matchEq. rewrite lookup_insert_ne by assumption. reflexivity. Qed.

Lemma filter_find_none (p : doc -> bool) (c : list doc) :
  List.find p c = None -> List.filter p c = [].
Proof.
  induction c as [|x c IH]; cbn; [reflexivity|].
  destruct (p x); [discriminate|assumption].
Qed.

Lemma filter_update_here (p : doc -> bool) (c1 c2 : list doc) (d d' : doc) :
  p d' = p d ->
  length (List.filter p (c1 ++ d' :: c2)) = length (List.filter p (c1 ++ d :: c2)).
Proof.
  intros H. rewrite !List.filter_app, !length_app. cbn. rewrite H.
  destruct (p d); reflexivity.
Qed.

End Upsert.

(** POST /user as index.js has it is the upsert by email: a new email gets
    one new record with role 'student', status 'not-verified' and the two
    timestamps; an email that has a record gets the answer 200 "User already
    exists", its first record has last_loggedIn set and nothing else, and
    the number of records with that email stays what it was. *)
Theorem postUser_index_upsert (E : env) (req : request) (w : world) :
  storeFails E (storeCalls w) = None ->
  storeFails E (S (storeCalls w)) = None ->
  let email := body req !! "email" in
  let users := collection (db w) usersCollection in
  (List.find (matches E (FEq "email" email)) users = None ->
   exists (w' : world) (id : value) (new : doc),
     postUser E req w = (Ok (send (PInsertResult id)), w')
     /\ collection (db w') usersCollection = (users ++ [new])%list
     /\ new !! "role" = Some (VStr "student")
     /\ new !! "status" = Some (VStr "not-verified")
     /\ new !! "create_at" = Some (VStr (now E (dateCalls w)))
     /\ new !! "last_loggedIn" = Some (VStr (now E (S (dateCalls w))))
     /\ new !! "email" = email)
  /\ (forall d : doc,
        List.find (matches E (FEq "email" email)) users = Some d ->
        exists (w' : world) (c1 c2 : list doc),
          postUser E req w
          = (Ok (Response 200 (PObject [("message", Some (VStr "User already exists"));
                                        ("inserted", Some (VBool false))])), w')
          /\ users = (c1 ++ d :: c2)%list
          /\ collection (db w') usersCollection
             = (c1 ++ <["last_loggedIn" := VStr (now E (S (S (dateCalls w))))]> d :: c2)%list
          /\ usersWithEmail E email w' = usersWithEmail E email w).
Proof.
  intros H0 H1 email users. split.
  - intros Hfind. eexists _, _, _. split; [apply postUser_new; assumption|].
    cbn [db]. unfold collection at 1. rewrite lookup_insert_eq. cbn [default].
    split; [reflexivity|].
    repeat split; try (rewrite ?lookup_insert_ne by done; apply lookup_insert_eq).
    rewrite !lookup_insert_ne by done. reflexivity.
  - intros d Hfind.
    destruct (updateFirst_find _
                (setFields [("last_loggedIn",
                             Some (VStr (now E (S (S (dateCalls w))))))])
                _ _ Hfind) as (c1 & c2 & Hc & _ & _ & Hu).
    eexists _, c1, c2. split; [apply (postUser_existing E req w d); assumption|].
    split; [exact Hc|].
    assert (Hcoll : forall m, collection (<[usersCollection := m]> (db w)) usersCollection = m).
    { intros m. unfold collection. rewrite lookup_insert_eq. reflexivity. }
    unfold usersWithEmail. cbn [db]. rewrite !Hcoll.
    subst email users. rewrite Hu. split; [reflexivity|]. rewrite Hc.
    apply filter_update_here. unfold setFields. cbn [foldl fst snd default matches].
    apply matchEq_insert_ne. done.
Qed.

(** C10. POST /teacher-request, called with an accepted token for an email
    that already has a teacher-request record [d] (the first one with that
    email): the answer is 200 "Already exists"; the collection is the old
    one with [d] replaced, in place, by a record whose status is 'pending'
    and whose last_request_at is the time of the call, and whose other
    fields are those of [d]; no record is added and no other collection
    changes. *)
Theorem c10_teacher_request_frame (E : env) (req : request) (w : world)
    (token : string) (claims d : doc) :
  bearerToken (authorization req) = Some token ->
  verifyIdToken E token = inr claims ->
  storeFails E (storeCalls w) = None ->
  storeFails E (S (storeCalls w)) = None ->
  List.find (matches E (FEq "email" (body req !! "email")))
    (collection (db w) teacherRequestCollection) = Some d ->
  exists (w' : world) (c1 c2 : list doc) (d' : doc),
    run_route E [VerifyFirebaseToken] (postTeacherRequest E) req w
    = (Ok (Send (Response 200 (PObject [("message", Some (VStr "Already exists"));
                                        ("inserted", Some (VBool false))]))), w')
    /\ collection (db w) teacherRequestCollection = (c1 ++ d :: c2)%list
    /\ collection (db w') teacherRequestCollection = (c1 ++ d' :: c2)%list
    /\ d' !! "status" = Some (VStr "pending")
    /\ d' !! "last_request_at" = Some (VStr (now E (S (S (dateCalls w)))))
    /\ (forall k : string, k <> "status" -> k <> "last_request_at" -> d' !! k = d !! k)
    /\ length (collection (db w') teacherRequestCollection)
       = length (collection (db w) teacherRequestCollection)
    /\ (forall coll : string, coll <> teacherRequestCollection ->
          db w' !! coll = db w !! coll).
Proof.
  intros Hb Hv H0 H1 Hfind.
  destruct (updateFirst_find _
              (setFields [("status", Some (VStr "pending"));
                          ("last_request_at",
                           Some (VStr (now E (S (S (dateCalls w))))))])
              _ _ Hfind) as (c1 & c2 & Hc & _ & _ & Hu).
  eexists _, c1, c2, _. split.
  { rewrite (run_route_auth E [] _ _ _ token claims Hb Hv), run_route_nil, handle_run.
    rewrite postTeacherRequest_existing with (d := d); [reflexivity|assumption..]. }
  cbn [db body setDecoded logEvent dateCalls].
  replace (collection (<[teacherRequestCollection := _]> (db w)) teacherRequestCollection)
    with (c1 ++ setFields [("status", Some (VStr "pending"));
                           ("last_request_at",
                            Some (VStr (now E (S (S (dateCalls w))))))] d :: c2)%list
    by (unfold collection at 1; rewrite lookup_insert_eq; symmetry; exact Hu).
  split; [exact Hc|]. split; [reflexivity|].
  unfold setFields. cbn [foldl fst snd default].
  split; [rewrite lookup_insert_ne by done; apply lookup_insert_eq|].
  split; [apply lookup_insert_eq|].
  split; [intros k Hk1 Hk2; rewrite !lookup_insert_ne by congruence; reflexivity|].
  split; [rewrite Hc, !length_app; reflexivity|].
  intros coll Hne. rewrite lookup_insert_ne by congruence. reflexivity.
Qed.

Lemma c10_teacher_request_frame_witness :
  exists (w' : world) (c1 c2 : list doc) (d' : doc),
    run_route demoEnv [VerifyFirebaseToken] (postTeacherRequest demoEnv)
      teacherRequestAgain demoRequests
    = (Ok (Send (Response 200 (PObject [("message", Some (VStr "Already exists"));
                                        ("inserted", Some (VBool false))]))), w')
    /\ collection (db demoRequests) teacherRequestCollection
       = (c1 ++ rejectedRequest :: c2)%list
    /\ collection (db w') teacherRequestCollection = (c1 ++ d' :: c2)%list
    /\ d' !! "status" = Some (VStr "pending")
    /\ d' !! "last_request_at"
       = Some (VStr (now demoEnv (S (S (dateCalls demoRequests)))))
    /\ (forall k : string, k <> "status" -> k <> "last_request_at" ->
        d' !! k = rejectedRequest !! k)
    /\ length (collection (db w') teacherRequestCollection)
       = length (collection (db demoRequests) teacherRequestCollection)
    /\ (forall coll : string, coll <> teacherRequestCollection ->
          db w' !! coll = db demoRequests !! coll).
Proof.
  apply (c10_teacher_request_frame demoEnv teacherRequestAgain demoRequests
           "student-token" (claimsOf "a@x.com") rejectedRequest);
    vm_compute; reflexivity.
Defined.

(** C4, on the first snapshot of the server (src/unnamed/part_000): its
    POST /user handler, called twice with the same email on an empty users
    collection, answers the second call with an insert result and leaves two
    records with that email, neither of which has a status field. *)
Theorem c4_first_snapshot_inserts_again :
  let w1 := snd (postUser_part_000 demoEnv signIn (worldOf ∅)) in
  let r2 := postUser_part_000 demoEnv signIn w1 in
  usersWithEmail demoEnv (Some (VStr "a@x.com")) w1 = 1
  /\ fst r2 = Ok (send (PInsertResult (VOid (demoId 4))))
  /\ usersWithEmail demoEnv (Some (VStr "a@x.com")) (snd r2) = 2
  /\ List.map (fun d : doc => d !! "status") (collection (db (snd r2)) usersCollection)
     = [None; None].
Proof. vm_compute. repeat split. Qed.

(** The same two calls on the handler of index.js: the second one answers
    "User already exists" and one record remains. *)
Example postUser_index_twice :
  let w1 := snd (postUser demoEnv signIn (worldOf ∅)) in
  let r2 := postUser demoEnv signIn w1 in
  fst r2 = Ok (Response 200 (PObject [("message", Some (VStr "User already exists"));
                                      ("inserted", Some (VBool false))]))
  /\ usersWithEmail demoEnv (Some (VStr "a@x.com")) (snd r2) = 1
  /\ List.map (fun d : doc => d !! "status") (collection (db (snd r2)) usersCollection)
     = [Some (VStr "not-verified")].
Proof. vm_compute. repeat split. Qed.

(** * Routes behind the admin gate *)

Section AdminRoutes.
Context (E : env).

(** A request of an authenticated admin reaches the handler. *)
Lemma run_route_admin (h : handler) (req : request) (w : world)
    (token : string) (claims admin : doc) :
  bearerToken (authorization req) = Some token ->
  verifyIdToken E token = inr claims ->
  List.find (matches E (FEq "email" (claims !! "email")))
    (collection (db w) usersCollection) = Some admin ->
  admin !! "role" = Some (VStr "admin") ->
  storeFails E (storeCalls w) = None ->
  run_route E [VerifyFirebaseToken; VerifyAdmin] h req w
  = handle h (setDecoded req claims)
      (sent usersCollection FindOne (logEvent (EvVerify token) w)).
Proof.
  intros Hb Hv Hf Hr Hs.
  rewrite (run_route_auth E _ _ _ _ token claims Hb Hv).
  rewrite (run_route_role E VerifyAdmin "admin" [] h _ _ claims admin);
    [apply run_route_nil | left; split; reflexivity | reflexivity
    | exact Hs | exact Hf | exact Hr].
Qed.

(** PATCH /teacher-request-status/:id when the second update throws. *)
Lemma patchTeacherRequestStatus_second_fails (req : request) (w : world)
    (oid : string) (e : exn) :
  newObjectId E (VStr <$> params req !! "id") = inr oid ->
  storeFails E (storeCalls w) = None ->
  storeFails E (S (storeCalls w)) = Some e ->
  patchTeacherRequestStatus E req w
  = (Ok (Response 500 (message_ "Failed to update")),
     {| db := <[teacherRequestCollection :=
                 updateFirst (matches E (FEq "_id" (Some (VOid oid))))
                   (setFields [("status", body req !! "status")])
                   (collection (db w) teacherRequestCollection)]> (db w);
        trace := (trace w ++ [EvStore teacherRequestCollection UpdateOne;
                              EvStore usersCollection UpdateOne])%list;
        storeCalls := S (S (storeCalls w));
        dateCalls := dateCalls w |}).
Proof.
  intros Hid H0 H1. unfold patchTeacherRequestStatus.
  run_store. rewrite Hid. run_store. rewrite <- List.app_assoc. reflexivity.
Qed.

(** The same request when both updates go through. *)
Lemma patchTeacherRequestStatus_ok (req : request) (w : world) (oid : string) :
  newObjectId E (VStr <$> params req !! "id") = inr oid ->
  storeFails E (storeCalls w) = None ->
  storeFails E (S (storeCalls w)) = None ->
  exists w',
    patchTeacherRequestStatus E req w = (Ok (send (message_ "updated")), w')
    /\ collection (db w') teacherRequestCollection
       = updateFirst (matches E (FEq "_id" (Some (VOid oid))))
           (setFields [("status", body req !! "status")])
           (collection (db w) teacherRequestCollection)
    /\ collection (db w') usersCollection
       = updateFirst (matches E (FEq "email" (body req !! "email")))
           (setFields [("role", body req !! "role")])
           (collection (db w) usersCollection).
Proof.
  intros Hid H0 H1. unfold patchTeacherRequestStatus.
  run_store. rewrite Hid. run_store. eexists. split; [reflexivity|].
  cbn [db]. unfold collection.
  rewrite lookup_insert_eq, (lookup_insert_ne _ usersCollection) by done.
  rewrite lookup_insert_eq, lookup_insert_ne by done.
  split; reflexivity.
Qed.

(** GET /users/search without a pattern. *)
Lemma getUsersSearch_all (req : request) (w : world) :
  query req !! "email" = None ->
  storeFails E (storeCalls w) = None ->
  getUsersSearch E req w
  = (Ok (send (PDocs (List.filter
                        (matches E (FNe "email" (decoded req ≫= fun d => d !! "email")))
                        (collection (db w) usersCollection)))),
     sent usersCollection Find w).
Proof.
  intros Hq H0. unfold getUsersSearch. rewrite Hq.
  cbv beta iota zeta delta [bind tryCatch ret newRegExp_ truthy].
  erewrite find_ok; cycle 1; [assumption | reflexivity | reflexivity].
Qed.

(** GET /users/search with a pattern. *)
Lemma getUsersSearch_pattern (req : request) (w : world) (p : string) :
  query req !! "email" = Some p ->
  p <> "" ->
  newRegExp E p "i" = None ->
  storeFails E (storeCalls w) = None ->
  getUsersSearch E req w
  = (Ok (send (PDocs (firstn 10 (List.filter (matches E (FRegex "email" (RegExp p "i")))
                                   (collection (db w) usersCollection))))),
     sent usersCollection Find w).
Proof.
  intros Hq Hp Hre H0. unfold getUsersSearch. rewrite Hq.
  cbv beta iota zeta delta [bind tryCatch ret newRegExp_ truthy]. rewrite Hre.
  apply String.eqb_neq in Hp. rewrite Hp. cbn [negb].
  erewrite find_ok; cycle 1; [assumption | reflexivity | reflexivity].
Qed.

(** What the written-out matcher decides: the text holds a stretch that the
    pattern equals character by character, up to the case of letters when
    the flag says so, a dot standing for any character. *)
Lemma charMatch_spec (pc sc : ascii) :
  charMatch true pc sc = true <-> pc = "."%char \/ lowerAscii pc = lowerAscii sc.
Proof.
  unfold charMatch. rewrite orb_true_iff, !Ascii.eqb_eq. reflexivity.
Qed.

Lemma matchHere_spec (p s : string) :
  matchHere true p s = true
  <-> exists mid post, s = mid ++ post /\ sameIgnoringCase p mid.
Proof.
  revert s. induction p as [|pc p IH]; intros s; cbn [matchHere].
  - split; [|reflexivity]. intros _. exists "", s. split; [reflexivity|constructor].
  - destruct s as [|sc s].
    + split; [discriminate|]. intros (mid & post & Hs & Hm).
      inversion Hm; subst. discriminate.
    + rewrite andb_true_iff, charMatch_spec, IH. split.
      * intros (Hc & mid & post & -> & Hm).
        exists (String sc mid), post. split; [reflexivity|constructor; assumption].
      * intros (mid & post & Hs & Hm). inversion Hm; subst.
        cbn in Hs. injection Hs as <- ->. split; [assumption|]. eauto.
Qed.

Lemma matchAnywhere_spec (p s : string) :
  matchAnywhere true p s = true
  <-> exists pre mid post, s = pre ++ mid ++ post /\ sameIgnoringCase p mid.
Proof.
  induction s as [|sc s IH]; cbn [matchAnywhere]; rewrite orb_true_iff, matchHere_spec.
  - split.
    + intros [(mid & post & Hs & Hm)|]; [|discriminate]. exists "", mid, post. auto.
    + intros (pre & mid & post & Hs & Hm). left.
      destruct pre; [|discriminate]. exists mid, post. auto.
  - rewrite IH. split.
    + intros [(mid & post & Hs & Hm)|(pre & mid & post & -> & Hm)].
      * exists "", mid, post. auto.
      * exists (String sc pre), mid, post. auto.
    + intros (pre & mid & post & Hs & Hm). destruct pre as [|c pre].
      * left. exists mid, post. auto.
      * right. cbn in Hs. injection Hs as _ ->. eauto.
Qed.

(** A plain pattern with the flag [i] on a text of printable characters. *)
Lemma regexTest_plain (p s : string) :
  plainPattern p = true -> plainText s = true ->
  regexTest E (RegExp p "i") s = matchAnywhere true p s.
Proof. intros Hp Hs. unfold regexTest. cbn [source flags]. rewrite Hp, Hs. reflexivity. Qed.

End AdminRoutes.

(** C8. PATCH /teacher-request-status/:id, called by an authenticated admin,
    sends two update commands one after the other, in this order: the
    first sets the status of the teacher request with the id of the path
    to the body's status, the second sets the role of the first user
    record with the body's email to the body's role.  When both go through
    the answer is 200 "updated" and both collections hold their update.
    When the first goes through and the second throws, the answer is 500
    "Failed to update", the teacher-request collection holds the first
    update all the same, and the users collection is as it was. *)
Theorem c8_partial_failure (E : env) (req : request) (w : world)
    (token : string) (claims admin : doc) (oid : string) :
  bearerToken (authorization req) = Some token ->
  verifyIdToken E token = inr claims ->
  List.find (matches E (FEq "email" (claims !! "email")))
    (collection (db w) usersCollection) = Some admin ->
  admin !! "role" = Some (VStr "admin") ->
  newObjectId E (VStr <$> params req !! "id") = inr oid ->
  storeFails E (storeCalls w) = None ->
  storeFails E (S (storeCalls w)) = None ->
  let run := run_route E [VerifyFirebaseToken; VerifyAdmin]
               (patchTeacherRequestStatus E) req w in
  let commands := [EvVerify token;
                   EvStore usersCollection FindOne;
                   EvStore teacherRequestCollection UpdateOne;
                   EvStore usersCollection UpdateOne] in
  let requests' :=
    updateFirst (matches E (FEq "_id" (Some (VOid oid))))
      (fun d => <["status" := default VNull (body req !! "status")]> d)
      (collection (db w) teacherRequestCollection) in
  let users' :=
    updateFirst (matches E (FEq "email" (body req !! "email")))
      (fun d => <["role" := default VNull (body req !! "role")]> d)
      (collection (db w) usersCollection) in
  (storeFails E (S (S (storeCalls w))) = None ->
   exists w' : world,
     run = (Ok (Send (send (message_ "updated"))), w')
     /\ trace w' = (trace w ++ commands)%list
     /\ collection (db w') teacherRequestCollection = requests'
     /\ collection (db w') usersCollection = users')
  /\ (forall e : exn,
        storeFails E (S (S (storeCalls w))) = Some e ->
        exists w' : world,
          run = (Ok (Send (Response 500 (message_ "Failed to update"))), w')
          /\ trace w' = (trace w ++ commands)%list
          /\ collection (db w') teacherRequestCollection = requests'
          /\ collection (db w') usersCollection = collection (db w) usersCollection).
Proof.
  intros Hb Hv Hf Hr Hid H0 H1 run commands requests' users'.
  subst run.
  rewrite (run_route_admin E _ _ _ token claims admin Hb Hv Hf Hr H0), handle_run.
  split.
  - intros H2. unfold patchTeacherRequestStatus.
    cbn [params body setDecoded]. run_store. rewrite Hid. run_store.
    eexists. split; [reflexivity|]. unfold logEvent. cbn [trace db].
    split; [rewrite <- !List.app_assoc; reflexivity|].
    unfold collection.
    rewrite (lookup_insert_ne _ usersCollection teacherRequestCollection) by done.
    rewrite !lookup_insert_eq.
    rewrite (lookup_insert_ne _ teacherRequestCollection usersCollection) by done.
    split; reflexivity.
  - intros e H2.
    rewrite (patchTeacherRequestStatus_second_fails E (setDecoded req claims) _ oid e Hid);
      [|exact H1|exact H2].
    eexists. split; [reflexivity|]. unfold sent, logEvent.
    cbn [trace db body setDecoded].
    split; [rewrite <- !List.app_assoc; reflexivity|].
    unfold collection.
    rewrite lookup_insert_eq, lookup_insert_ne by done.
    split; reflexivity.
Qed.

Lemma c8_partial_failure_witness :
  (exists w' : world,
     run_route demoEnv [VerifyFirebaseToken; VerifyAdmin]
       (patchTeacherRequestStatus demoEnv) approveRequest demoRequests
     = (Ok (Send (send (message_ "updated"))), w')
     /\ List.map (fun d : doc => d !! "status") (collection (db w') teacherRequestCollection)
        = [Some (VStr "approved")]
     /\ List.map (fun d : doc => d !! "role") (collection (db w') usersCollection)
        = [Some (VStr "admin"); Some (VStr "teacher")])
  /\ (exists w' : world,
        run_route demoEnvFail2 [VerifyFirebaseToken; VerifyAdmin]
          (patchTeacherRequestStatus demoEnvFail2) approveRequest demoRequests
        = (Ok (Send (Response 500 (message_ "Failed to update"))), w')
        /\ List.map (fun d : doc => d !! "status") (collection (db w') teacherRequestCollection)
           = [Some (VStr "approved")]
        /\ collection (db w') usersCollection = collection (db demoRequests) usersCollection).
Proof.
  split.
  - destruct (c8_partial_failure demoEnv approveRequest demoRequests
                "admin-token" (claimsOf "admin@x.com") adminUser requestId) as [Hok _];
      try (vm_compute; reflexivity).
    destruct Hok as (w' & Hrun & _ & Hreq & Husers); [reflexivity|].
    exists w'. split; [exact Hrun|]. rewrite Hreq, Husers.
    split; vm_compute; reflexivity.
  - destruct (c8_partial_failure demoEnvFail2 approveRequest demoRequests
                "admin-token" (claimsOf "admin@x.com") adminUser requestId) as [_ Hfail];
      try (vm_compute; reflexivity).
    destruct (Hfail (Exn "MongoNetworkError" "connection closed"))
      as (w' & Hrun & _ & Hreq & Husers); [reflexivity|].
    exists w'. split; [exact Hrun|]. rewrite Hreq.
    split; [vm_compute; reflexivity | exact Husers].
Defined.

(** In the example the request ends up approved while a@x.com is still a
    student. *)
Example partial_failure_state :
  let w' := snd (run_route demoEnvFail2 [VerifyFirebaseToken; VerifyAdmin]
                   (patchTeacherRequestStatus demoEnvFail2) approveRequest demoRequests) in
  List.map (fun d : doc => d !! "status") (collection (db w') teacherRequestCollection)
  = [Some (VStr "approved")]
  /\ List.map (fun d : doc => d !! "role") (collection (db w') usersCollection)
     = [Some (VStr "admin"); Some (VStr "student")].
Proof. vm_compute. split; reflexivity. Qed.

Lemma matchEq_str (d : doc) (k s : string) :
  matchEq d k (Some (VStr s)) = true <-> d !! k = Some (VStr s).
Proof.
  unfold matchEq. cbn [default]. split.
  - destruct (d !! k) as [[| | |x|]|]; cbn; try discriminate.
    intros H. apply String.eqb_eq in H. congruence.
  - intros ->. cbn. apply String.eqb_refl.
Qed.

(** C9. GET /users/search, called by an authenticated admin whose verified
    email is [me].  Without an email parameter the answer is the list of
    the user records that do not match [me], so it holds no record whose
    email is [me].  With a non-empty email parameter [p] the answer is the
    first ten records whose email the regular expression [new RegExp(p, 'i')]
    matches, and the match is case-insensitive: for a plain pattern, a
    record with an email of printable characters is matched exactly when
    the email holds a stretch equal to the pattern up to the case of
    letters (a dot of the pattern standing for any character).  The
    caller's own record is not left out: it is in the answer when the
    pattern matches [me] and at most ten records match. *)
Theorem c9_users_search (E : env) (req : request) (w : world)
    (token : string) (claims admin : doc) (me : string) :
  bearerToken (authorization req) = Some token ->
  verifyIdToken E token = inr claims ->
  claims !! "email" = Some (VStr me) ->
  List.find (matches E (FEq "email" (Some (VStr me))))
    (collection (db w) usersCollection) = Some admin ->
  admin !! "role" = Some (VStr "admin") ->
  storeFails E (storeCalls w) = None ->
  storeFails E (S (storeCalls w)) = None ->
  let users := collection (db w) usersCollection in
  let run := run_route E [VerifyFirebaseToken; VerifyAdmin] (getUsersSearch E) req w in
  (query req !! "email" = None ->
   exists found : list doc,
     fst run = Ok (Send (send (PDocs found)))
     /\ found = List.filter (fun d => negb (matchEq d "email" (Some (VStr me)))) users
     /\ (forall d : doc, In d found -> d !! "email" <> Some (VStr me)))
  /\ (forall p : string,
        query req !! "email" = Some p -> p <> "" -> newRegExp E p "i" = None ->
        let byPattern := matches E (FRegex "email" (RegExp p "i")) in
        exists found : list doc,
          fst run = Ok (Send (send (PDocs found)))
          /\ found = firstn 10 (List.filter byPattern users)
          /\ (plainPattern p = true ->
              forall (d : doc) (s : string),
                d !! "email" = Some (VStr s) -> plainText s = true ->
                (byPattern d = true
                 <-> exists pre mid post : string,
                       s = pre ++ mid ++ post /\ sameIgnoringCase p mid))
          /\ (byPattern admin = true ->
              length (List.filter byPattern users) <= 10 ->
              In admin found)).
Proof.
  intros Hb Hv Hme Hf Hr H0 H1 users run.
  assert (Hrun : run = handle (getUsersSearch E) (setDecoded req claims)
                         (sent usersCollection FindOne (logEvent (EvVerify token) w))).
  { subst run. apply (run_route_admin E _ _ _ token claims admin); try assumption.
    rewrite Hme. exact Hf. }
  rewrite Hrun, handle_run. split.
  - intros Hq. rewrite (getUsersSearch_all E (setDecoded req claims)) by assumption.
    eexists. split; [reflexivity|].
    cbn [decoded setDecoded mbind option_bind]. rewrite Hme.
    split; [reflexivity|].
    intros d Hd Hemail. apply List.filter_In in Hd as [_ Hd].
    apply (proj2 (matchEq_str d "email" me)) in Hemail.
    cbn [matches] in Hd. rewrite Hemail in Hd. discriminate.
  - intros p Hq Hp Hre byPattern.
    rewrite (getUsersSearch_pattern E (setDecoded req claims) _ p) by assumption.
    eexists. split; [reflexivity|]. split; [reflexivity|]. split.
    + intros Hplain d s Hd Hs. subst byPattern. cbn [matches]. rewrite Hd.
      rewrite regexTest_plain by assumption. apply matchAnywhere_spec.
    + intros Hmatch Hlen. rewrite List.firstn_all2 by exact Hlen.
      apply List.filter_In. split; [|exact Hmatch].
      apply List.find_some in Hf. apply Hf.
Qed.

Lemma c9_users_search_witness :
  (exists found : list doc,
     fst (run_route demoEnv [VerifyFirebaseToken; VerifyAdmin] (getUsersSearch demoEnv)
            searchAll demoUsers) = Ok (Send (send (PDocs found)))
     /\ found = [studentUser])
  /\ (exists found : list doc,
        fst (run_route demoEnv [VerifyFirebaseToken; VerifyAdmin] (getUsersSearch demoEnv)
               (searchFor "ADMIN@X.Com") demoUsers) = Ok (Send (send (PDocs found)))
        /\ (matches demoEnv (FRegex "email" (RegExp "ADMIN@X.Com" "i")) adminUser = true
            <-> exists pre mid post : string,
                  "admin@x.com" = pre ++ mid ++ post /\ sameIgnoringCase "ADMIN@X.Com" mid)
        /\ In adminUser found).
Proof.
  split.
  - destruct (c9_users_search demoEnv searchAll demoUsers "admin-token"
                (claimsOf "admin@x.com") adminUser "admin@x.com") as [Hall _];
      try (vm_compute; reflexivity).
    destruct Hall as (found & Hrun & Hfound & _); [reflexivity|].
    exists found. split; [exact Hrun|]. rewrite Hfound. vm_compute. reflexivity.
  - destruct (c9_users_search demoEnv (searchFor "ADMIN@X.Com") demoUsers "admin-token"
                (claimsOf "admin@x.com") adminUser "admin@x.com") as [_ Hpat];
      try (vm_compute; reflexivity).
    destruct (Hpat "ADMIN@X.Com") as (found & Hrun & _ & Hcase & Hin);
      [reflexivity | discriminate | reflexivity |].
    exists found. split; [exact Hrun|]. split.
    + apply Hcase; reflexivity.
    + apply Hin; vm_compute; [reflexivity | lia].
Defined.
(** * Public listings and pagination *)

(** ** Doubles on safe integers *)

Lemma roundDouble_safe (z : Z) :
  (Z.abs z <= MAX_SAFE_INTEGER)%Z -> roundDouble z = Int z.
Proof.
  intros H. unfold roundDouble, MAX_SAFE_INTEGER in *.
  replace (Z.abs z <? 2 ^ 53)%Z with true; [reflexivity|].
  symmetry. apply Z.ltb_lt. lia.
Qed.

Lemma roundHalfEven_le (num den N : Z) :
  (0 < den)%Z -> (num <= N * den)%Z -> (roundHalfEven num den <= N)%Z.
Proof.
  intros Hd H. unfold roundHalfEven.
  pose proof (Z.div_mod num den ltac:(lia)) as Hdm.
  pose proof (Z.mod_pos_bound num den Hd) as Hm.
  destruct (2 * (num mod den) <? den)%Z eqn:H1.
  - nia.
  - apply Z.ltb_ge in H1.
    assert (num / den + 1 <= N)%Z by nia.
    destruct (den <? 2 * (num mod den))%Z; [lia|].
    destruct (Z.even (num / den)); lia.
Qed.

Lemma roundHalfEven_gt (num den N : Z) :
  (0 < den)%Z -> (den < 2 * (num - N * den))%Z -> (N < roundHalfEven num den)%Z.
Proof.
  intros Hd H. unfold roundHalfEven.
  pose proof (Z.div_mod num den ltac:(lia)) as Hdm.
  pose proof (Z.mod_pos_bound num den Hd) as Hm.
  assert (N <= num / den)%Z by nia.
  destruct (2 * (num mod den) <? den)%Z eqn:H1.
  - apply Z.ltb_lt in H1. nia.
  - destruct (den <? 2 * (num mod den))%Z eqn:H2; [lia|].
    apply Z.ltb_ge in H1. apply Z.ltb_ge in H2.
    assert (N < num / den)%Z by nia.
    destruct (Z.even (num / den)); lia.
Qed.

(** For a quotient of safe integers the scale of the nearest double leaves
    room for every multiple of 1/d. *)
Lemma log2Q_safe (n d : Z) :
  (0 < n <= MAX_SAFE_INTEGER)%Z -> (0 < d <= MAX_SAFE_INTEGER)%Z ->
  (-54 <= log2Q n d <= 52)%Z /\ (d < 2 ^ (53 - log2Q n d))%Z.
Proof.
  unfold MAX_SAFE_INTEGER. intros Hn Hd.
  pose proof (Z.log2_spec n ltac:(lia)) as [Hn1 Hn2].
  pose proof (Z.log2_spec d ltac:(lia)) as [Hd1 Hd2].
  pose proof (Z.log2_nonneg n) as Hn0. pose proof (Z.log2_nonneg d) as Hd0.
  assert (Hln : (Z.log2 n <= 52)%Z).
  { apply Z.lt_succ_r. apply (Z.pow_lt_mono_r_iff 2); lia. }
  assert (Hld : (Z.log2 d <= 52)%Z).
  { apply Z.lt_succ_r. apply (Z.pow_lt_mono_r_iff 2); lia. }
  unfold log2Q. set (e := (Z.log2 n - Z.log2 d)%Z).
  destruct (n * 2 ^ Z.max 0 (- e) <? d * 2 ^ Z.max 0 e)%Z eqn:Ht.
  - split; [lia|].
    eapply Z.lt_le_trans; [exact Hd2|].
    apply Z.pow_le_mono_r; lia.
  - apply Z.ltb_ge in Ht. split; [lia|].
    destruct (Z.le_gt_cases 0 e) as [He|He].
    + rewrite Z.max_r in Ht by lia. rewrite Z.max_l in Ht by lia.
      rewrite Z.pow_0_r, Z.mul_1_r in Ht.
      assert (Hp : (2 ^ 53 = 2 ^ e * 2 ^ (53 - e))%Z).
      { rewrite <- Z.pow_add_r by lia. f_equal; lia. }
      assert (0 < 2 ^ e)%Z by (apply Z.pow_pos_nonneg; lia).
      assert (0 < 2 ^ (53 - e))%Z by (apply Z.pow_pos_nonneg; lia).
      nia.
    + rewrite Z.max_l in Ht by lia. rewrite Z.max_r in Ht by lia.
      rewrite Z.pow_0_r, Z.mul_1_r in Ht.
      assert (Hp : (2 ^ (53 - e) = 2 ^ 53 * 2 ^ (- e))%Z).
      { rewrite <- Z.pow_add_r by lia. f_equal; lia. }
      assert (0 < 2 ^ (- e))%Z by (apply Z.pow_pos_nonneg; lia).
      nia.
Qed.

Lemma Qceiling_div (t L : Z) :
  (0 < L)%Z -> Qceiling (inject_Z t / inject_Z L) = (- ((- t) / L))%Z.
Proof.
  intros HL. unfold Qceiling, Qfloor.
  destruct L as [|p|p]; try lia.
  cbn. rewrite Z.mul_1_r. reflexivity.
Qed.

(** On safe integers [Math.ceil(a / b)] is the exact ceiling: rounding
    the quotient to a double does not carry it across an integer. *)
Lemma ceilDiv_safe (a b : Z) :
  (0 <= a <= MAX_SAFE_INTEGER)%Z -> (0 < b <= MAX_SAFE_INTEGER)%Z ->
  ceilDiv (Int a) (Int b) = Int (- ((- a) / b)).
Proof.
  intros Ha Hb. unfold ceilDiv.
  replace (b =? 0)%Z with false by (symmetry; apply Z.eqb_neq; lia).
  destruct (a =? 0)%Z eqn:Ha0.
  { apply Z.eqb_eq in Ha0. subst a. reflexivity. }
  apply Z.eqb_neq in Ha0.
  replace (a <? 0)%Z with false by (symmetry; apply Z.ltb_ge; lia).
  replace (b <? 0)%Z with false by (symmetry; apply Z.ltb_ge; lia).
  cbn [xorb]. rewrite !Z.abs_eq by lia.
  destruct (log2Q_safe a b ltac:(lia) Hb) as [He Hd].
  unfold nearestDouble.
  set (e := log2Q a b) in *. set (s := (52 - e)%Z).
  rewrite Z.min_l by lia. fold s.
  rewrite (Z.max_r 0 s), (Z.max_l 0 (- s)) by lia.
  rewrite Z.pow_0_r, !Z.mul_1_r.
  assert (Hs : (0 < 2 ^ s)%Z) by (apply Z.pow_pos_nonneg; lia).
  rewrite Qceiling_div by exact Hs. f_equal.
  set (k := (- ((- a) / b))%Z).
  assert (Hk : (b * (k - 1) < a <= b * k)%Z).
  { subst k. pose proof (Z.div_mod (- a) b ltac:(lia)).
    pose proof (Z.mod_pos_bound (- a) b ltac:(lia)). nia. }
  set (m := roundHalfEven (a * 2 ^ s) b).
  assert (Hm1 : (m <= k * 2 ^ s)%Z).
  { apply roundHalfEven_le; [lia|]. nia. }
  assert (Hm2 : ((k - 1) * 2 ^ s < m)%Z).
  { apply roundHalfEven_gt; [lia|].
    assert (Hp : (2 ^ (53 - e) = 2 * 2 ^ s)%Z).
    { subst s. replace (53 - e)%Z with (1 + (52 - e))%Z by lia.
      rewrite Z.pow_add_r by lia. reflexivity. }
    assert (a - (k - 1) * b >= 1)%Z by nia.
    nia. }
  pose proof (Z.div_mod (- m) (2 ^ s) ltac:(lia)).
  pose proof (Z.mod_pos_bound (- m) (2 ^ s) Hs).
  nia.
Qed.

(** [ceilDiv] on safe integers is the ceiling of t / L: the least k with
    t <= L * k. *)
Lemma ceilDiv_bounds (t L : Z) :
  (0 < L)%Z -> (L * (- ((- t) / L) - 1) < t <= L * - ((- t) / L))%Z.
Proof.
  intros HL.
  pose proof (Z.div_mod (- t) L ltac:(lia)) as Hdm.
  pose proof (Z.mod_pos_bound (- t) L HL) as Hm.
  nia.
Qed.

Section Public.
Context (E : env).

(** A skip and a limit that are safe integers go to the store as they
    are. *)
Lemma cursorWindow_safe (s l : Z) :
  (0 <= s <= MAX_SAFE_INTEGER)%Z -> (0 < l <= MAX_SAFE_INTEGER)%Z ->
  cursorWindow E (Some (Int s)) (Some (Int l)) = inr (Z.to_nat s, Some (Z.to_nat l)).
Proof.
  intros Hs Hl. unfold cursorWindow, validSkip, validLimit.
  replace (0 <=? s)%Z with true by (symmetry; apply Z.leb_le; lia).
  replace (s <=? MAX_SAFE_INTEGER)%Z with true by (symmetry; apply Z.leb_le; lia).
  replace (Z.abs l <=? MAX_SAFE_INTEGER)%Z with true by (symmetry; apply Z.leb_le; lia).
  replace (l =? 0)%Z with false by (symmetry; apply Z.eqb_neq; lia).
  cbn [andb]. rewrite Zabs2Nat.abs_nat_nonneg by lia. reflexivity.
Qed.

(** GET /approved-classes-pagination for a page index that is a
    non-negative integer and a positive page size, all numbers safe. *)
Lemma getApprovedClassesPagination_ok (req : request) (w : world) (p size : Z) :
  let approved := List.filter (matches E (FEq "status" (Some (VStr "approved"))))
                    (collection (db w) classCollection) in
  pageNo req = Int p ->
  limit req = Int size ->
  (0 <= p)%Z ->
  (0 < size <= MAX_SAFE_INTEGER)%Z ->
  (p * size <= MAX_SAFE_INTEGER)%Z ->
  (Z.of_nat (length approved) <= MAX_SAFE_INTEGER)%Z ->
  storeFails E (storeCalls w) = None ->
  storeFails E (S (storeCalls w)) = None ->
  getApprovedClassesPagination E req w
  = (Ok (send (PPage (length approved) (Int p)
                 (Int (- ((- Z.of_nat (length approved)) / size)))
                 (firstn (Z.to_nat size)
                    (skipn (Z.to_nat (p * size)) approved)))),
     {| db := db w;
        trace := (trace w ++ [EvStore classCollection CountDocuments;
                              EvStore classCollection Find])%list;
        storeCalls := S (S (storeCalls w));
        dateCalls := dateCalls w |}).
Proof.
  intros approved Hp Hsize Hpos HL Hskip Htotal H0 H1.
  unfold getApprovedClassesPagination.
  run_store.
  erewrite find_ok; [| cbn; assumption |].
  2:{ unfold skip. rewrite Hp, Hsize. cbn [jsMul].
      rewrite roundDouble_safe by (rewrite Z.abs_eq; nia).
      apply cursorWindow_safe; [nia | exact HL]. }
  run_store. fold approved.
  rewrite roundDouble_safe by (rewrite Z.abs_eq; lia).
  rewrite Hsize, ceilDiv_safe by lia.
  rewrite <- List.app_assoc, Hp. reflexivity.
Qed.

(** A page is part of the list it is cut from. *)
Lemma In_page (l : list doc) (n m : nat) (d : doc) :
  In d (firstn n (skipn m l)) -> In d l.
Proof.
  intros H.
  rewrite <- (List.firstn_skipn m l). apply in_or_app. right.
  rewrite <- (List.firstn_skipn n (skipn m l)). apply in_or_app. left. exact H.
Qed.

Lemma filter_FAll (l : list doc) : List.filter (matches E FAll) l = l.
Proof. induction l as [|x l IH]; cbn; [reflexivity|]. rewrite IH. reflexivity. Qed.

(** GET /admin-add-class answers with every class record. *)
Lemma getAdminAddClass_all (req : request) (w : world) :
  storeFails E (storeCalls w) = None ->
  getAdminAddClass E req w
  = (Ok (send (PDocs (collection (db w) classCollection))), sent classCollection Find w).
Proof.
  intros H0. unfold getAdminAddClass. run_store.
  erewrite find_ok; [| assumption | reflexivity].
  rewrite filter_FAll. reflexivity.
Qed.

End Public.

(** C5, as the code has it.  GET /approved-classes-pagination takes the page
    size from the limit parameter, 6 when the parameter is absent or parses
    to NaN or to 0; the page index is the page parameter as parsed.  For a
    page index [p] that is a non-negative integer and a positive page size,
    where the size, p * size and the number of approved classes are safe
    integers (at most 2^53 - 1, so that the doubles of the program hold
    them exactly): the answer carries the number of approved classes as
    total, [p] as page number, the ceiling of total / size as totalPages,
    and as data the approved classes from position p * size on, at most
    size of them, all with status 'approved'.  With size 6 and 13 approved
    classes, totalPages is 3, page 2 (the third) holds one record, and any
    page from 3 on is empty, total still 13. *)
Theorem c5_pagination (E : env) (req : request) (w : world) (p size : Z) :
  let approved := List.filter (matches E (FEq "status" (Some (VStr "approved"))))
                    (collection (db w) classCollection) in
  pageNo req = Int p ->
  limit req = Int size ->
  (0 <= p)%Z ->
  (0 < size <= MAX_SAFE_INTEGER)%Z ->
  (p * size <= MAX_SAFE_INTEGER)%Z ->
  (Z.of_nat (length approved) <= MAX_SAFE_INTEGER)%Z ->
  storeFails E (storeCalls w) = None ->
  storeFails E (S (storeCalls w)) = None ->
  exists (totalPages : Z) (data : list doc) (w' : world),
    getApprovedClassesPagination E req w
    = (Ok (send (PPage (length approved) (Int p) (Int totalPages) data)), w')
    /\ db w' = db w
    /\ (query req !! "limit" = None -> size = 6%Z)
    /\ (parseInt (query req !! "limit") = NaN
        \/ parseInt (query req !! "limit") = Int 0 -> size = 6%Z)
    /\ (size * (totalPages - 1) < Z.of_nat (length approved) <= size * totalPages)%Z
    /\ data = firstn (Z.to_nat size) (skipn (Z.to_nat (p * size)) approved)
    /\ length data <= Z.to_nat size
    /\ (forall d : doc, In d data ->
          In d (collection (db w) classCollection)
          /\ d !! "status" = Some (VStr "approved"))
    /\ (size = 6%Z -> length approved = 13 ->
        totalPages = 3%Z
        /\ (p = 2%Z -> length data = 1)
        /\ ((3 <= p)%Z -> data = [])).
Proof.
  intros approved Hp Hsize Hpos HL Hskip Htotal H0 H1.
  eexists _, _, _. split.
  { apply (getApprovedClassesPagination_ok E req w p size); assumption. }
  fold approved. cbn [db].
  split; [reflexivity|].
  assert (Hdefault : parseInt (query req !! "limit") = NaN
                     \/ parseInt (query req !! "limit") = Int 0 -> size = 6%Z).
  { unfold limit in Hsize. intros [Hq|Hq]; rewrite Hq in Hsize;
      cbn in Hsize; congruence. }
  split. { intros Hq. apply Hdefault. left. rewrite Hq. reflexivity. }
  split; [exact Hdefault|].
  split. { apply ceilDiv_bounds. lia. }
  split; [reflexivity|].
  split. { apply List.firstn_le_length. }
  split.
  { intros d Hd. apply In_page in Hd. apply List.filter_In in Hd as [Hin Hm].
    split; [exact Hin|]. apply matchEq_str. exact Hm. }
  intros Hsix Hthirteen.
  pose proof (ceilDiv_bounds (Z.of_nat (length approved)) size ltac:(lia)) as Hb.
  rewrite Hsix, Hthirteen in *. split; [lia|]. split.
  - intros ->. rewrite List.length_firstn, List.length_skipn, Hthirteen. reflexivity.
  - intros Hp3. rewrite List.skipn_all2; [apply List.firstn_nil|]. lia.
Qed.

Lemma c5_pagination_witness :
  exists (totalPages : Z) (data : list doc) (w' : world),
    getApprovedClassesPagination demoEnv (page "2" "6") thirteenApproved
    = (Ok (send (PPage 13 (Int 2) (Int totalPages) data)), w')
    /\ totalPages = 3%Z
    /\ length data = 1.
Proof.
  destruct (c5_pagination demoEnv (page "2" "6") thirteenApproved 2 6)
    as (tp & data & w' & Hrun & _ & _ & _ & _ & _ & _ & _ & Hnum);
    [vm_compute; reflexivity | vm_compute; reflexivity | lia
    | unfold MAX_SAFE_INTEGER; lia | unfold MAX_SAFE_INTEGER; lia
    | vm_compute; discriminate | reflexivity | reflexivity |].
  destruct Hnum as (Htp & Hlen & _); [reflexivity | vm_compute; reflexivity |].
  exists tp, data, w'. split; [exact Hrun|]. split; [exact Htp|].
  apply Hlen. reflexivity.
Defined.

(** C5 as stated fails for the page index: a request without the page
    parameter has no integer page index at all (it is NaN, and so is the
    skip), while its page size is the default 6. *)
Lemma c5_page_index_has_no_default :
  query emptyRequest !! "page" = None
  /\ ~ (exists d : Z, pageNo emptyRequest = Int d)
  /\ skip emptyRequest = NaN
  /\ limit emptyRequest = Int 6.
Proof.
  split; [reflexivity|]. split; [|split; reflexivity].
  intros [d Hd]. vm_compute in Hd. discriminate.
Qed.

(** What such a request gets depends on the store: one that rejects a NaN
    skip makes the answer a 500, one that reads it as 0 makes it the first
    page with NaN as page number. *)
Example missing_page_parameter :
  fst (getApprovedClassesPagination demoEnv emptyRequest thirteenApproved)
  = Ok (Response 500 (PFailure "Server Error" (Exn "MongoServerError" "invalid skip")))
  /\ match fst (getApprovedClassesPagination demoEnvSkip0 emptyRequest thirteenApproved) with
     | Ok (Response 200 (PPage total pageNo totalPages data)) =>
         total = 13 /\ pageNo = NaN /\ totalPages = Int 3 /\ length data = 6
     | _ => False
     end.
Proof. vm_compute. repeat split. Qed.

(** Above 2^53 the page index is the double nearest to the digits sent,
    and a page size beyond the doubles is an infinity. *)
Example unsafe_page_numbers :
  pageNo (page "9007199254740993" "6") = Int 9007199254740992
  /\ skip (page "9007199254740993" "6") = Int 54043195528445952
  /\ limit (page "0" ("1" +:+ String.concat "" (repeat "0" 400))) = Infinity false
  /\ skip (page "0" ("1" +:+ String.concat "" (repeat "0" 400))) = NaN
  /\ ceilDiv (Int 13) (Infinity false) = Int 0.
Proof. vm_compute. repeat split. Qed.

(** The rounding written out in [roundDouble], [jsMul] and [ceilDiv] is the
    rounding of the machine's doubles, here on some integers around 2^53
    and 2^62. *)
Example doubles_as_the_machine_rounds :
  List.map (fun z => integerOf (roundDouble z))
    [9007199254740991; 9007199254740993; 9007199254740995; 18014398509481990;
     1234567890123456789; 4611686018427387903]%Z
  = List.map (fun z => floatInteger (floatOf z))
      [9007199254740991; 9007199254740993; 9007199254740995; 18014398509481990;
       1234567890123456789; 4611686018427387903]%Z
  /\ List.map (fun ab => integerOf (jsMul (Int (fst ab)) (Int (snd ab))))
       [(3, 6); (94906267, 94906267); (4294967297, 4294967295)]%Z
     = List.map (fun ab => floatInteger (floatOf (fst ab) * floatOf (snd ab))%float)
         [(3, 6); (94906267, 94906267); (4294967297, 4294967295)]%Z
  /\ List.map (fun ab => integerOf (ceilDiv (roundDouble (fst ab)) (roundDouble (snd ab))))
       [(13, 6); (12, 6); (9007199254740991, 3); (9007199254740993, 9007199254740992);
        (5, 2305843009213693959); (18014398509481986, 18014398509481984)]%Z
     = List.map (fun ab => floatCeiling (floatOf (fst ab) / floatOf (snd ab))%float)
         [(13, 6); (12, 6); (9007199254740991, 3); (9007199254740993, 9007199254740992);
          (5, 2305843009213693959); (18014398509481986, 18014398509481984)]%Z.
Proof. vm_compute. repeat split. Qed.

(** C6, on GET /top-enrolled-classes (index.js, lines 271-284), a route
    without gates: after an admin rejects a class that has students, the
    public listing still answers with that class, whose status is
    'rejected'. *)
Theorem c6_top_enrolled_lists_rejected_class :
  let w1 := snd (run_route demoEnv [VerifyFirebaseToken; VerifyAdmin]
                   (patchClassRequestStatus demoEnv) rejectClass demoClasses) in
  let rejected : doc := <["status" := VStr "rejected"]> enrolledClass in
  In (Route GET "/top-enrolled-classes" []) routes_index
  /\ collection (db w1) classCollection = [rejected]
  /\ fst (run_route demoEnv [] (getTopEnrolledClasses demoEnv) emptyRequest w1)
     = Ok (Send (Response 200 (PDocs [rejected])))
  /\ rejected !! "status" = Some (VStr "rejected").
Proof.
  cbv zeta. split.
  { unfold routes_index. repeat (first [left; reflexivity | right]). }
  vm_compute. repeat split.
Qed.

(** * Payment intents *)

Section Payment.
Context (E : env).

(** POST /create-payment-intent when no class has the id: 404, and the
    only call to the outside is the lookup. *)
Lemma postCreatePaymentIntent_not_found (req : request) (w : world) (oid : string) :
  newObjectId E (body req !! "courseId") = inr oid ->
  storeFails E (storeCalls w) = None ->
  List.find (matches E (FEq "_id" (Some (VOid oid))))
    (collection (db w) classCollection) = None ->
  postCreatePaymentIntent E req w
  = (Ok (Response 404 (message_ "Not found any classData by this class ID")),
     sent classCollection FindOne w).
Proof.
  intros Hid H0 Hf. unfold postCreatePaymentIntent. rewrite Hid.
  run_store. rewrite Hf. reflexivity.
Qed.

(** When a class has the id, the provider is asked for an intent of
    price * 100 in 'usd'; the answer is the client secret alone, or 500
    with the provider's message. *)
Lemma postCreatePaymentIntent_found (req : request) (w : world) (oid : string)
    (classData : doc) :
  newObjectId E (body req !! "courseId") = inr oid ->
  storeFails E (storeCalls w) = None ->
  List.find (matches E (FEq "_id" (Some (VOid oid))))
    (collection (db w) classCollection) = Some classData ->
  let amount := (toNumber E (classData !! "price") * 100)%float in
  postCreatePaymentIntent E req w
  = (match paymentIntentsCreate E amount "usd" with
     | inr paymentIntent =>
         Ok (send (PObject [("clientSecret", paymentIntent !! "client_secret")]))
     | inl error =>
         Ok (Response 500 (PObject [("error", Some (VStr (message error)))]))
     end,
     logEvent (EvPay amount "usd") (sent classCollection FindOne w)).
Proof.
  intros Hid H0 Hf amount. unfold postCreatePaymentIntent. rewrite Hid.
  run_store. rewrite Hf.
  unfold stripePaymentIntentsCreate, liftSum. fold amount.
  destruct (paymentIntentsCreate E amount "usd"); reflexivity.
Qed.

End Payment.

(** C7, on the amount: for a class whose price is 19.99 the handler asks
    the provider for an intent of 1998.9999999999998, which is not an
    integer number of cents; a provider that takes integer amounts only
    refuses it and the answer is 500. *)
Theorem c7_amount_not_integer :
  let run := run_route demoEnv [VerifyFirebaseToken]
               (postCreatePaymentIntent demoEnv) buy demoShop in
  trace (snd run)
  = [EvVerify "student-token"; EvStore classCollection FindOne;
     EvPay 1998.9999999999998%float "usd"]
  /\ isInteger 1998.9999999999998%float = false
  /\ fst run = Ok (Send (Response 500 (PObject [("error", Some (VStr "Invalid integer"))]))).
Proof. vm_compute. repeat split. Qed.

(** At a whole-number price the same request goes through. *)
Example payment_whole_price :
  let shop := worldOf {[ classCollection := [<["price" := VNum 20%float]> pricedClass] ]} in
  let run := run_route demoEnv [VerifyFirebaseToken]
               (postCreatePaymentIntent demoEnv) buy shop in
  trace (snd run)
  = [EvVerify "student-token"; EvStore classCollection FindOne; EvPay 2000%float "usd"]
  /\ fst run = Ok (Send (send (PObject [("clientSecret", Some (VStr "pi_1_secret"))]))).
Proof. vm_compute. repeat split. Qed.

(** * More on the gates and the chain *)

Section MoreGates.
Context (E : env).

Lemma split_nonempty (sep : ascii) (s : string) : split sep s <> [].
Proof.
  destruct s as [|c s]; cbn; [discriminate|].
  destruct (Ascii.eqb c sep); [discriminate|].
  destruct (split sep s); discriminate.
Qed.

Lemma split_token_then_space (t junk : string) :
  split " " t = [t] ->
  split " " (t ++ String " " junk) = t :: split " " junk.
Proof.
  induction t as [|c t IH]; [reflexivity|].
  change (String c t ++ String " " junk) with (String c (t ++ String " " junk)).
  cbn [split].
  destruct (Ascii.eqb c " "); [discriminate|].
  destruct (split " " t) as [|h l] eqn:Hs; [destruct (split_nonempty _ _ Hs)|].
  intros [= -> ->]. rewrite IH by reflexivity. reflexivity.
Qed.

Lemma bearerToken_ignores_rest (t junk : string) :
  t <> "" -> split " " t = [t] ->
  bearerToken (Some ("Bearer " ++ t ++ String " " junk)) = Some t.
Proof.
  intros Hne Hsp. unfold bearerToken.
  replace (startsWith ("Bearer " ++ t ++ String " " junk) "Bearer ") with true
    by (symmetry; apply startsWith_Bearer; eauto).
  rewrite split_Bearer, split_token_then_space by assumption. cbn.
  destruct (String.eqb t "") eqn:Ht; [|reflexivity].
  apply String.eqb_eq in Ht. contradiction.
Qed.

Lemma bearerToken_space_after_prefix (junk : string) :
  bearerToken (Some ("Bearer " ++ String " " junk)) = None.
Proof.
  unfold bearerToken.
  replace (startsWith ("Bearer " ++ String " " junk) "Bearer ") with true
    by (symmetry; apply startsWith_Bearer; eauto).
  rewrite split_Bearer. reflexivity.
Qed.

Lemma gate_db (g : gate) (req : request) (w : world) :
  db (snd (gateMw E g req w)) = db w
  /\ dateCalls (snd (gateMw E g req w)) = dateCalls w.
Proof.
  assert (Hrole : forall role,
             db (snd (verifyRole E role req w)) = db w
             /\ dateCalls (snd (verifyRole E role req w)) = dateCalls w).
  { intros role. unfold verifyRole, bind, findOne, storeRead, throw, ret.
    destruct (decoded req); [|split; reflexivity].
    destruct (storeFails E (storeCalls w)); [split; reflexivity|].
    destruct (List.find _ _) as [u|]; [|split; reflexivity].
    destruct (negb _); split; reflexivity. }
  destruct g; cbn [gateMw]; [|apply Hrole..].
  destruct (bearerToken (authorization req)) as [token|] eqn:Hb.
  - rewrite (verifyFirebaseToken_token E _ _ _ Hb).
    destruct (verifyIdToken E token); split; reflexivity.
  - rewrite (verifyFirebaseToken_no_token E _ _ Hb). split; reflexivity.
Qed.

Lemma gate_answer (g : gate) (req : request) (w w' : world) (r : response) :
  gateMw E g req w = (Ok (Send r), w') ->
  r = unauthorized \/ r = forbidden.
Proof.
  destruct g; cbn [gateMw].
  - destruct (bearerToken (authorization req)) as [token|] eqn:Hb.
    + rewrite (verifyFirebaseToken_token E _ _ _ Hb).
      destruct (verifyIdToken E token); intros [= <- _]. left. reflexivity.
    + rewrite (verifyFirebaseToken_no_token E _ _ Hb).
      intros [= <- _]. left. reflexivity.
  - unfold verifyAdmin, verifyRole, bind, findOne, storeRead, throw, ret.
    destruct (decoded req); [|discriminate].
    destruct (storeFails E (storeCalls w)); [discriminate|].
    destruct (List.find _ _) as [u|]; [|intros [= <- _]; right; reflexivity].
    destruct (negb _); [intros [= <- _]; right; reflexivity | discriminate].
  - unfold verifyTeacher, verifyRole, bind, findOne, storeRead, throw, ret.
    destruct (decoded req); [|discriminate].
    destruct (storeFails E (storeCalls w)); [discriminate|].
    destruct (List.find _ _) as [u|]; [|intros [= <- _]; right; reflexivity].
    destruct (negb _); [intros [= <- _]; right; reflexivity | discriminate].
Qed.

End MoreGates.

(** The oracle rejecting the token is a 401 like a missing header, but the
    call to the oracle was made; no store command is sent and nothing
    registered after the gate runs. *)
Theorem auth_oracle_rejects (E : env) (rest : list middleware) (req : request)
    (w : world) (token : string) (e : exn) :
  bearerToken (authorization req) = Some token ->
  verifyIdToken E token = inl e ->
  run_chain (verifyFirebaseToken E :: rest) req w
  = (Ok (Send (Response 401 (message_ "Unauthorized access"))),
     logEvent (EvVerify token) w).
Proof.
  intros Hb Hv.
  rewrite run_chain_cons, (verifyFirebaseToken_token E _ _ _ Hb), Hv. reflexivity.
Qed.

Lemma auth_oracle_rejects_witness :
  run_chain (verifyFirebaseToken demoEnv :: [verifyAdmin demoEnv])
    (withAuth "Bearer expired-token" emptyRequest) demoUsers
  = (Ok (Send (Response 401 (message_ "Unauthorized access"))),
     logEvent (EvVerify "expired-token") demoUsers).
Proof.
  apply (auth_oracle_rejects demoEnv _ _ _ "expired-token"
           (Exn "FirebaseAuthError" "Decoding Firebase ID token failed"));
    vm_compute; reflexivity.
Defined.

(** The token handed to the oracle is the text between the first and the
    second space of the header: whatever follows a second space is not
    looked at. *)
Theorem auth_token_ends_at_second_space (E : env) (req : request) (w : world)
    (t junk : string) :
  t <> "" ->
  split " " t = [t] ->
  authorization req = Some ("Bearer " ++ t ++ String " " junk) ->
  verifyFirebaseToken E req w
  = match verifyIdToken E t with
    | inr claims => (Ok (Next (setDecoded req claims)), logEvent (EvVerify t) w)
    | inl _ => (Ok (Send (Response 401 (message_ "Unauthorized access"))),
                logEvent (EvVerify t) w)
    end.
Proof.
  intros Hne Hsp Hh.
  apply verifyFirebaseToken_token. rewrite Hh.
  apply bearerToken_ignores_rest; assumption.
Qed.

Lemma auth_token_ends_at_second_space_witness :
  verifyFirebaseToken demoEnv
    (withAuth "Bearer admin-token and more" emptyRequest) demoUsers
  = (Ok (Next (setDecoded (withAuth "Bearer admin-token and more" emptyRequest)
                 (claimsOf "admin@x.com"))),
     logEvent (EvVerify "admin-token") demoUsers).
Proof.
  apply (auth_token_ends_at_second_space demoEnv
           (withAuth "Bearer admin-token and more" emptyRequest) demoUsers
           "admin-token" "and more");
    [discriminate | reflexivity | reflexivity].
Defined.

(** A header with a second space right after "Bearer " is answered 401
    without asking the oracle, whatever token follows. *)
Theorem auth_space_after_prefix_rejected (E : env) (rest : list middleware)
    (req : request) (w : world) (junk : string) :
  authorization req = Some ("Bearer " ++ String " " junk) ->
  run_chain (verifyFirebaseToken E :: rest) req w
  = (Ok (Send (Response 401 (message_ "Unauthorized access"))), w).
Proof.
  intros Hh. rewrite run_chain_cons, verifyFirebaseToken_no_token; [reflexivity|].
  rewrite Hh. apply bearerToken_space_after_prefix.
Qed.

Lemma auth_space_after_prefix_rejected_witness :
  run_chain (verifyFirebaseToken demoEnv :: [verifyAdmin demoEnv])
    (withAuth "Bearer  admin-token" emptyRequest) demoUsers
  = (Ok (Send (Response 401 (message_ "Unauthorized access"))), demoUsers).
Proof.
  apply (auth_space_after_prefix_rejected demoEnv _ _ _ "admin-token").
  reflexivity.
Defined.

(** Running two lists of middleware one after the other: the second list
    runs exactly when the first one got through, on the request and the
    world the first one left; an answer or an error of the first list is
    the answer or error of the whole. *)
Theorem run_chain_app (ms1 ms2 : list middleware) (req : request) (w : world) :
  run_chain (ms1 ++ ms2) req w
  = match run_chain ms1 req w with
    | (Ok (Next req'), w') => run_chain ms2 req' w'
    | (Ok (Send r), w') => (Ok (Send r), w')
    | (Throw e, w') => (Throw e, w')
    end.
Proof.
  revert req w. induction ms1 as [|m ms1 IH]; intros req w; [reflexivity|].
  cbn [app]. rewrite !run_chain_cons.
  destruct (m req w) as [[[req1|r]|e] w1]; [apply IH|reflexivity..].
Qed.

(** Whatever gates a route registers and however they end, they leave the
    database as it was and read no clock. *)
Theorem gates_never_write (E : env) (gs : list gate) (req : request) (w : world) :
  db (snd (run_chain (map (gateMw E) gs) req w)) = db w
  /\ dateCalls (snd (run_chain (map (gateMw E) gs) req w)) = dateCalls w.
Proof.
  revert req w. induction gs as [|g gs IH]; intros req w; [split; reflexivity|].
  cbn [map]. rewrite run_chain_cons.
  pose proof (gate_db E g req w) as [Hdb Hdate].
  destruct (gateMw E g req w) as [[[req1|r]|e] w1]; cbn [snd] in *;
    [|split; assumption..].
  destruct (IH req1 w1) as [IHdb IHdate]. split; congruence.
Qed.

(** When the gates of a route answer, the answer is 401 "Unauthorized
    access" or 403 "Forbidden Access", never anything else. *)
Theorem gates_answer_401_or_403 (E : env) (gs : list gate) (req : request)
    (w w' : world) (r : response) :
  run_chain (map (gateMw E) gs) req w = (Ok (Send r), w') ->
  r = Response 401 (message_ "Unauthorized access")
  \/ r = Response 403 (message_ "Forbidden Access").
Proof.
  revert req w. induction gs as [|g gs IH]; intros req w; [discriminate|].
  cbn [map]. rewrite run_chain_cons.
  destruct (gateMw E g req w) as [[[req1|r1]|e] w1] eqn:Hg.
  - apply IH.
  - intros [= <- _]. eapply gate_answer. exact Hg.
  - discriminate.
Qed.

Lemma gates_answer_401_or_403_witness :
  Response 403 (message_ "Forbidden Access")
  = Response 401 (message_ "Unauthorized access")
  \/ Response 403 (message_ "Forbidden Access")
     = Response 403 (message_ "Forbidden Access").
Proof.
  apply (gates_answer_401_or_403 demoEnv [VerifyFirebaseToken; VerifyAdmin]
           (withAuth "Bearer student-token" emptyRequest) demoUsers
           (sent usersCollection FindOne (logEvent (EvVerify "student-token") demoUsers))).
  vm_compute. reflexivity.
Defined.

(** The role gates have no try block: when the user lookup throws, the
    gate function itself ends in that error, its promise rejected, where
    [verifyFirebaseToken] would have caught it.  The gate sends no 403 and
    does not call next(); the lookup is the one command it sent, and the
    database is as it was. *)
Theorem role_gate_store_failure_unhandled (E : env) (g : gate)
    (req : request) (w : world) (claims : doc) (e : exn) :
  isRoleGate g = true ->
  decoded req = Some claims ->
  storeFails E (storeCalls w) = Some e ->
  gateMw E g req w = (Throw e, sent usersCollection FindOne w)
  /\ db (snd (gateMw E g req w)) = db w.
Proof.
  intros Hg Hd Hs.
  assert (Hrole : forall role,
             verifyRole E role req w = (Throw e, sent usersCollection FindOne w)).
  { intros role. unfold verifyRole, bind, findOne, storeRead.
    rewrite Hd, Hs. reflexivity. }
  destruct g; [discriminate | |]; cbn [gateMw];
    unfold verifyAdmin, verifyTeacher; rewrite Hrole; split; reflexivity.
Qed.

Lemma role_gate_store_failure_unhandled_witness :
  gateMw demoEnvFail0 VerifyAdmin (setDecoded searchAll (claimsOf "admin@x.com")) demoUsers
  = (Throw (Exn "MongoNetworkError" "connection closed"),
     sent usersCollection FindOne demoUsers)
  /\ gateMw demoEnvFail0 VerifyTeacher (setDecoded searchAll (claimsOf "admin@x.com"))
       demoUsers
     = (Throw (Exn "MongoNetworkError" "connection closed"),
        sent usersCollection FindOne demoUsers).
Proof.
  split.
  - apply (role_gate_store_failure_unhandled demoEnvFail0 VerifyAdmin _ demoUsers
             (claimsOf "admin@x.com")); reflexivity.
  - apply (role_gate_store_failure_unhandled demoEnvFail0 VerifyTeacher _ demoUsers
             (claimsOf "admin@x.com")); reflexivity.
Defined.

(** * More on the user records *)

Section MoreStore.
Context (E : env).

Lemma findOne_fail (coll : string) (f : filter) (w : world) (e : exn) :
  storeFails E (storeCalls w) = Some e ->
  findOne E coll f w = (Throw e, sent coll FindOne w).
Proof. intros H. unfold findOne, storeRead. rewrite H. reflexivity. Qed.

Lemma insertOne_fail (coll : string) (d : doc) (w : world) (e : exn) :
  storeFails E (storeCalls w) = Some e ->
  insertOne E coll d w = (Throw e, sent coll InsertOne w).
Proof. intros H. unfold insertOne, storeWrite. rewrite H. reflexivity. Qed.

Lemma updateOneResult_ok (coll : string) (f : filter)
    (fs : list (string * option value)) (w : world) :
  storeFails E (storeCalls w) = None ->
  updateOneResult E coll f fs w
  = (Ok (match List.find (matches E f) (collection (db w) coll) with
         | Some d => updateResult true (changes fs d)
         | None => updateResult false false
         end),
     setColl coll (updateFirst (matches E f) (setFields fs) (collection (db w) coll))
       (sent coll UpdateOne w)).
Proof. intros H. unfold updateOneResult, storeWrite. rewrite H. reflexivity. Qed.

Lemma collection_insert (m : gmap string (list doc)) (coll : string) (c : list doc) :
  collection (<[coll := c]> m) coll = c.
Proof. unfold collection. rewrite lookup_insert_eq. reflexivity. Qed.

Lemma collection_insert_ne (m : gmap string (list doc)) (coll coll' : string)
    (c : list doc) :
  coll <> coll' -> collection (<[coll := c]> m) coll' = collection m coll'.
Proof. intros H. unfold collection. rewrite lookup_insert_ne by exact H. reflexivity. Qed.

Lemma find_app_none (p : doc -> bool) (l l' : list doc) :
  List.find p l = None -> List.find p (l ++ l') = List.find p l'.
Proof.
  induction l as [|x l IH]; cbn; [reflexivity|].
  destruct (p x); [discriminate|exact IH].
Qed.

Lemma find_app_here (p : doc -> bool) (l l' : list doc) (d : doc) :
  List.Forall (fun x => p x = false) l -> p d = true ->
  List.find p (l ++ d :: l') = Some d.
Proof.
  intros Hall Hd. induction Hall as [|x l Hx _ IH]; cbn.
  - rewrite Hd. reflexivity.
  - rewrite Hx. exact IH.
Qed.

(** When [d] is the first record for [p] and the first record for [q],
    the records before it match neither. *)
Lemma first_for_both (p q : doc -> bool) (c1 c2 : list doc) (d : doc) :
  List.find p (c1 ++ d :: c2) = Some d ->
  List.Forall (fun x => q x = false) c1 -> q d = true ->
  List.Forall (fun x => p x = false) c1.
Proof.
  intros Hf Hall Hd. induction Hall as [|x l Hx _ IH]; [constructor|].
  cbn in Hf. destruct (p x) eqn:Hpx.
  - injection Hf as ->. congruence.
  - constructor; [exact Hpx | exact (IH Hf)].
Qed.

End MoreStore.

Ltac run_more :=
  repeat first
    [ progress run_store
    | rewrite updateOneResult_ok by (cbn; assumption)
    | erewrite findOne_fail by (cbn; eassumption)
    | erewrite insertOne_fail by (cbn; eassumption) ].

Lemma postUser_index_upsert_witness :
  (exists (w' : world) (id : value) (new : doc),
     postUser demoEnv signIn (worldOf ∅) = (Ok (send (PInsertResult id)), w')
     /\ collection (db w') usersCollection = ([] ++ [new])%list
     /\ new !! "role" = Some (VStr "student")
     /\ new !! "status" = Some (VStr "not-verified")
     /\ new !! "create_at" = Some (VStr (now demoEnv 0))
     /\ new !! "last_loggedIn" = Some (VStr (now demoEnv 1))
     /\ new !! "email" = Some (VStr "a@x.com"))
  /\ (exists (w' : world) (c1 c2 : list doc),
        postUser demoEnv signIn demoUsers
        = (Ok (Response 200 (PObject [("message", Some (VStr "User already exists"));
                                      ("inserted", Some (VBool false))])), w')
        /\ [adminUser; studentUser] = (c1 ++ studentUser :: c2)%list
        /\ collection (db w') usersCollection
           = (c1 ++ <["last_loggedIn" := VStr (now demoEnv 2)]> studentUser :: c2)%list
        /\ usersWithEmail demoEnv (Some (VStr "a@x.com")) w'
           = usersWithEmail demoEnv (Some (VStr "a@x.com")) demoUsers).
Proof.
  split.
  - destruct (postUser_index_upsert demoEnv signIn (worldOf ∅) eq_refl eq_refl)
      as [Hnew _].
    apply Hnew. vm_compute. reflexivity.
  - destruct (postUser_index_upsert demoEnv signIn demoUsers eq_refl eq_refl)
      as [_ Hold].
    apply (Hold studentUser). vm_compute. reflexivity.
Defined.

(** Signing in cannot make an admin or a teacher: whatever role and status
    the body of POST /user carries, once the handler has inserted the record
    for a new email, a request identified by that email is answered 403 by
    both role gates. *)
Theorem self_registration_is_student (E : env) (req req2 : request) (w : world)
    (e : string) (claims : doc) :
  body req !! "email" = Some (VStr e) ->
  List.find (matches E (FEq "email" (Some (VStr e))))
    (collection (db w) usersCollection) = None ->
  storeFails E (storeCalls w) = None ->
  storeFails E (S (storeCalls w)) = None ->
  storeFails E (S (S (storeCalls w))) = None ->
  decoded req2 = Some claims ->
  claims !! "email" = Some (VStr e) ->
  let w' := snd (postUser E req w) in
  verifyAdmin E req2 w'
  = (Ok (Send (Response 403 (message_ "Forbidden Access"))),
     sent usersCollection FindOne w')
  /\ verifyTeacher E req2 w'
     = (Ok (Send (Response 403 (message_ "Forbidden Access"))),
        sent usersCollection FindOne w').
Proof.
  intros He Hfind H0 H1 H2 Hd Hc w'.
  assert (Hrole : forall role, String.eqb "student" role = false ->
             verifyRole E role req2 w' = (Ok (Send forbidden), sent usersCollection FindOne w')).
  { intros role Hne. subst w'.
    rewrite postUser_new by (rewrite ?He; assumption). cbn [snd].
    rewrite (verifyRole_spec E role req2 _ claims Hd) by (cbn; assumption).
    rewrite Hc. cbn [db]. unfold collection at 1. rewrite lookup_insert_eq.
    cbn [default]. unfold id. rewrite find_app_none by assumption.
    cbn [List.find matches]. 
    replace (matchEq _ "email" (Some (VStr e))) with true.
    2:{ symmetry. apply matchEq_str. rewrite !lookup_insert_ne by done. exact He. }
    unfold strictEqStr. rewrite lookup_insert_ne, lookup_insert_ne, lookup_insert_ne by done.
    rewrite lookup_insert_ne, lookup_insert_eq by done. rewrite Hne. reflexivity. }
  split; apply Hrole; reflexivity.
Qed.

Lemma self_registration_is_student_witness :
  let w' := snd (postUser demoEnv signInAsAdmin demoUsers) in
  let req2 := setDecoded emptyRequest (claimsOf "new@x.com") in
  verifyAdmin demoEnv req2 w'
  = (Ok (Send (Response 403 (message_ "Forbidden Access"))),
     sent usersCollection FindOne w')
  /\ verifyTeacher demoEnv req2 w'
     = (Ok (Send (Response 403 (message_ "Forbidden Access"))),
        sent usersCollection FindOne w').
Proof.
  apply (self_registration_is_student demoEnv signInAsAdmin
           (setDecoded emptyRequest (claimsOf "new@x.com")) demoUsers
           "new@x.com" (claimsOf "new@x.com"));
    vm_compute; reflexivity.
Defined.

(** POST /user answers 500 with the store's message whenever one of its
    store commands throws - the lookup, the insert of a new record, or the
    update of an existing one - and the database is then as it was. *)
Theorem postUser_store_failure (E : env) (req : request) (w : world) (e : exn) :
  let email := body req !! "email" in
  let users := collection (db w) usersCollection in
  let failed := Response 500 (PObject [("error", Some (VStr (message e)))]) in
  (storeFails E (storeCalls w) = Some e ->
   fst (postUser E req w) = Ok failed /\ db (snd (postUser E req w)) = db w)
  /\ (storeFails E (storeCalls w) = None ->
      storeFails E (S (storeCalls w)) = Some e ->
      fst (postUser E req w) = Ok failed
      /\ collection (db (snd (postUser E req w))) usersCollection = users).
Proof.
  intros email users failed. split.
  - intros H0. unfold postUser. run_more. split; reflexivity.
  - intros H0 H1. unfold postUser. run_more.
    rewrite !lookup_insert_ne by done.
    destruct (List.find _ _) as [d|]; run_more; split; reflexivity.
Qed.

Lemma postUser_store_failure_witness :
  (fst (postUser demoEnvFail0 signIn demoUsers)
   = Ok (Response 500 (PObject [("error", Some (VStr "connection closed"))]))
   /\ db (snd (postUser demoEnvFail0 signIn demoUsers)) = db demoUsers)
  /\ (fst (postUser demoEnvFail1 signIn demoUsers)
      = Ok (Response 500 (PObject [("error", Some (VStr "connection closed"))]))
      /\ collection (db (snd (postUser demoEnvFail1 signIn demoUsers))) usersCollection
         = collection (db demoUsers) usersCollection).
Proof.
  split.
  - destruct (postUser_store_failure demoEnvFail0 signIn demoUsers
                (Exn "MongoNetworkError" "connection closed")) as [H _].
    apply H. reflexivity.
  - destruct (postUser_store_failure demoEnvFail1 signIn demoUsers
                (Exn "MongoNetworkError" "connection closed")) as [_ H].
    apply H; reflexivity.
Defined.

(** * Changing roles *)

Section Roles.
Context (E : env).

Lemma patchMakeAdmin_ok (req : request) (w : world) (oid : string) :
  newObjectId E (VStr <$> params req !! "id") = inr oid ->
  storeFails E (storeCalls w) = None ->
  let q := FEq "_id" (Some (VOid oid)) in
  let fs := [("role", body req !! "role"); ("status", Some (VStr "verified"))] in
  patchMakeAdmin E req w
  = (Ok (send (match List.find (matches E q) (collection (db w) usersCollection) with
               | Some d => updateResult true (changes fs d)
               | None => updateResult false false
               end)),
     {| db := <[usersCollection :=
                 updateFirst (matches E q) (setFields fs)
                   (collection (db w) usersCollection)]> (db w);
        trace := (trace w ++ [EvStore usersCollection UpdateOne])%list;
        storeCalls := S (storeCalls w);
        dateCalls := dateCalls w |}).
Proof.
  intros Hid H0 q fs. unfold patchMakeAdmin. run_more. rewrite Hid. run_more.
  reflexivity.
Qed.

Lemma matchEq_setFields (fs : list (string * option value)) (d : doc)
    (k : string) (v : option value) :
  List.Forall (fun kv => fst kv <> k) fs ->
  matchEq (setFields fs d) k v = matchEq d k v.
Proof.
  intros Hall. revert d. unfold setFields.
  induction Hall as [|kv fs Hkv _ IH]; intros d; [reflexivity|].
  cbn [foldl]. rewrite IH. apply matchEq_insert_ne. exact Hkv.
Qed.

End Roles.

(** PATCH /make-admin/:id on the id of a user record: the record gets the
    role of the body (null when the body has none; nothing checks the
    value) and status 'verified', in place; its other fields, the other
    records and the other collections stay as they were. *)
Theorem make_admin_sets_role_and_status (E : env) (req : request) (w : world)
    (oid : string) (d : doc) :
  newObjectId E (VStr <$> params req !! "id") = inr oid ->
  storeFails E (storeCalls w) = None ->
  List.find (matches E (FEq "_id" (Some (VOid oid))))
    (collection (db w) usersCollection) = Some d ->
  exists (r : response) (w' : world) (c1 c2 : list doc) (d' : doc),
    patchMakeAdmin E req w = (Ok r, w')
    /\ status r = 200
    /\ collection (db w) usersCollection = (c1 ++ d :: c2)%list
    /\ collection (db w') usersCollection = (c1 ++ d' :: c2)%list
    /\ d' !! "role" = Some (default VNull (body req !! "role"))
    /\ d' !! "status" = Some (VStr "verified")
    /\ (forall k : string, k <> "role" -> k <> "status" -> d' !! k = d !! k)
    /\ (forall coll : string, coll <> usersCollection -> db w' !! coll = db w !! coll).
Proof.
  intros Hid H0 Hfind.
  destruct (updateFirst_find _
              (setFields [("role", body req !! "role"); ("status", Some (VStr "verified"))])
              _ _ Hfind) as (c1 & c2 & Hc & _ & _ & Hu).
  eexists _, _, c1, c2, _. split; [apply (patchMakeAdmin_ok E req w oid Hid H0)|].
  cbn [db]. split; [reflexivity|]. split; [exact Hc|].
  split. { unfold collection at 1. rewrite lookup_insert_eq. exact Hu. }
  unfold setFields. cbn [foldl fst snd].
  split; [rewrite lookup_insert_ne by done; apply lookup_insert_eq|].
  split; [apply lookup_insert_eq|].
  split; [intros k Hk1 Hk2; rewrite !lookup_insert_ne by congruence; reflexivity|].
  intros coll Hne. rewrite lookup_insert_ne by congruence. reflexivity.
Qed.

Lemma make_admin_sets_role_and_status_witness :
  exists (r : response) (w' : world) (c1 c2 : list doc) (d' : doc),
    patchMakeAdmin demoEnv promoteStudent demoUsers = (Ok r, w')
    /\ status r = 200
    /\ collection (db demoUsers) usersCollection = (c1 ++ studentUser :: c2)%list
    /\ collection (db w') usersCollection = (c1 ++ d' :: c2)%list
    /\ d' !! "role" = Some (default VNull (body promoteStudent !! "role"))
    /\ d' !! "status" = Some (VStr "verified")
    /\ (forall k : string, k <> "role" -> k <> "status" -> d' !! k = studentUser !! k)
    /\ (forall coll : string, coll <> usersCollection ->
          db w' !! coll = db demoUsers !! coll).
Proof.
  apply (make_admin_sets_role_and_status demoEnv promoteStudent demoUsers studentId studentUser);
    vm_compute; reflexivity.
Defined.

(** PATCH /make-admin/:id on an id that no user record has is answered 200
    all the same, with a result whose matchedCount is 0, and no record
    changes. *)
Theorem make_admin_unknown_id (E : env) (req : request) (w : world) (oid : string) :
  newObjectId E (VStr <$> params req !! "id") = inr oid ->
  storeFails E (storeCalls w) = None ->
  List.find (matches E (FEq "_id" (Some (VOid oid))))
    (collection (db w) usersCollection) = None ->
  fst (patchMakeAdmin E req w) = Ok (Response 200 (updateResult false false))
  /\ collection (db (snd (patchMakeAdmin E req w))) usersCollection
     = collection (db w) usersCollection.
Proof.
  intros Hid H0 Hfind. rewrite (patchMakeAdmin_ok E req w oid Hid H0), Hfind.
  split; [reflexivity|]. cbn [snd db]. unfold collection at 1.
  rewrite lookup_insert_eq. apply updateFirst_none. exact Hfind.
Qed.

Lemma make_admin_unknown_id_witness :
  fst (patchMakeAdmin demoEnv (withParams {[ "id" := unknownUserId ]} promoteStudent) demoUsers)
  = Ok (Response 200 (updateResult false false))
  /\ collection (db (snd (patchMakeAdmin demoEnv
                            (withParams {[ "id" := unknownUserId ]} promoteStudent) demoUsers)))
       usersCollection
     = collection (db demoUsers) usersCollection.
Proof.
  apply (make_admin_unknown_id demoEnv _ demoUsers unknownUserId); vm_compute; reflexivity.
Defined.

(** The three PATCH handlers that take an id build the ObjectId inside
    their try block: an id that [new ObjectId] refuses is answered 500
    "Failed to update" and no command reaches the store. *)
Theorem invalid_id_answers_500 (E : env) (req : request) (w : world) (e : exn) :
  newObjectId E (VStr <$> params req !! "id") = inl e ->
  patchMakeAdmin E req w = (Ok (Response 500 (message_ "Failed to update")), w)
  /\ patchTeacherRequestStatus E req w
     = (Ok (Response 500 (message_ "Failed to update")), w)
  /\ patchClassRequestStatus E req w
     = (Ok (Response 500 (message_ "Failed to update")), w).
Proof.
  intros Hid.
  unfold patchMakeAdmin, patchTeacherRequestStatus, patchClassRequestStatus.
  run_more. rewrite Hid. run_more. repeat split.
Qed.

Lemma invalid_id_answers_500_witness :
  let req := withParams {[ "id" := "not-an-id" ]} promoteStudent in
  patchMakeAdmin demoEnv req demoUsers
  = (Ok (Response 500 (message_ "Failed to update")), demoUsers)
  /\ patchTeacherRequestStatus demoEnv req demoUsers
     = (Ok (Response 500 (message_ "Failed to update")), demoUsers)
  /\ patchClassRequestStatus demoEnv req demoUsers
     = (Ok (Response 500 (message_ "Failed to update")), demoUsers).
Proof.
  apply (invalid_id_answers_500 demoEnv
           (withParams {[ "id" := "not-an-id" ]} promoteStudent) demoUsers invalidId).
  reflexivity.
Defined.

(** PATCH /make-admin/:id and the admin gate compose: after the handler has
    set role [r] on the record that is both the first with the id and the
    first with email [e], a request identified by [e] passes [verifyAdmin]
    exactly when [r] is "admin". *)
Theorem make_admin_then_admin_gate (E : env) (req req2 : request) (w : world)
    (oid e r : string) (d claims : doc) :
  newObjectId E (VStr <$> params req !! "id") = inr oid ->
  body req !! "role" = Some (VStr r) ->
  storeFails E (storeCalls w) = None ->
  storeFails E (S (storeCalls w)) = None ->
  List.find (matches E (FEq "_id" (Some (VOid oid))))
    (collection (db w) usersCollection) = Some d ->
  List.find (matches E (FEq "email" (Some (VStr e))))
    (collection (db w) usersCollection) = Some d ->
  decoded req2 = Some claims ->
  claims !! "email" = Some (VStr e) ->
  let w' := snd (patchMakeAdmin E req w) in
  verifyAdmin E req2 w'
  = (if String.eqb r "admin" then Ok (Next req2)
     else Ok (Send (Response 403 (message_ "Forbidden Access"))),
     sent usersCollection FindOne w').
Proof.
  intros Hid Hrole H0 H1 Hfid Hfemail Hd Hc w'. subst w'.
  rewrite (patchMakeAdmin_ok E req w oid Hid H0). cbn [snd].
  unfold verifyAdmin.
  rewrite (verifyRole_spec E "admin" req2 _ claims Hd) by (cbn; assumption).
  rewrite Hc. cbn [db]. unfold collection at 1. rewrite lookup_insert_eq.
  cbn [default]. unfold id.
  destruct (updateFirst_find _
              (setFields [("role", body req !! "role"); ("status", Some (VStr "verified"))])
              _ _ Hfid) as (c1 & c2 & Hcoll & Hall & Hdid & Hu).
  rewrite Hu. rewrite Hcoll in Hfemail.
  pose proof (first_for_both _ _ _ _ _ Hfemail Hall Hdid) as Hnone.
  rewrite find_app_here; [|exact Hnone|].
  - unfold setFields. cbn [foldl fst snd]. unfold strictEqStr.
    rewrite lookup_insert_ne, lookup_insert_eq by done.
    rewrite Hrole. reflexivity.
  - cbn [matches]. rewrite matchEq_setFields.
    + apply List.find_some in Hfemail as [_ Hm]. exact Hm.
    + repeat constructor; cbn; discriminate.
Qed.

Lemma make_admin_then_admin_gate_witness :
  let w' := snd (patchMakeAdmin demoEnv promoteStudent demoUsers) in
  let req2 := setDecoded emptyRequest (claimsOf "a@x.com") in
  verifyAdmin demoEnv req2 w'
  = (if String.eqb "admin" "admin" then Ok (Next req2)
     else Ok (Send (Response 403 (message_ "Forbidden Access"))),
     sent usersCollection FindOne w').
Proof.
  apply (make_admin_then_admin_gate demoEnv promoteStudent
           (setDecoded emptyRequest (claimsOf "a@x.com")) demoUsers
           studentId "a@x.com" "admin" studentUser (claimsOf "a@x.com"));
    vm_compute; reflexivity.
Defined.

(** * More on teacher requests *)

Section TeacherRequests.
Context (E : env).

Lemma patchTeacherRequestStatus_run (req : request) (w : world) (oid : string) :
  newObjectId E (VStr <$> params req !! "id") = inr oid ->
  storeFails E (storeCalls w) = None ->
  storeFails E (S (storeCalls w)) = None ->
  patchTeacherRequestStatus E req w
  = (Ok (send (message_ "updated")),
     {| db := <[usersCollection :=
                 updateFirst (matches E (FEq "email" (body req !! "email")))
                   (setFields [("role", body req !! "role")])
                   (collection (db w) usersCollection)]>
                (<[teacherRequestCollection :=
                    updateFirst (matches E (FEq "_id" (Some (VOid oid))))
                      (setFields [("status", body req !! "status")])
                      (collection (db w) teacherRequestCollection)]> (db w));
        trace := (trace w ++ [EvStore teacherRequestCollection UpdateOne;
                              EvStore usersCollection UpdateOne])%list;
        storeCalls := S (S (storeCalls w));
        dateCalls := dateCalls w |}).
Proof.
  intros Hid H0 H1. unfold patchTeacherRequestStatus. run_more. rewrite Hid.
  run_more. unfold collection at 1 3.
  rewrite lookup_insert_ne by done. rewrite <- List.app_assoc. reflexivity.
Qed.

Lemma postTeacherRequest_new_run (req : request) (w : world) :
  storeFails E (storeCalls w) = None ->
  storeFails E (S (storeCalls w)) = None ->
  List.find (matches E (FEq "email" (body req !! "email")))
    (collection (db w) teacherRequestCollection) = None ->
  let teachOnData :=
    <["last_request_at" := VStr (now E (S (dateCalls w)))]>
      (<["create_at" := VStr (now E (dateCalls w))]>
         (<["status" := VStr "pending"]> (body req))) in
  let id := idOr (VOid (freshId E (S (storeCalls w)))) (body req !! "_id") in
  postTeacherRequest E req w
  = (Ok (send (PInsertResult id)),
     {| db := <[teacherRequestCollection :=
                 (collection (db w) teacherRequestCollection
                  ++ [<["_id" := id]> teachOnData])%list]> (db w);
        trace := (trace w ++ [EvStore teacherRequestCollection FindOne;
                              EvStore teacherRequestCollection InsertOne])%list;
        storeCalls := S (S (storeCalls w));
        dateCalls := S (S (dateCalls w)) |}).
Proof.
  intros H0 H1 Hfind teachOnData id. unfold postTeacherRequest.
  run_more. rewrite !lookup_insert_ne by done.
  rewrite Hfind. run_more. rewrite !lookup_insert_ne by done.
  rewrite <- List.app_assoc. reflexivity.
Qed.

End TeacherRequests.

(** POST /teacher-request for an email without a request: one record is
    appended, with status 'pending' whatever status the body carried, the
    two timestamps, an _id, and the other fields of the body as sent. *)
Theorem teacher_request_new (E : env) (req : request) (w : world) :
  storeFails E (storeCalls w) = None ->
  storeFails E (S (storeCalls w)) = None ->
  List.find (matches E (FEq "email" (body req !! "email")))
    (collection (db w) teacherRequestCollection) = None ->
  exists (id : value) (new : doc) (w' : world),
    postTeacherRequest E req w = (Ok (Response 200 (PInsertResult id)), w')
    /\ collection (db w') teacherRequestCollection
       = (collection (db w) teacherRequestCollection ++ [new])%list
    /\ new !! "_id" = Some id
    /\ new !! "status" = Some (VStr "pending")
    /\ new !! "create_at" = Some (VStr (now E (dateCalls w)))
    /\ new !! "last_request_at" = Some (VStr (now E (S (dateCalls w))))
    /\ (forall k : string,
          k <> "_id" -> k <> "status" -> k <> "create_at" -> k <> "last_request_at" ->
          new !! k = body req !! k).
Proof.
  intros H0 H1 Hfind. eexists _, _, _.
  split; [apply (postTeacherRequest_new_run E req w H0 H1 Hfind)|].
  cbn [db]. unfold collection at 1. rewrite lookup_insert_eq.
  split; [reflexivity|].
  split; [apply lookup_insert_eq|].
  split; [rewrite !lookup_insert_ne by done; apply lookup_insert_eq|].
  split; [rewrite !lookup_insert_ne by done; apply lookup_insert_eq|].
  split; [rewrite lookup_insert_ne by done; apply lookup_insert_eq|].
  intros k Hk1 Hk2 Hk3 Hk4. rewrite !lookup_insert_ne by congruence. reflexivity.
Qed.

Lemma teacher_request_new_witness :
  exists (id : value) (new : doc) (w' : world),
    postTeacherRequest demoEnv teacherRequestAgain demoUsers
    = (Ok (Response 200 (PInsertResult id)), w')
    /\ collection (db w') teacherRequestCollection
       = (collection (db demoUsers) teacherRequestCollection ++ [new])%list
    /\ new !! "_id" = Some id
    /\ new !! "status" = Some (VStr "pending")
    /\ new !! "create_at" = Some (VStr (now demoEnv (dateCalls demoUsers)))
    /\ new !! "last_request_at" = Some (VStr (now demoEnv (S (dateCalls demoUsers))))
    /\ (forall k : string,
          k <> "_id" -> k <> "status" -> k <> "create_at" -> k <> "last_request_at" ->
          new !! k = body teacherRequestAgain !! k).
Proof.
  apply (teacher_request_new demoEnv teacherRequestAgain demoUsers);
    vm_compute; reflexivity.
Defined.

(** POST /teacher-request has no try block: when the lookup throws, or when
    the lookup finds nothing and the insert throws, the handler ends in that
    error without sending an answer, and no record is added. *)
Theorem teacher_request_store_failure_unhandled (E : env) (req : request)
    (w : world) (e : exn) :
  (storeFails E (storeCalls w) = Some e ->
   fst (postTeacherRequest E req w) = Throw e
   /\ db (snd (postTeacherRequest E req w)) = db w)
  /\ (storeFails E (storeCalls w) = None ->
      storeFails E (S (storeCalls w)) = Some e ->
      fst (postTeacherRequest E req w) = Throw e
      /\ db (snd (postTeacherRequest E req w)) = db w).
Proof.
  split.
  - intros H0. unfold postTeacherRequest. run_more. split; reflexivity.
  - intros H0 H1. unfold postTeacherRequest. run_more.
    rewrite !lookup_insert_ne by done.
    destruct (List.find _ _) as [d|]; run_more; split; reflexivity.
Qed.

Lemma teacher_request_store_failure_unhandled_witness :
  (fst (postTeacherRequest demoEnvFail0 teacherRequestAgain demoRequests)
   = Throw (Exn "MongoNetworkError" "connection closed")
   /\ db (snd (postTeacherRequest demoEnvFail0 teacherRequestAgain demoRequests))
      = db demoRequests)
  /\ (fst (postTeacherRequest demoEnvFail1 teacherRequestAgain demoUsers)
      = Throw (Exn "MongoNetworkError" "connection closed")
      /\ db (snd (postTeacherRequest demoEnvFail1 teacherRequestAgain demoUsers))
         = db demoUsers).
Proof.
  split.
  - destruct (teacher_request_store_failure_unhandled demoEnvFail0
                teacherRequestAgain demoRequests
                (Exn "MongoNetworkError" "connection closed")) as [H _].
    apply H. reflexivity.
  - destruct (teacher_request_store_failure_unhandled demoEnvFail1
                teacherRequestAgain demoUsers
                (Exn "MongoNetworkError" "connection closed")) as [_ H].
    apply H; reflexivity.
Defined.

(** PATCH /teacher-request-status/:id with an email that no user record
    has: the request's status is updated and the answer is 200 "updated",
    although no role was changed. *)
Theorem teacher_request_status_unknown_email (E : env) (req : request) (w : world)
    (oid : string) :
  newObjectId E (VStr <$> params req !! "id") = inr oid ->
  storeFails E (storeCalls w) = None ->
  storeFails E (S (storeCalls w)) = None ->
  List.find (matches E (FEq "email" (body req !! "email")))
    (collection (db w) usersCollection) = None ->
  fst (patchTeacherRequestStatus E req w) = Ok (Response 200 (message_ "updated"))
  /\ collection (db (snd (patchTeacherRequestStatus E req w))) usersCollection
     = collection (db w) usersCollection
  /\ collection (db (snd (patchTeacherRequestStatus E req w))) teacherRequestCollection
     = updateFirst (matches E (FEq "_id" (Some (VOid oid))))
         (fun d => <["status" := default VNull (body req !! "status")]> d)
         (collection (db w) teacherRequestCollection).
Proof.
  intros Hid H0 H1 Hfind.
  rewrite (patchTeacherRequestStatus_run E req w oid Hid H0 H1).
  cbn [fst snd db]. split; [reflexivity|].
  rewrite collection_insert, collection_insert_ne, collection_insert by done.
  split; [apply updateFirst_none; exact Hfind | reflexivity].
Qed.

Lemma teacher_request_status_unknown_email_witness :
  let req := withBody {[ "status" := VStr "approved"; "role" := VStr "teacher";
                         "email" := VStr "nobody@x.com" ]} approveRequest in
  fst (patchTeacherRequestStatus demoEnv req demoRequests)
  = Ok (Response 200 (message_ "updated"))
  /\ collection (db (snd (patchTeacherRequestStatus demoEnv req demoRequests)))
       usersCollection
     = collection (db demoRequests) usersCollection
  /\ collection (db (snd (patchTeacherRequestStatus demoEnv req demoRequests)))
       teacherRequestCollection
     = updateFirst (matches demoEnv (FEq "_id" (Some (VOid requestId))))
         (fun d => <["status" := default VNull (body req !! "status")]> d)
         (collection (db demoRequests) teacherRequestCollection).
Proof.
  apply (teacher_request_status_unknown_email demoEnv _ demoRequests requestId);
    vm_compute; reflexivity.
Defined.

(** PATCH /teacher-request-status/:id when the first update throws: the
    answer is 500, the second update is never sent, and nothing changed. *)
Theorem teacher_request_status_first_update_fails (E : env) (req : request)
    (w : world) (oid : string) (e : exn) :
  newObjectId E (VStr <$> params req !! "id") = inr oid ->
  storeFails E (storeCalls w) = Some e ->
  patchTeacherRequestStatus E req w
  = (Ok (Response 500 (message_ "Failed to update")),
     {| db := db w;
        trace := (trace w ++ [EvStore teacherRequestCollection UpdateOne])%list;
        storeCalls := S (storeCalls w);
        dateCalls := dateCalls w |}).
Proof.
  intros Hid H0. unfold patchTeacherRequestStatus. run_more. rewrite Hid. run_more.
  reflexivity.
Qed.

Lemma teacher_request_status_first_update_fails_witness :
  patchTeacherRequestStatus demoEnvFail0 approveRequest demoRequests
  = (Ok (Response 500 (message_ "Failed to update")),
     {| db := db demoRequests;
        trace := (trace demoRequests ++ [EvStore teacherRequestCollection UpdateOne])%list;
        storeCalls := S (storeCalls demoRequests);
        dateCalls := dateCalls demoRequests |}).
Proof.
  apply (teacher_request_status_first_update_fails demoEnvFail0 approveRequest
           demoRequests requestId (Exn "MongoNetworkError" "connection closed"));
    reflexivity.
Defined.

(** Approval and the teacher gate compose: after PATCH
    /teacher-request-status/:id has run with email [e] and role [r] in its
    body, a request identified by [e] passes [verifyTeacher] exactly when
    [r] is "teacher". *)
Theorem approval_then_teacher_gate (E : env) (req req2 : request) (w : world)
    (oid e r : string) (d claims : doc) :
  newObjectId E (VStr <$> params req !! "id") = inr oid ->
  body req !! "email" = Some (VStr e) ->
  body req !! "role" = Some (VStr r) ->
  storeFails E (storeCalls w) = None ->
  storeFails E (S (storeCalls w)) = None ->
  storeFails E (S (S (storeCalls w))) = None ->
  List.find (matches E (FEq "email" (Some (VStr e))))
    (collection (db w) usersCollection) = Some d ->
  decoded req2 = Some claims ->
  claims !! "email" = Some (VStr e) ->
  let w' := snd (patchTeacherRequestStatus E req w) in
  verifyTeacher E req2 w'
  = (if String.eqb r "teacher" then Ok (Next req2)
     else Ok (Send (Response 403 (message_ "Forbidden Access"))),
     sent usersCollection FindOne w').
Proof.
  intros Hid Hemail Hrole H0 H1 H2 Hfind Hd Hc w'. subst w'.
  rewrite (patchTeacherRequestStatus_run E req w oid Hid H0 H1). cbn [snd].
  unfold verifyTeacher.
  rewrite (verifyRole_spec E "teacher" req2 _ claims Hd) by (cbn; assumption).
  rewrite Hc, Hemail. cbn [db]. rewrite collection_insert.
  destruct (updateFirst_find _ (setFields [("role", body req !! "role")])
              _ _ Hfind) as (c1 & c2 & Hcoll & Hall & Hdm & Hu).
  rewrite Hu. rewrite find_app_here; [|exact Hall|].
  - unfold setFields. cbn [foldl fst snd]. unfold strictEqStr.
    rewrite lookup_insert_eq, Hrole. reflexivity.
  - cbn [matches]. rewrite matchEq_setFields; [exact Hdm|].
    repeat constructor; cbn; discriminate.
Qed.

Lemma approval_then_teacher_gate_witness :
  let w' := snd (patchTeacherRequestStatus demoEnv approveRequest demoRequests) in
  let req2 := setDecoded emptyRequest (claimsOf "a@x.com") in
  verifyTeacher demoEnv req2 w'
  = (if String.eqb "teacher" "teacher" then Ok (Next req2)
     else Ok (Send (Response 403 (message_ "Forbidden Access"))),
     sent usersCollection FindOne w').
Proof.
  apply (approval_then_teacher_gate demoEnv approveRequest
           (setDecoded emptyRequest (claimsOf "a@x.com")) demoRequests
           requestId "a@x.com" "teacher" studentUser (claimsOf "a@x.com"));
    vm_compute; reflexivity.
Defined.

(** * More on classes and listings *)

(** ** The two sorts *)

Lemma SFleb_total (f1 f2 : spec_float) :
  f1 <> S754_nan -> f2 <> S754_nan -> SFleb f1 f2 = false -> SFleb f2 f1 = true.
Proof.
  unfold SFleb, SFcompare.
  destruct f1 as [s1|s1| |s1 m1 e1], f2 as [s2|s2| |s2 m2 e2];
    try congruence; intros _ _;
    try (destruct s1; try destruct s2; cbn; congruence).
  all: try (destruct s2; cbn; congruence).
  destruct s1, s2; try (cbn; congruence);
    change (Pos.compare_cont Eq m1 m2) with (Pos.compare m1 m2);
    change (Pos.compare_cont Eq m2 m1) with (Pos.compare m2 m1);
    rewrite (Z.compare_antisym e1 e2), (Pos.compare_antisym m1 m2);
    destruct (e1 ?= e2)%Z, (m1 ?= m2)%positive; cbn; congruence.
Qed.

Lemma ltb_not_nan (x y : float) :
  PrimFloat.ltb x y = true -> Prim2SF y <> S754_nan.
Proof.
  rewrite ltb_spec. unfold SFltb, SFcompare. intros H Hn. rewrite Hn in H.
  destruct (Prim2SF x); discriminate.
Qed.

Lemma leb_total_not_nan (x y : float) :
  Prim2SF x <> S754_nan -> Prim2SF y <> S754_nan ->
  PrimFloat.leb x y = false -> PrimFloat.leb y x = true.
Proof. rewrite !leb_spec. apply SFleb_total. Qed.

Lemma matchGt_not_nan (d : doc) (k : string) (n : float) :
  matchGt d k n = true -> Prim2SF (numField k d) <> S754_nan.
Proof.
  unfold matchGt, numField. destruct (d !! k) as [[| |x| |]|]; try discriminate.
  apply ltb_not_nan.
Qed.

Lemma insertDesc_perm (k : string) (d : doc) (l : list doc) :
  Permutation (insertDesc k d l) (d :: l).
Proof.
  induction l as [|x l IH]; cbn; [reflexivity|].
  destruct (PrimFloat.leb _ _); [reflexivity|].
  rewrite IH. apply perm_swap.
Qed.

Lemma sortDescBy_perm (k : string) (l : list doc) : Permutation (sortDescBy k l) l.
Proof.
  induction l as [|x l IH]; cbn; [reflexivity|].
  fold (sortDescBy k l). rewrite insertDesc_perm, IH. reflexivity.
Qed.

Lemma insertDesc_sorted (k : string) (d : doc) (l : list doc) :
  Prim2SF (numField k d) <> S754_nan ->
  List.Forall (fun x => Prim2SF (numField k x) <> S754_nan) l ->
  Sorted (numDesc k) l -> Sorted (numDesc k) (insertDesc k d l).
Proof.
  intros Hd Hall Hs. induction Hs as [|x l Hs IH Hhd]; cbn.
  - repeat constructor.
  - apply List.Forall_cons_iff in Hall as [Hx Hall].
    destruct (PrimFloat.leb (numField k x) (numField k d)) eqn:Hle.
    + constructor; [constructor; assumption|]. constructor. exact Hle.
    + constructor; [apply IH; assumption|].
      destruct l as [|y l]; cbn.
      * constructor. apply leb_total_not_nan; assumption.
      * destruct (PrimFloat.leb (numField k y) (numField k d));
          constructor; [apply leb_total_not_nan; assumption|].
        inversion Hhd; assumption.
Qed.

Lemma sortDescBy_sorted (k : string) (l : list doc) :
  List.Forall (fun x => Prim2SF (numField k x) <> S754_nan) l ->
  Sorted (numDesc k) (sortDescBy k l).
Proof.
  induction 1 as [|x l Hx Hall IH]; cbn; [constructor|].
  fold (sortDescBy k l). apply insertDesc_sorted; [exact Hx| |exact IH].
  apply List.Forall_forall. intros y Hy.
  rewrite List.Forall_forall in Hall. apply Hall.
  apply (Permutation_in _ (sortDescBy_perm k l)). exact Hy.
Qed.

Lemma Sorted_firstn {A} (R : A -> A -> Prop) (n : nat) (l : list A) :
  Sorted R l -> Sorted R (firstn n l).
Proof.
  intros Hs. revert n. induction Hs as [|x l Hs IH Hhd]; intros n.
  - rewrite List.firstn_nil. constructor.
  - destruct n as [|n]; cbn; [constructor|].
    constructor; [apply IH|].
    destruct Hhd as [|y l' Hxy]; destruct n; cbn; constructor. exact Hxy.
Qed.

Lemma insertDescBy_perm (k : string) (d : doc) (l : list doc) :
  Permutation (insertDescBy k d l) (d :: l).
Proof.
  induction l as [|x l IH]; cbn; [reflexivity|].
  destruct (bsonLeb _ _); [reflexivity|].
  rewrite IH. apply perm_swap.
Qed.

Lemma sortDescByKey_perm (k : string) (l : list doc) :
  Permutation (sortDescByKey k l) l.
Proof.
  induction l as [|x l IH]; cbn; [reflexivity|].
  fold (sortDescByKey k l). rewrite insertDescBy_perm, IH. reflexivity.
Qed.

Lemma bsonLeb_total_strings (a b : option value) :
  isString a -> isString b -> bsonLeb a b = false -> bsonLeb b a = true.
Proof.
  intros [x ->] [y ->]. cbn. intros H.
  destruct (String.leb_total x y) as [Hxy|Hyx]; congruence.
Qed.

Lemma insertDescBy_sorted (k : string) (d : doc) (l : list doc) :
  isString (d !! k) ->
  List.Forall (fun x => isString (x !! k)) l ->
  Sorted (keyDesc k) l -> Sorted (keyDesc k) (insertDescBy k d l).
Proof.
  intros Hd Hall Hs. induction Hs as [|x l Hs IH Hhd]; cbn.
  - repeat constructor.
  - apply List.Forall_cons_iff in Hall as [Hx Hall].
    destruct (bsonLeb (x !! k) (d !! k)) eqn:Hle.
    + constructor; [constructor; assumption|]. constructor. exact Hle.
    + constructor; [apply IH; assumption|].
      destruct l as [|y l]; cbn.
      * constructor. apply bsonLeb_total_strings; assumption.
      * destruct (bsonLeb (y !! k) (d !! k));
          constructor; [apply bsonLeb_total_strings; assumption|].
        inversion Hhd; assumption.
Qed.

Lemma sortDescByKey_sorted (k : string) (l : list doc) :
  List.Forall (fun x => isString (x !! k)) l ->
  Sorted (keyDesc k) (sortDescByKey k l).
Proof.
  induction 1 as [|x l Hx Hall IH]; cbn; [constructor|].
  fold (sortDescByKey k l). apply insertDescBy_sorted; [exact Hx| |exact IH].
  apply List.Forall_forall. intros y Hy.
  rewrite List.Forall_forall in Hall. apply Hall.
  apply (Permutation_in _ (sortDescByKey_perm k l)). exact Hy.
Qed.

(** ** Listings *)

(** GET /top-enrolled-classes answers with at most six classes, all taken
    from the class collection and all with a number of students above 0,
    in descending order of that number; when no more than six classes have
    students, all of them are listed. *)
Theorem top_enrolled_classes (E : env) (req : request) (w : world) :
  storeFails E (storeCalls w) = None ->
  let classes := collection (db w) classCollection in
  let enrolled := List.filter (fun d => matchGt d "enrolled" 0%float) classes in
  exists top : list doc,
    getTopEnrolledClasses E req w
    = (Ok (Response 200 (PDocs top)), sent classCollection Find w)
    /\ length top = Nat.min 6 (length enrolled)
    /\ (forall d : doc, In d top ->
          In d classes /\ matchGt d "enrolled" 0%float = true)
    /\ Sorted (numDesc "enrolled") top
    /\ (length enrolled <= 6 -> Permutation top enrolled).
Proof.
  intros H0 classes enrolled.
  exists (firstn 6 (sortDescBy "enrolled" enrolled)).
  assert (Hnan : List.Forall
                   (fun x => Prim2SF (numField "enrolled" x) <> S754_nan) enrolled).
  { apply List.Forall_forall. intros d Hd.
    apply List.filter_In in Hd as [_ Hd]. eapply matchGt_not_nan. exact Hd. }
  split.
  { unfold getTopEnrolledClasses. run_store.
    erewrite find_ok; cycle 1; [assumption | reflexivity | reflexivity]. }
  split.
  { rewrite List.length_firstn, (Permutation_length (sortDescBy_perm _ _)).
    reflexivity. }
  split.
  { intros d Hd.
    assert (Hin : In d enrolled).
    { apply (Permutation_in _ (sortDescBy_perm "enrolled" enrolled)).
      apply (In_page _ 6 0). exact Hd. }
    apply List.filter_In in Hin. exact Hin. }
  split.
  { apply Sorted_firstn, sortDescBy_sorted. exact Hnan. }
  intros Hlen. rewrite List.firstn_all2.
  - apply sortDescBy_perm.
  - rewrite (Permutation_length (sortDescBy_perm _ _)). exact Hlen.
Qed.

Lemma top_enrolled_classes_witness :
  exists top : list doc,
    getTopEnrolledClasses demoEnv emptyRequest demoClasses
    = (Ok (Response 200 (PDocs top)), sent classCollection Find demoClasses)
    /\ length top = Nat.min 6 (length [enrolledClass])
    /\ (forall d : doc, In d top ->
          In d [enrolledClass] /\ matchGt d "enrolled" 0%float = true)
    /\ Sorted (numDesc "enrolled") top
    /\ (length [enrolledClass] <= 6 -> Permutation top [enrolledClass]).
Proof.
  apply (top_enrolled_classes demoEnv emptyRequest demoClasses). reflexivity.
Defined.

Section MoreListings.
Context (E : env).

Lemma findSorted_ok (coll : string) (f : filter) (k : string) (w : world) :
  storeFails E (storeCalls w) = None ->
  findSorted E coll f k w
  = (Ok (sortDescByKey k (List.filter (matches E f) (collection (db w) coll))),
     sent coll Find w).
Proof. intros H. unfold findSorted, storeRead. rewrite H. reflexivity. Qed.

Lemma patchClassRequestStatus_run (req : request) (w : world) (oid : string) :
  newObjectId E (VStr <$> params req !! "id") = inr oid ->
  storeFails E (storeCalls w) = None ->
  patchClassRequestStatus E req w
  = (Ok (send (message_ "updates class request")),
     {| db := <[classCollection :=
                 updateFirst (matches E (FEq "_id" (Some (VOid oid))))
                   (setFields [("status", body req !! "status")])
                   (collection (db w) classCollection)]> (db w);
        trace := (trace w ++ [EvStore classCollection UpdateOne])%list;
        storeCalls := S (storeCalls w);
        dateCalls := dateCalls w |}).
Proof.
  intros Hid H0. unfold patchClassRequestStatus. run_more. rewrite Hid. run_more.
  reflexivity.
Qed.

Lemma nonempty_length {A} (l : list A) : Nat.eqb (length l) 0 = true <-> l = [].
Proof. destruct l; cbn; split; congruence. Qed.

End MoreListings.

(** PATCH /class-request-status/:id decides whether a class is publicly
    listed: the class with the id gets the status of the body, nothing else
    of it changes, and afterwards the class matches the filter of the
    public listing exactly when that status is 'approved'. *)
Theorem class_status_decides_listing (E : env) (req : request) (w : world)
    (oid s : string) (d : doc) :
  newObjectId E (VStr <$> params req !! "id") = inr oid ->
  body req !! "status" = Some (VStr s) ->
  storeFails E (storeCalls w) = None ->
  List.find (matches E (FEq "_id" (Some (VOid oid))))
    (collection (db w) classCollection) = Some d ->
  exists (w' : world) (c1 c2 : list doc) (d' : doc),
    patchClassRequestStatus E req w
    = (Ok (Response 200 (message_ "updates class request")), w')
    /\ collection (db w) classCollection = (c1 ++ d :: c2)%list
    /\ collection (db w') classCollection = (c1 ++ d' :: c2)%list
    /\ d' !! "status" = Some (VStr s)
    /\ (forall k : string, k <> "status" -> d' !! k = d !! k)
    /\ matches E (FEq "status" (Some (VStr "approved"))) d' = String.eqb s "approved".
Proof.
  intros Hid Hs H0 Hfind.
  destruct (updateFirst_find _ (setFields [("status", body req !! "status")])
              _ _ Hfind) as (c1 & c2 & Hc & _ & _ & Hu).
  eexists _, c1, c2, _.
  split; [apply (patchClassRequestStatus_run E req w oid Hid H0)|].
  cbn [db]. rewrite collection_insert.
  split; [exact Hc|]. split; [exact Hu|].
  unfold setFields. cbn [foldl fst snd]. rewrite Hs. cbn [default].
  split; [apply lookup_insert_eq|].
  split; [intros k Hk; rewrite lookup_insert_ne by congruence; reflexivity|].
  cbn [matches]. unfold matchEq. rewrite lookup_insert_eq. reflexivity.
Qed.

Lemma class_status_decides_listing_witness :
  exists (w' : world) (c1 c2 : list doc) (d' : doc),
    patchClassRequestStatus demoEnv rejectClass demoClasses
    = (Ok (Response 200 (message_ "updates class request")), w')
    /\ collection (db demoClasses) classCollection = (c1 ++ enrolledClass :: c2)%list
    /\ collection (db w') classCollection = (c1 ++ d' :: c2)%list
    /\ d' !! "status" = Some (VStr "rejected")
    /\ (forall k : string, k <> "status" -> d' !! k = enrolledClass !! k)
    /\ matches demoEnv (FEq "status" (Some (VStr "approved"))) d'
       = String.eqb "rejected" "approved".
Proof.
  apply (class_status_decides_listing demoEnv rejectClass demoClasses enrolledClassId "rejected"
           enrolledClass);
    vm_compute; reflexivity.
Defined.

(** GET /get-all-classes/:email answers 404 when no class record carries
    the email of the path, and otherwise 200 with exactly the class records
    whose email field is that email, in collection order. *)
Theorem get_all_classes_by_email (E : env) (req : request) (w : world) (e : string) :
  params req !! "email" = Some e ->
  e <> "" ->
  storeFails E (storeCalls w) = None ->
  let mine := List.filter (fun d => matchEq d "email" (Some (VStr e)))
                (collection (db w) classCollection) in
  getAllClasses E req w
  = (Ok (match mine with
         | [] => Response 404 (message_ "No classes found for this email")
         | _ => Response 200 (PDocs mine)
         end),
     sent classCollection Find w)
  /\ (forall d : doc, In d mine -> d !! "email" = Some (VStr e)).
Proof.
  intros He Hne H0 mine. split.
  - unfold getAllClasses. rewrite He. unfold truthy.
    apply String.eqb_neq in Hne. rewrite Hne. cbn [negb]. run_store.
    erewrite find_ok; [| assumption | reflexivity].
    cbn [window fst snd skipn fmap option_fmap option_map].
    change (List.filter (matches E (FEq "email" (Some (VStr e)))) _) with mine.
    destruct mine; reflexivity.
  - intros d Hd. apply List.filter_In in Hd as [_ Hd].
    apply matchEq_str. exact Hd.
Qed.

Lemma get_all_classes_by_email_witness :
  let mine := List.filter (fun d => matchEq d "email" (Some (VStr "t@x.com")))
                (collection (db demoClasses) classCollection) in
  getAllClasses demoEnv (withEmailParam "t@x.com") demoClasses
  = (Ok (match mine with
         | [] => Response 404 (message_ "No classes found for this email")
         | _ => Response 200 (PDocs mine)
         end),
     sent classCollection Find demoClasses)
  /\ (forall d : doc, In d mine -> d !! "email" = Some (VStr "t@x.com")).
Proof.
  apply (get_all_classes_by_email demoEnv (withEmailParam "t@x.com") demoClasses
           "t@x.com");
    [reflexivity | discriminate | reflexivity].
Defined.

(** POST /add-class stores the body as sent, adding only an _id: the
    handler sets no status, so a body that says status 'approved' adds one
    class to those the public listing selects.  The answer is 200 with
    [inserted: false] although the record was inserted. *)
Theorem add_class_stores_body_as_sent (E : env) (req : request) (w : world) :
  storeFails E (storeCalls w) = None ->
  let approved := matches E (FEq "status" (Some (VStr "approved"))) in
  exists (new : doc) (w' : world),
    postAddClass E req w
    = (Ok (Response 200 (PObject [("message", Some (VStr "Add class saved in db"));
                                  ("inserted", Some (VBool false))])), w')
    /\ collection (db w') classCollection
       = (collection (db w) classCollection ++ [new])%list
    /\ (forall k : string, k <> "_id" -> new !! k = body req !! k)
    /\ (body req !! "status" = Some (VStr "approved") ->
        length (List.filter approved (collection (db w') classCollection))
        = S (length (List.filter approved (collection (db w) classCollection)))).
Proof.
  intros H0 approved. eexists _, _. split.
  { unfold postAddClass. run_more. reflexivity. }
  cbn [db]. rewrite collection_insert. split; [reflexivity|].
  split; [intros k Hk; rewrite lookup_insert_ne by congruence; reflexivity|].
  intros Hs. rewrite List.filter_app, length_app. cbn [List.filter].
  replace (approved _) with true; [cbn; lia|].
  symmetry. subst approved. cbn [matches]. apply matchEq_str.
  rewrite lookup_insert_ne by done. exact Hs.
Qed.

Lemma add_class_stores_body_as_sent_witness :
  let approved := matches demoEnv (FEq "status" (Some (VStr "approved"))) in
  let req := withBody {[ "title" := VStr "T"; "status" := VStr "approved" ]} emptyRequest in
  exists (new : doc) (w' : world),
    postAddClass demoEnv req demoClasses
    = (Ok (Response 200 (PObject [("message", Some (VStr "Add class saved in db"));
                                  ("inserted", Some (VBool false))])), w')
    /\ collection (db w') classCollection
       = (collection (db demoClasses) classCollection ++ [new])%list
    /\ (forall k : string, k <> "_id" -> new !! k = body req !! k)
    /\ (body req !! "status" = Some (VStr "approved") ->
        length (List.filter approved (collection (db w') classCollection))
        = S (length (List.filter approved (collection (db demoClasses) classCollection)))).
Proof.
  apply (add_class_stores_body_as_sent demoEnv _ demoClasses). reflexivity.
Defined.

(** POST /enroll-info, POST /ter-review and POST /add-assignment append the
    body to their collection with create_at set to the time of the call,
    whatever create_at the body carried; the first two answer 201 with the
    insert result, the third 200. *)
Theorem stamped_inserts (E : env) (req : request) (w : world) :
  storeFails E (storeCalls w) = None ->
  let id := idOr (VOid (freshId E (storeCalls w))) (body req !! "_id") in
  let new := <["_id" := id]> (<["create_at" := VStr (now E (dateCalls w))]> (body req)) in
  let after (coll : string) (r : response) (run : result response * world) :=
    fst run = Ok r
    /\ collection (db (snd run)) coll = (collection (db w) coll ++ [new])%list in
  after enrollCollection (Response 201 (PInsertResult id)) (postEnrollInfo E req w)
  /\ after reportCollection (Response 201 (PInsertResult id)) (postTerReview E req w)
  /\ after assignmentCollection
       (Response 200 (PObject [("message", Some (VStr "Assignment saved in db"));
                               ("inserted", Some (VBool false))]))
       (postAddAssignment E req w).
Proof.
  intros H0 id new after. subst after. cbv beta.
  unfold postEnrollInfo, postTerReview, postAddAssignment. run_more.
  rewrite !lookup_insert_ne by done. cbn [fst snd db].
  rewrite !collection_insert. repeat split.
Qed.

Lemma stamped_inserts_witness :
  let req := withBody {[ "studentEmail" := VStr "a@x.com";
                         "create_at" := VStr "1999-01-01" ]} emptyRequest in
  let w := demoUsers in
  let id := idOr (VOid (freshId demoEnv (storeCalls w))) (body req !! "_id") in
  let new := <["_id" := id]> (<["create_at" := VStr (now demoEnv (dateCalls w))]> (body req)) in
  let after (coll : string) (r : response) (run : result response * world) :=
    fst run = Ok r
    /\ collection (db (snd run)) coll = (collection (db w) coll ++ [new])%list in
  after enrollCollection (Response 201 (PInsertResult id)) (postEnrollInfo demoEnv req w)
  /\ after reportCollection (Response 201 (PInsertResult id)) (postTerReview demoEnv req w)
  /\ after assignmentCollection
       (Response 200 (PObject [("message", Some (VStr "Assignment saved in db"));
                               ("inserted", Some (VBool false))]))
       (postAddAssignment demoEnv req w).
Proof.
  intros req w.
  apply (stamped_inserts demoEnv req w). reflexivity.
Defined.

(** GET /my-all-classes/:email answers 404 when the student has no
    enrollment, and otherwise 200 with the student's enrollments: the same
    records, each once, and newest first by create_at when create_at is a
    string on all of them (as POST /enroll-info writes it). *)
Theorem my_all_classes_newest_first (E : env) (req : request) (w : world) (e : string) :
  params req !! "email" = Some e ->
  e <> "" ->
  storeFails E (storeCalls w) = None ->
  let mine := List.filter (fun d => matchEq d "studentEmail" (Some (VStr e)))
                (collection (db w) enrollCollection) in
  (mine = [] ->
   fst (getMyAllClasses E req w)
   = Ok (Response 404 (message_ "No classes found for this email")))
  /\ (mine <> [] ->
      exists enrollments : list doc,
        fst (getMyAllClasses E req w) = Ok (Response 200 (PDocs enrollments))
        /\ Permutation enrollments mine
        /\ (List.Forall (fun d => isString (d !! "create_at")) mine ->
            Sorted (keyDesc "create_at") enrollments)).
Proof.
  intros He Hne H0 mine.
  assert (Hrun : getMyAllClasses E req w
                 = (Ok (if Nat.eqb (length (sortDescByKey "create_at" mine)) 0
                        then Response 404 (message_ "No classes found for this email")
                        else Response 200 (PDocs (sortDescByKey "create_at" mine))),
                    sent enrollCollection Find w)).
  { unfold getMyAllClasses. rewrite He. unfold truthy.
    apply String.eqb_neq in Hne. rewrite Hne. cbn [negb]. run_store.
    rewrite findSorted_ok by assumption.
    cbn [fmap option_fmap option_map].
    change (List.filter (matches E (FEq "studentEmail" (Some (VStr e)))) _) with mine.
    destruct (Nat.eqb _ 0); reflexivity. }
  rewrite Hrun. cbn [fst].
  rewrite (Permutation_length (sortDescByKey_perm "create_at" mine)). split.
  - intros ->. reflexivity.
  - intros Hmine. exists (sortDescByKey "create_at" mine).
    destruct mine as [|x l]; [congruence|]. cbn [length Nat.eqb].
    split; [reflexivity|]. split; [apply sortDescByKey_perm|].
    apply sortDescByKey_sorted.
Qed.

Lemma my_all_classes_newest_first_witness :
  exists enrollments : list doc,
    fst (getMyAllClasses demoEnv (withEmailParam "a@x.com") demoEnrollments)
    = Ok (Response 200 (PDocs enrollments))
    /\ Permutation enrollments
         [enrollment "a@x.com" enrolledClassId "2025-07-01T08:00:00.000Z";
          enrollment "a@x.com" pricedClassId "2025-07-03T08:00:00.000Z"]
    /\ (List.Forall (fun d => isString (d !! "create_at"))
          [enrollment "a@x.com" enrolledClassId "2025-07-01T08:00:00.000Z";
           enrollment "a@x.com" pricedClassId "2025-07-03T08:00:00.000Z"] ->
        Sorted (keyDesc "create_at") enrollments).
Proof.
  destruct (my_all_classes_newest_first demoEnv (withEmailParam "a@x.com")
              demoEnrollments "a@x.com") as [_ H];
    [reflexivity | discriminate | reflexivity |].
  apply H. vm_compute. discriminate.
Defined.

(** In the example the later enrollment comes first. *)
Example my_all_classes_order :
  fst (getMyAllClasses demoEnv (withEmailParam "a@x.com") demoEnrollments)
  = Ok (Response 200 (PDocs [enrollment "a@x.com" pricedClassId "2025-07-03T08:00:00.000Z";
                             enrollment "a@x.com" enrolledClassId "2025-07-01T08:00:00.000Z"])).
Proof. vm_compute. reflexivity. Qed.

(** * Pages, payment and search: the remaining edges *)

Lemma seq_shift_map {A} (f : nat -> A) (k : nat) :
  List.map f (seq 1 k) = List.map (fun p => f (S p)) (seq 0 k).
Proof. rewrite <- List.seq_shift, List.map_map. reflexivity. Qed.

(** Cutting a list into pages of [n] and gluing the pages gives the list
    back, once the pages reach its end. *)
Lemma pages_concat (n : nat) (k : nat) (l : list doc) :
  length l <= k * n ->
  List.concat (List.map (fun p => firstn n (skipn (p * n) l)) (seq 0 k)) = l.
Proof.
  revert l. induction k as [|k IH]; intros l Hlen.
  - destruct l; [reflexivity|cbn in Hlen; lia].
  - cbn [seq List.map List.concat]. rewrite seq_shift_map.
    cbn [Nat.mul]. rewrite List.skipn_O.
    erewrite List.map_ext; [rewrite (IH (skipn n l))|].
    + apply List.firstn_skipn.
    + rewrite List.length_skipn. cbn in Hlen. lia.
    + intros p. cbn beta. rewrite List.skipn_skipn.
      replace (p * n + n) with (n + p * n) by lia. reflexivity.
Qed.

(** The pages of GET /approved-classes-pagination cover the approved
    classes: asking for the pages 0, 1, ... up to the totalPages that the
    answers carry, with one positive page size, and putting their data one
    after the other, gives every approved class exactly once, in collection
    order.  The page size and the number of approved classes are safe
    integers (at most 2^53 - 1). *)
Theorem pages_cover_approved (E : env) (w : world) (reqs : nat -> request) (size : Z) :
  let approved := List.filter (matches E (FEq "status" (Some (VStr "approved"))))
                    (collection (db w) classCollection) in
  let totalPages :=
    pagesOf (ceilDiv (roundDouble (Z.of_nat (length approved))) (Int size)) in
  (0 < size <= MAX_SAFE_INTEGER)%Z ->
  (Z.of_nat (length approved) <= MAX_SAFE_INTEGER)%Z ->
  storeFails E (storeCalls w) = None ->
  storeFails E (S (storeCalls w)) = None ->
  (forall p : nat, p < totalPages ->
     pageNo (reqs p) = Int (Z.of_nat p) /\ limit (reqs p) = Int size) ->
  List.concat
    (List.map (fun p => pageData (fst (getApprovedClassesPagination E (reqs p) w)))
       (seq 0 totalPages))
  = approved.
Proof.
  intros approved totalPages Hsize Htotal H0 H1 Hreqs.
  pose proof (ceilDiv_bounds (Z.of_nat (length approved)) size ltac:(lia)) as Hb.
  assert (Htp : totalPages = Z.to_nat (- ((- Z.of_nat (length approved)) / size))).
  { subst totalPages. rewrite roundDouble_safe by (rewrite Z.abs_eq; lia).
    rewrite ceilDiv_safe by lia. reflexivity. }
  rewrite <- (pages_concat (Z.to_nat size) totalPages approved).
  - f_equal. apply List.map_ext_in. intros p Hp.
    apply List.in_seq in Hp. destruct (Hreqs p) as [Hpage Hlimit]; [lia|].
    rewrite (getApprovedClassesPagination_ok E (reqs p) w (Z.of_nat p) size);
      try assumption; [|lia|fold approved; nia].
    cbn [fst pageData send].
    replace (Z.to_nat (Z.of_nat p * size)) with (p * Z.to_nat size) by nia.
    reflexivity.
  - rewrite Htp. nia.
Qed.

Lemma pages_cover_approved_witness :
  let reqs := fun p : nat =>
                match p with
                | 0 => page "0" "6"
                | 1 => page "1" "6"
                | _ => page "2" "6"
                end in
  let approved := List.filter (matches demoEnv (FEq "status" (Some (VStr "approved"))))
                    (collection (db thirteenApproved) classCollection) in
  let totalPages :=
    pagesOf (ceilDiv (roundDouble (Z.of_nat (length approved))) (Int 6)) in
  List.concat
    (List.map (fun p => pageData (fst (getApprovedClassesPagination demoEnv (reqs p)
                                         thirteenApproved)))
       (seq 0 totalPages))
  = approved.
Proof.
  intros reqs.
  apply (pages_cover_approved demoEnv thirteenApproved reqs 6);
    [unfold MAX_SAFE_INTEGER; lia | vm_compute; discriminate
    | reflexivity | reflexivity |].
  intros p Hp. vm_compute in Hp.
  destruct p as [|[|[|p]]]; [vm_compute; split; reflexivity..|lia].
Defined.

Lemma postCreatePaymentIntent_not_found_witness :
  postCreatePaymentIntent demoEnv
    (withBody {[ "courseId" := VStr unknownClassId ]} buy) demoShop
  = (Ok (Response 404 (message_ "Not found any classData by this class ID")),
     sent classCollection FindOne demoShop).
Proof.
  apply (postCreatePaymentIntent_not_found demoEnv _ demoShop unknownClassId);
    vm_compute; reflexivity.
Defined.

Lemma postCreatePaymentIntent_found_witness :
  let amount := (toNumber demoEnv (pricedClass !! "price") * 100)%float in
  postCreatePaymentIntent demoEnv buy demoShop
  = (match paymentIntentsCreate demoEnv amount "usd" with
     | inr paymentIntent =>
         Ok (send (PObject [("clientSecret", paymentIntent !! "client_secret")]))
     | inl error =>
         Ok (Response 500 (PObject [("error", Some (VStr (message error)))]))
     end,
     logEvent (EvPay amount "usd") (sent classCollection FindOne demoShop)).
Proof.
  apply (postCreatePaymentIntent_found demoEnv buy demoShop pricedClassId pricedClass);
    vm_compute; reflexivity.
Defined.

(** POST /create-payment-intent builds the ObjectId and looks the class up
    before its try block: a course id that [new ObjectId] refuses, or a
    lookup that throws, ends the handler in that error with no answer sent
    and no call to the payment provider. *)
Theorem payment_errors_before_try_unhandled (E : env) (req : request) (w : world)
    (e : exn) :
  (newObjectId E (body req !! "courseId") = inl e ->
   postCreatePaymentIntent E req w = (Throw e, w))
  /\ (forall oid : string,
        newObjectId E (body req !! "courseId") = inr oid ->
        storeFails E (storeCalls w) = Some e ->
        postCreatePaymentIntent E req w = (Throw e, sent classCollection FindOne w)).
Proof.
  split.
  - intros Hid. unfold postCreatePaymentIntent. rewrite Hid. reflexivity.
  - intros oid Hid H0. unfold postCreatePaymentIntent. rewrite Hid.
    run_more. reflexivity.
Defined.

Lemma payment_errors_before_try_unhandled_witness :
  postCreatePaymentIntent demoEnv
    (withBody {[ "courseId" := VStr "not-an-id" ]} buy) demoShop
  = (Throw invalidId, demoShop)
  /\ postCreatePaymentIntent demoEnvFail0 buy demoShop
     = (Throw (Exn "MongoNetworkError" "connection closed"),
        sent classCollection FindOne demoShop).
Proof.
  split.
  - destruct (payment_errors_before_try_unhandled demoEnv
                (withBody {[ "courseId" := VStr "not-an-id" ]} buy) demoShop
                invalidId) as [H _].
    apply H. reflexivity.
  - destruct (payment_errors_before_try_unhandled demoEnvFail0 buy demoShop
                (Exn "MongoNetworkError" "connection closed")) as [_ H].
    apply (H pricedClassId); reflexivity.
Defined.

(** GET /users/search builds the regular expression before its try block:
    a pattern the engine refuses ends the handler in that error, with no
    answer and no store command; a store error inside the try block is
    answered 500 "Error searching users". *)
Theorem users_search_errors (E : env) (req : request) (w : world) (p : string)
    (e : exn) :
  query req !! "email" = Some p ->
  (newRegExp E p "i" = Some e -> getUsersSearch E req w = (Throw e, w))
  /\ (newRegExp E p "i" = None ->
      storeFails E (storeCalls w) = Some e ->
      getUsersSearch E req w
      = (Ok (Response 500 (message_ "Error searching users")),
         sent usersCollection Find w)).
Proof.
  intros Hq. split.
  - intros Hre. unfold getUsersSearch. rewrite Hq.
    cbv beta iota zeta delta [bind tryCatch ret newRegExp_ throw]. rewrite Hre.
    reflexivity.
  - intros Hre H0. unfold getUsersSearch. rewrite Hq.
    cbv beta iota zeta delta [bind tryCatch ret newRegExp_ throw]. rewrite Hre.
    destruct (truthy (Some p)); rewrite find_fail with (e := e) by assumption;
      reflexivity.
Qed.

Lemma users_search_errors_witness :
  getUsersSearch demoEnvBadPattern (searchFor "(") demoUsers
  = (Throw (Exn "SyntaxError" "Invalid regular expression: /(/: Unterminated group"),
     demoUsers)
  /\ getUsersSearch demoEnvFail0 (searchFor "a") demoUsers
     = (Ok (Response 500 (message_ "Error searching users")),
        sent usersCollection Find demoUsers).
Proof.
  split.
  - destruct (users_search_errors demoEnvBadPattern (searchFor "(") demoUsers "("
                (Exn "SyntaxError" "Invalid regular expression: /(/: Unterminated group")
                eq_refl) as [H _].
    apply H. reflexivity.
  - destruct (users_search_errors demoEnvFail0 (searchFor "a") demoUsers "a"
                (Exn "MongoNetworkError" "connection closed") eq_refl) as [_ H].
    apply H; reflexivity.
Defined.
